(** * One side of a streaming order book (ccxtpro/base/order_book_side.py)

    A shallow embedding of the five [OrderBookSide] classes and of the
    properties their specification states.

    Python data is modelled as follows.
    - A delta and a stored level are Python lists: [list value].
    - Numbers are exact integers ([Z], Python's [int]); [None] and strings
      (order ids) are the other two kinds of value the code meets.
    - [self] is a list subclass with three more attributes: the key list
      [_index], the dict [_hashmap] and the two caps [_depth] and [_n].
    - An exception leaves the object in the state reached when it was raised:
      every operation is a function [book -> outcome], and both outcomes
      carry the book.
    Each call of [storeArray] is given a list of its own, as [store] and
    [__init__] do (the latter copies with [list(delta)]). *)

From Stdlib Require Import ZArith String List Lia.
From stdpp Require Import base decidable countable gmap list strings sorting.

Local Open Scope Z_scope.

(** ** Python values *)

Inductive value : Type :=
| VNone
| VNum (z : Z)
| VStr (s : string).

#[global] Instance value_eq_dec : EqDecision value.
Proof. solve_decision. Defined.

Definition value_to_sum (v : value) : unit + (Z + string) :=
  match v with
  | VNone => inl tt
  | VNum z => inr (inl z)
  | VStr s => inr (inr s)
  end.

Definition value_of_sum (x : unit + (Z + string)) : value :=
  match x with
  | inl _ => VNone
  | inr (inl z) => VNum z
  | inr (inr s) => VStr s
  end.

#[global] Instance value_countable : Countable value.
Proof.
  refine (inj_countable' value_to_sum value_of_sum _).
  intros []; reflexivity.
Defined.

Inductive exn : Type := IndexError | TypeError | ValueError | KeyError.

(** Result of an expression that touches no attribute of [self]. *)
Inductive res (A : Type) : Type :=
| Val (a : A)
| Exc (e : exn).
Arguments Val {A} a.
Arguments Exc {A} e.

(** [bool(v)], the test of [if v:] and of [a or b]. *)
Definition truthy (v : value) : bool :=
  match v with
  | VNone => false
  | VNum z => negb (z =? 0)
  | VStr s => negb (String.eqb s EmptyString)
  end.

(** [-v] *)
Definition py_neg (v : value) : res value :=
  match v with
  | VNum z => Val (VNum (- z))
  | _ => Exc TypeError
  end.

(** [abs(v)] *)
Definition py_abs (v : value) : res value :=
  match v with
  | VNum z => Val (VNum (Z.abs z))
  | _ => Exc TypeError
  end.

(** [a < b] *)
Definition py_lt (a b : value) : res bool :=
  match a, b with
  | VNum x, VNum y => Val (x <? y)
  | VStr x, VStr y => Val (String.ltb x y)
  | _, _ => Exc TypeError
  end.

(** [a > b] *)
Definition py_gt (a b : value) : res bool := py_lt b a.

(** [a + b] *)
Definition py_add (a b : value) : res value :=
  match a, b with
  | VNum x, VNum y => Val (VNum (x + y))
  | VStr x, VStr y => Val (VStr (x ++ y))
  | _, _ => Exc TypeError
  end.

(** [a or b] *)
Definition py_or (a b : value) : value := if truthy a then a else b.

(** [l[i]] for [i >= 0] *)
Definition py_getitem {A : Type} (l : list A) (i : nat) : res A :=
  match l !! i with
  | Some x => Val x
  | None => Exc IndexError
  end.

(** [l[i] = x] for [i >= 0] *)
Definition py_setitem {A : Type} (l : list A) (i : nat) (x : A) : res (list A) :=
  if (i <? length l)%nat then Val (<[i := x]> l) else Exc IndexError.

(** [del l[i]] for [i >= 0] *)
Definition py_delitem {A : Type} (l : list A) (i : nat) : res (list A) :=
  if (i <? length l)%nat then Val (delete i l) else Exc IndexError.

(** [l.insert(i, x)] for [i >= 0]; past the end it appends. *)
Definition py_insert {A : Type} (l : list A) (i : nat) (x : A) : list A :=
  take i l ++ x :: drop i l.

(** [l.pop()]: the list without its last element, and that element. *)
Definition py_pop {A : Type} (l : list A) : res (list A * A) :=
  match last l with
  | Some x => Val (removelast l, x)
  | None => Exc IndexError
  end.

Definition sys_maxsize : Z := 2 ^ 63 - 1.

(** ** bisect.bisect_left

    [while lo < hi: mid = (lo + hi) // 2; if a[mid] < x: lo = mid + 1 else: hi = mid].
    The interval shrinks at every turn, so [S (length a)] turns are more than
    the loop takes ([bisect_loop_fuel]). *)

Fixpoint bisect_loop (fuel : nat) (a : list value) (x : value) (lo hi : nat) : res nat :=
  match fuel with
  | O => Val lo
  | S fuel' =>
      if (lo <? hi)%nat then
        let mid := ((lo + hi) / 2)%nat in
        match py_getitem a mid with
        | Exc e => Exc e
        | Val am =>
            match py_lt am x with
            | Exc e => Exc e
            | Val true => bisect_loop fuel' a x (mid + 1)%nat hi
            | Val false => bisect_loop fuel' a x lo mid
            end
        end
      else Val lo
  end.

Definition bisect_left (a : list value) (x : value) : res nat :=
  bisect_loop (S (length a)) a x 0%nat (length a).

(** ** The object and the monad of its methods *)

Record book : Type := Book {
  levels : list (list value);      (* the list content of [self] *)
  _index : list value;             (* parallel to [self] *)
  _hashmap : gmap value value;     (* order id -> sort key; indexed classes only *)
  _depth : Z;
  _n : Z
}.

Inductive outcome (A : Type) : Type :=
| Ok (a : A) (s : book)
| Raise (e : exn) (s : book).
Arguments Ok {A} a s.
Arguments Raise {A} e s.

Definition state_of {A : Type} (o : outcome A) : book :=
  match o with
  | Ok _ s => s
  | Raise _ s => s
  end.

Definition M (A : Type) : Type := book -> outcome A.

Definition ret {A : Type} (a : A) : M A := fun s => Ok a s.

Definition raise {A : Type} (e : exn) : M A := fun s => Raise e s.

Definition bind {A B : Type} (m : M A) (k : A -> M B) : M B :=
  fun s =>
    match m s with
    | Ok a s' => k a s'
    | Raise e s' => Raise e s'
    end.

Declare Scope py_scope.
Delimit Scope py_scope with py.
Notation "'let*' x := m 'in' k" := (bind m (fun x => k))
  (at level 10, x name, m at level 100, k at level 200) : py_scope.
Notation "m ;; k" := (bind m (fun _ => k))
  (at level 100, k at level 200, right associativity) : py_scope.
Local Open Scope py_scope.

Definition lift {A : Type} (r : res A) : M A :=
  match r with
  | Val a => ret a
  | Exc e => raise e
  end.

Definition get : M book := fun s => Ok s s.

Definition set_levels (l : list (list value)) : M unit :=
  fun s => Ok tt (Book l (_index s) (_hashmap s) (_depth s) (_n s)).

Definition set_index (ix : list value) : M unit :=
  fun s => Ok tt (Book (levels s) ix (_hashmap s) (_depth s) (_n s)).

Definition set_hashmap (h : gmap value value) : M unit :=
  fun s => Ok tt (Book (levels s) (_index s) h (_depth s) (_n s)).

Definition set_n (n : Z) : M unit :=
  fun s => Ok tt (Book (levels s) (_index s) (_hashmap s) (_depth s) n).

(** [bisect.bisect_left(self._index, x)] *)
Definition index_bisect (x : value) : M nat :=
  let* s := get in lift (bisect_left (_index s) x).

(** [index < len(self._index) and self._index[index] == index_price] *)
Definition index_matches (index : nat) (index_price : value) : M bool :=
  let* s := get in
  ret (match _index s !! index with
       | Some k => bool_decide (k = index_price)
       | None => false
       end).

(** [self._index.insert(index, index_price)] *)
Definition index_insert (index : nat) (index_price : value) : M unit :=
  let* s := get in set_index (py_insert (_index s) index index_price).

(** [self._index[index] = index_price] *)
Definition index_setitem (index : nat) (index_price : value) : M unit :=
  let* s := get in let* ix := lift (py_setitem (_index s) index index_price) in set_index ix.

(** [del self._index[index]] *)
Definition index_delitem (index : nat) : M unit :=
  let* s := get in let* ix := lift (py_delitem (_index s) index) in set_index ix.

(** [self.insert(index, delta)] *)
Definition self_insert (index : nat) (delta : list value) : M unit :=
  let* s := get in set_levels (py_insert (levels s) index delta).

(** [self[index] = delta] *)
Definition self_setitem (index : nat) (delta : list value) : M unit :=
  let* s := get in let* l := lift (py_setitem (levels s) index delta) in set_levels l.

(** [del self[index]] *)
Definition self_delitem (index : nat) : M unit :=
  let* s := get in let* l := lift (py_delitem (levels s) index) in set_levels l.

(** [self[index][field] = v]: the stored level is updated in place. *)
Definition level_setitem (index field : nat) (v : value) : M unit :=
  let* s := get in
  let* lvl := lift (py_getitem (levels s) index) in
  let* lvl' := lift (py_setitem lvl field v) in
  set_levels (<[index := lvl']> (levels s)).

(** [self[index][field]] *)
Definition level_getitem (index field : nat) : M value :=
  let* s := get in
  let* lvl := lift (py_getitem (levels s) index) in
  lift (py_getitem lvl field).

(** [order_id in self._hashmap] *)
Definition hashmap_contains (order_id : value) : M bool :=
  let* s := get in ret (bool_decide (is_Some (_hashmap s !! order_id))).

(** [self._hashmap[order_id]]; every use is guarded by [in]. *)
Definition hashmap_getitem (order_id : value) : M value :=
  let* s := get in
  match _hashmap s !! order_id with
  | Some k => ret k
  | None => raise KeyError
  end.

(** [self._hashmap[order_id] = index_price] *)
Definition hashmap_setitem (order_id index_price : value) : M unit :=
  let* s := get in set_hashmap (<[order_id := index_price]> (_hashmap s)).

(** [del self._hashmap[order_id]]; every use is guarded by [in]. *)
Definition hashmap_delitem (order_id : value) : M unit :=
  let* s := get in set_hashmap (delete order_id (_hashmap s)).

(** [-price if self.side else price]; [side] is [true] for bids. *)
Definition index_price_of (side : bool) (price : value) : res value :=
  if side then py_neg price else Val price.

(** ** OrderBookSide.storeArray (lines 25-38) *)

Definition OrderBookSide_storeArray (side : bool) (delta : list value) : M unit :=
  let* price := lift (py_getitem delta 0) in
  let* size := lift (py_getitem delta 1) in
  let* index_price := lift (index_price_of side price) in
  let* index := index_bisect index_price in
  let* found := index_matches index index_price in
  if truthy size then
    if found then level_setitem index 1 size
    else (index_insert index index_price ;; self_insert index delta)
  else if found then (index_delitem index ;; self_delitem index)
  else ret tt.

(** ** CountedOrderBookSide.storeArray (lines 88-103) *)

Definition CountedOrderBookSide_storeArray (side : bool) (delta : list value) : M unit :=
  let* price := lift (py_getitem delta 0) in
  let* size := lift (py_getitem delta 1) in
  let* count := lift (py_getitem delta 2) in
  let* index_price := lift (index_price_of side price) in
  let* index := index_bisect index_price in
  let* found := index_matches index index_price in
  if truthy size && truthy count then
    if found then (level_setitem index 1 size ;; level_setitem index 2 count)
    else (index_insert index index_price ;; self_insert index delta)
  else if found then (index_delitem index ;; self_delitem index)
  else ret tt.

(** ** IndexedOrderBookSide.storeArray (lines 117-153) *)

(** Lines 119-122: the key is [None] when the price is. *)
Definition optional_index_price (side : bool) (price : value) : res value :=
  match price with
  | VNone => Val VNone
  | _ => index_price_of side price
  end.

(** Lines 144-147, shared by both indexed classes. *)
Definition insert_new_price_level (order_id index_price : value) (delta : list value) : M unit :=
  hashmap_setitem order_id index_price ;;
  let* index := index_bisect index_price in
  index_insert index index_price ;;
  self_insert index delta.

(** Lines 149-153, shared by both indexed classes. *)
Definition remove_order (order_id : value) : M unit :=
  let* old_price := hashmap_getitem order_id in
  let* index := index_bisect old_price in
  index_delitem index ;;
  self_delitem index ;;
  hashmap_delitem order_id.

(** Lines 140-142. *)
Definition remove_old_price_level (old_price : value) : M unit :=
  let* old_index := index_bisect old_price in
  index_delitem old_index ;;
  self_delitem old_index.

Definition IndexedOrderBookSide_storeArray (side : bool) (delta : list value) : M unit :=
  let* price := lift (py_getitem delta 0) in
  let* index_price := lift (optional_index_price side price) in
  let* size := lift (py_getitem delta 1) in
  let* order_id := lift (py_getitem delta 2) in
  let* known := hashmap_contains order_id in
  if truthy size then
    if known then
      let* old_price := hashmap_getitem order_id in
      let index_price := py_or index_price old_price in
      let* p := lift (py_abs index_price) in
      let delta := <[0%nat := p]> delta in
      if bool_decide (index_price = old_price) then
        let* index := index_bisect index_price in
        index_setitem index index_price ;;
        self_setitem index delta
      else
        remove_old_price_level old_price ;;
        insert_new_price_level order_id index_price delta
    else insert_new_price_level order_id index_price delta
  else if known then remove_order order_id
  else ret tt.

(** ** IncrementalOrderBookSide.storeArray (lines 171-187) *)

Definition IncrementalOrderBookSide_storeArray (side : bool) (delta : list value) : M unit :=
  let* price := lift (py_getitem delta 0) in
  let* size := lift (py_getitem delta 1) in
  let* index_price := lift (index_price_of side price) in
  let* index := index_bisect index_price in
  let* index_exists := index_matches index index_price in
  let* size :=
    (if index_exists then
       let* old := level_getitem index 1 in lift (py_add size old)
     else ret size) in
  let* positive := lift (py_gt size (VNum 0)) in
  if positive then
    if index_exists then level_setitem index 1 size
    else (index_insert index index_price ;; self_insert index delta)
  else
    let* found := index_matches index index_price in
    if found then (index_delitem index ;; self_delitem index)
    else ret tt.

(** ** IncrementalIndexedOrderBookSide.storeArray (lines 194-240)

    [old_price] and [index] start as [None]; the first block sets them. *)

Definition IncrementalIndexedOrderBookSide_storeArray (side : bool) (delta : list value)
  : M unit :=
  let* price := lift (py_getitem delta 0) in
  let* index_price := lift (optional_index_price side price) in
  let* size := lift (py_getitem delta 1) in
  let* order_id := lift (py_getitem delta 2) in
  let* contains_index := hashmap_contains order_id in
  let* positive := lift (py_gt size (VNum 0)) in
  let* locals :=
    (if positive && contains_index then
       let* old_price := hashmap_getitem order_id in
       let index_price := py_or index_price old_price in
       let* index := index_bisect index_price in
       let* old_size := level_getitem index 1 in
       let* size := lift (py_add size old_size) in
       let* p := lift (py_abs index_price) in
       ret (old_price, Some index, index_price, size,
            <[1%nat := size]> (<[0%nat := p]> delta))
     else ret (VNone, None, index_price, size, delta)) in
  let '(old_price, index, index_price, size, delta) := locals in
  let* positive := lift (py_gt size (VNum 0)) in
  if positive then
    if contains_index then
      if bool_decide (index_price = old_price) then
        match index with
        | Some index =>
            index_setitem index index_price ;;
            self_setitem index delta
        | None => raise TypeError
        end
      else
        remove_old_price_level old_price ;;
        insert_new_price_level order_id index_price delta
    else insert_new_price_level order_id index_price delta
  else if contains_index then remove_order order_id
  else ret tt.

(** ** The classes *)

Inductive variant : Type :=
| Absolute             (* OrderBookSide *)
| Counted              (* CountedOrderBookSide *)
| Indexed              (* IndexedOrderBookSide *)
| Incremental          (* IncrementalOrderBookSide *)
| IncrementalIndexed.  (* IncrementalIndexedOrderBookSide *)

(** Method resolution of [self.storeArray]. *)
Definition storeArray (v : variant) : bool -> list value -> M unit :=
  match v with
  | Absolute => OrderBookSide_storeArray
  | Counted => CountedOrderBookSide_storeArray
  | Indexed => IndexedOrderBookSide_storeArray
  | Incremental => IncrementalOrderBookSide_storeArray
  | IncrementalIndexed => IncrementalIndexedOrderBookSide_storeArray
  end.

(** Fields a delta of each class has. *)
Definition arity (v : variant) : nat :=
  match v with
  | Absolute | Incremental => 2
  | Counted | Indexed | IncrementalIndexed => 3
  end.

Definition is_indexed (v : variant) : bool :=
  match v with
  | Indexed | IncrementalIndexed => true
  | _ => false
  end.

(** [remove_index] (lines 50-51 and 155-158). *)
Definition remove_index (v : variant) (order : list value) : M unit :=
  if is_indexed v then
    let* order_id := lift (py_getitem order 2) in
    let* known := hashmap_contains order_id in
    if known then hashmap_delitem order_id else ret tt
  else ret tt.

(** [__len__] (lines 59-61); [len()] refuses a negative answer. *)
Definition py_len : M Z :=
  let* s := get in
  let length := Z.of_nat (length (levels s)) in
  let r := Z.min length (_n s) in
  if r <? 0 then raise ValueError else ret r.

(** [self.pop()] *)
Definition self_pop : M (list value) :=
  let* s := get in
  let* r := lift (py_pop (levels s)) in
  set_levels (fst r) ;; ret (snd r).

(** [self._index.pop()] *)
Definition index_pop : M unit :=
  let* s := get in
  let* r := lift (py_pop (_index s)) in
  set_index (fst r).

(** [for _ in range(k): body] *)
Fixpoint repeat_times (k : nat) (body : M unit) : M unit :=
  match k with
  | O => ret tt
  | S k' => body ;; repeat_times k' body
  end.

(** The body of the loop of [limit] (lines 47-48). *)
Definition pop_worst (v : variant) : M unit :=
  let* order := self_pop in
  remove_index v order ;;
  index_pop.

(** [sys.maxsize if n is None else n] *)
Definition visible (n : option Z) : Z :=
  match n with
  | None => sys_maxsize
  | Some n => n
  end.

(** [limit] (lines 43-48). *)
Definition limit (v : variant) (n : option Z) : M unit :=
  set_n (visible n) ;;
  let* len_self := py_len in
  let* s := get in
  let difference := len_self - _depth s in
  repeat_times (Z.to_nat difference) (pop_worst v).

(** [__getitem__] with an integer (line 68): [list.__getitem__], which
    counts a negative index from the end. *)
Definition getitem_int (item : Z) : M (list value) :=
  let* s := get in
  let len := Z.of_nat (length (levels s)) in
  let i := if item <? 0 then item + len else item in
  if (i <? 0) || (len <=? i) then raise IndexError
  else lift (py_getitem (levels s) (Z.to_nat i)).

(** [__iter__] (lines 53-57): an [islice] over a list iterator. The list
    iterator is a cursor into the live list; [islice] counts what it has
    handed out up to its stop. *)
Record iterator : Type := Iterator {
  it_pos : nat;
  it_cnt : Z;
  it_stop : Z
}.

Definition py_iter : M iterator :=
  let* s := get in
  if (_n s <? 0) || (sys_maxsize <? _n s) then raise ValueError
  else ret (Iterator 0 0 (_n s)).

(** [next(it)]; [None] is StopIteration. *)
Definition py_next (s : book) (it : iterator) : option (list value * iterator) :=
  if it_cnt it <? it_stop it then
    match levels s !! it_pos it with
    | Some lvl => Some (lvl, Iterator (S (it_pos it)) (it_cnt it + 1) (it_stop it))
    | None => None
    end
  else None.

(** [list(it)], with at most [fuel] calls of [next] that yield. *)
Fixpoint drain (fuel : nat) (s : book) (it : iterator) : list (list value) :=
  match fuel with
  | O => []
  | S fuel' =>
      match py_next s it with
      | Some (lvl, it') => lvl :: drain fuel' s it'
      | None => []
      end
  end.

(** [list(self)]: a fresh iterator, drained. *)
Definition to_list : M (list (list value)) :=
  let* it := py_iter in
  let* s := get in
  ret (drain (length (levels s)) s it).

(** [__init__] (lines 16-23 and 113-115). *)
Definition empty_book (depth : option Z) : book :=
  Book [] [] ∅
    (match depth with
     | Some d => if d =? 0 then sys_maxsize else d
     | None => sys_maxsize
     end)
    sys_maxsize.

Fixpoint store_all (v : variant) (side : bool) (deltas : list (list value)) : M unit :=
  match deltas with
  | [] => ret tt
  | delta :: rest => storeArray v side delta ;; store_all v side rest
  end.

Definition init (v : variant) (side : bool) (deltas : list (list value)) (depth : option Z)
  : outcome unit :=
  store_all v side deltas (empty_book depth).

(** ** Histories of calls

    A caller that catches an exception goes on with the object as the failed
    call left it. *)

Inductive op : Type :=
| OpStore (delta : list value)
| OpLimit (n : option Z).

Definition apply_op (v : variant) (side : bool) (s : book) (o : op) : book :=
  match o with
  | OpStore delta => state_of (storeArray v side delta s)
  | OpLimit n => state_of (limit v n s)
  end.

Definition run (v : variant) (side : bool) (s : book) (ops : list op) : book :=
  fold_left (apply_op v side) ops s.

(** ** Vocabulary of the statements *)

(** The two lists are parallel. *)
Definition parallel (s : book) : Prop :=
  length (_index s) = length (levels s).

(** A stored level has the fields of its class's delta. *)
Definition shaped (v : variant) (s : book) : Prop :=
  Forall (fun lvl => (arity v <= length lvl)%nat) (levels s).

(** The order ids carried by a list of levels. *)
Definition order_ids (lvls : list (list value)) : list value :=
  omap (fun lvl => lvl !! 2%nat) lvls.

(** What the [remove_index] hook leaves of the dict once it has been called
    on each of [popped], last one first. *)
Definition forget (v : variant) (popped : list (list value)) (h : gmap value value)
  : gmap value value :=
  if is_indexed v then foldr (fun lvl h => from_option (fun o => delete o h) h (lvl !! 2%nat)) h popped
  else h.

Arguments bisect_left : simpl never.
Arguments py_insert : simpl never.
Arguments py_delitem : simpl never.
Arguments py_setitem : simpl never.
Arguments py_pop : simpl never.
Arguments sys_maxsize : simpl never.
Arguments optional_index_price : simpl never.
Arguments index_price_of : simpl never.

Ltac mrun :=
  unfold bind, ret, raise, lift, get, set_levels, set_index, set_hashmap, set_n; cbn.

(** ** Worked instances *)

(** Asks with three levels and [limit(1)]. *)
Definition three_asks : book :=
  run Absolute false (empty_book None)
    [OpStore [VNum 10; VNum 1]; OpStore [VNum 9; VNum 1]; OpStore [VNum 11; VNum 1];
     OpLimit (Some 1)].

(** IndexedAsks(depth=2) after three orders at three prices. *)
Definition three_orders : book :=
  run Indexed false (empty_book (Some 2))
    [OpStore [VNum 10; VNum 1; VStr "A"]; OpStore [VNum 11; VNum 1; VStr "B"];
     OpStore [VNum 12; VNum 1; VStr "C"]].

(** Asks(depth=1) after two deltas and no call of [limit]. *)
Definition two_asks_depth_one : book :=
  run Absolute false (empty_book (Some 1))
    [OpStore [VNum 10; VNum 1]; OpStore [VNum 11; VNum 1]].

(** The sort key of a numeric price: [-price] for bids, [price] for asks. *)
Definition sort_key (side : bool) (price : Z) : Z :=
  if side then - price else price.

Arguments index_bisect : simpl never.
Arguments index_matches : simpl never.
Arguments level_setitem : simpl never.
Arguments level_getitem : simpl never.

Arguments index_insert : simpl never.
Arguments self_insert : simpl never.
Arguments index_delitem : simpl never.
Arguments self_delitem : simpl never.

(** The key list holds numbers in strictly ascending order. *)
Definition sorted_keys (s : book) : Prop :=
  exists ks : list Z, _index s = VNum <$> ks /\ StronglySorted Z.lt ks.

(** The delta states a numeric price. *)
Definition numeric_price (delta : list value) : bool :=
  match delta with
  | VNum _ :: _ => true
  | _ => false
  end.

Definition numeric_op (o : op) : bool :=
  match o with
  | OpStore delta => numeric_price delta
  | OpLimit _ => true
  end.

(** IndexedAsks after two orders at the same price. *)
Definition two_orders_one_price : book :=
  run Indexed false (empty_book None)
    [OpStore [VNum 10; VNum 1; VStr "A"]; OpStore [VNum 10; VNum 1; VStr "B"]].

(** Field 1 of every stored level is a number. *)
Definition numeric_sizes (s : book) : Prop :=
  Forall (fun lvl => exists z : Z, lvl !! 1%nat = Some (VNum z)) (levels s).

(** Asks(depth=3) after the four deltas and the [limit()] of the
    specification's first scenario. *)
Definition four_asks_depth_three : book :=
  run Absolute false (empty_book (Some 3))
    [OpStore [VNum 10; VNum 1]; OpStore [VNum 9; VNum 1]; OpStore [VNum 11; VNum 1];
     OpStore [VNum 8; VNum 1]; OpLimit None].

(** IncrementalAsks after [(10, 5)]. *)
Definition one_incremental_ask : book :=
  run Incremental false (empty_book None) [OpStore [VNum 10; VNum 5]].

(** IndexedAsks: orders A and B at price 10, then the deletion of A. *)
Definition delete_one_of_two : book :=
  run Indexed false (empty_book None)
    [OpStore [VNum 10; VNum 1; VStr "A"]; OpStore [VNum 10; VNum 1; VStr "B"];
     OpStore [VNone; VNum 0; VStr "A"]].

(** IncrementalIndexedAsks holding order A at price 10 with size 5. *)
Definition one_incremental_order : book :=
  run IncrementalIndexed false (empty_book None) [OpStore [VNum 10; VNum 5; VStr "A"]].

(** The same with order B at price 12 and size 7 as well. *)
Definition two_incremental_orders : book :=
  run IncrementalIndexed false (empty_book None)
    [OpStore [VNum 10; VNum 5; VStr "A"]; OpStore [VNum 12; VNum 7; VStr "B"]].

(** What every reachable object satisfies: parallel lists and levels with
    the fields of their class. *)
Definition well_formed (v : variant) (s : book) : Prop :=
  parallel s /\ shaped v s.

(** [m] keeps [P], whether it returns or raises. *)
Definition preserves {A : Type} (P : book -> Prop) (m : M A) : Prop :=
  forall s, P s -> P (state_of (m s)).

(** [m] reads the object and leaves it alone. *)
Definition readonly {A : Type} (m : M A) : Prop :=
  forall s, state_of (m s) = s.

Arguments index_setitem : simpl never.
Arguments self_setitem : simpl never.
Arguments hashmap_contains : simpl never.
Arguments hashmap_getitem : simpl never.
Arguments hashmap_setitem : simpl never.
Arguments hashmap_delitem : simpl never.

(** Weakest precondition of [m]: on return [Q] holds of the value and the
    object, on an exception [I] holds of the object. *)
Definition wp {A : Type} (I : book -> Prop) (m : M A) (Q : A -> book -> Prop) (s : book)
  : Prop :=
  match m s with
  | Ok a s' => Q a s'
  | Raise _ s' => I s'
  end.

(** The key list holds numbers in ascending order, equal keys allowed. *)
Definition ascending (ix : list value) : Prop :=
  exists ks : list Z, ix = VNum <$> ks /\ StronglySorted Z.le ks.

(** Every key the dict maps an order id to is a number. *)
Definition numeric_map (h : gmap value value) : Prop :=
  forall o k, h !! o = Some k -> exists z : Z, k = VNum z.

Definition indexed_inv (s : book) : Prop :=
  ascending (_index s) /\ numeric_map (_hashmap s).

(** A delta an order-indexed book can place: it states a numeric price, or
    its order id is known, or its size is zero. *)
Definition placeable (s : book) (delta : list value) : bool :=
  numeric_price delta
  || match delta !! 2%nat with
     | Some order_id => bool_decide (is_Some (_hashmap s !! order_id))
     | None => false
     end
  || match delta !! 1%nat with
     | Some (VNum 0) => true
     | _ => false
     end.

Definition placeable_op (s : book) (o : op) : bool :=
  match o with
  | OpStore delta => placeable s delta
  | OpLimit _ => true
  end.

(** Every call of the history is placeable when it is made. *)
Fixpoint placeable_history (v : variant) (side : bool) (s : book) (ops : list op) : bool :=
  match ops with
  | [] => true
  | o :: rest => placeable_op s o && placeable_history v side (apply_op v side s o) rest
  end.

(** IndexedBids after the three deltas of the specification's second
    scenario. *)
Definition moved_then_removed : list op :=
  [OpStore [VNum 100; VNum 5; VStr "A"]; OpStore [VNum 105; VNum 5; VStr "A"];
   OpStore [VNone; VNum 0; VStr "A"]].

(** A level as [storeArray] stores it: the size is nonzero (Absolute,
    Order-Indexed), size and count are nonzero (Counted), the size is a
    positive number (the two Incremental classes). *)
Definition live (v : variant) (lvl : list value) : Prop :=
  match v with
  | Absolute | Indexed =>
      exists size, lvl !! 1%nat = Some size /\ truthy size = true
  | Counted =>
      exists size count,
        lvl !! 1%nat = Some size /\ lvl !! 2%nat = Some count
        /\ truthy size = true /\ truthy count = true
  | Incremental | IncrementalIndexed =>
      exists z : Z, lvl !! 1%nat = Some (VNum z) /\ 0 < z
  end.

Definition all_live (v : variant) (s : book) : Prop := Forall (live v) (levels s).

(** The key [k] is the sort key of the numeric price in field 0 of [lvl]. *)
Definition priced (side : bool) (lvl : list value) (k : value) : Prop :=
  exists price : Z, lvl !! 0%nat = Some (VNum price) /\ k = VNum (sort_key side price).

(** Position by position, the key list holds the keys of the levels. *)
Definition keyed (side : bool) (s : book) : Prop :=
  Forall2 (priced side) (levels s) (_index s).

(** Best first: ascending prices for asks, descending for bids. *)
Definition better (side : bool) (p q : Z) : Prop :=
  if side then q < p else p < q.

(** CountedAsks after two deltas. *)
Definition two_counted_asks : book :=
  run Counted false (empty_book None)
    [OpStore [VNum 10; VNum 1; VNum 2]; OpStore [VNum 12; VNum 3; VNum 1]].

(** IndexedBids holding order A at price 100. *)
Definition one_bid_order : book :=
  run Indexed true (empty_book None) [OpStore [VNum 100; VNum 5; VStr "A"]].

(** ** [__getitem__] with a slice (lines 64-66)

    A slice [start:stop:step] whose bounds are absent or integers. *)
Record slice : Type := Slice {
  sl_start : option Z;
  sl_stop : option Z;
  sl_step : option Z
}.

(** [item.indices(length)]: the step defaults to 1 and may not be 0; a
    negative bound counts from the end; both bounds are clamped to the
    positions a walk in the direction of the step can reach. *)
Definition slice_indices (item : slice) (length : Z) : res (Z * Z * Z) :=
  let step := default 1 (sl_step item) in
  if step =? 0 then Exc ValueError
  else
    let lower := if step <? 0 then -1 else 0 in
    let upper := if step <? 0 then length - 1 else length in
    let clamp (bound : Z) :=
      if bound <? 0 then Z.max (bound + length) lower else Z.min bound upper in
    let start :=
      match sl_start item with
      | None => if step <? 0 then upper else lower
      | Some bound => clamp bound
      end in
    let stop :=
      match sl_stop item with
      | None => if step <? 0 then lower else upper
      | Some bound => clamp bound
      end in
    Val (start, stop, step).

(** [len(range(start, stop, step))] for a nonzero step. *)
Definition range_len (start stop step : Z) : Z :=
  if 0 <? step then
    if start <? stop then (stop - start - 1) / step + 1 else 0
  else
    if stop <? start then (start - stop - 1) / (- step) + 1 else 0.

(** [range(start, stop, step)] *)
Definition py_range (start stop step : Z) : list Z :=
  (fun k : nat => start + Z.of_nat k * step) <$> seq 0 (Z.to_nat (range_len start stop step)).

(** [[self[i] for i in items]] *)
Fixpoint getitem_each (items : list Z) : M (list (list value)) :=
  match items with
  | [] => ret []
  | i :: rest =>
      let* lvl := getitem_int i in
      let* r := getitem_each rest in
      ret (lvl :: r)
  end.

Definition getitem_slice (item : slice) : M (list (list value)) :=
  let* len_self := py_len in
  let* bounds := lift (slice_indices item len_self) in
  let '(start, stop, step) := bounds in
  getitem_each (py_range start stop step).


(** * Properties *)

(** ** Binary search on a numeric key list *)

Lemma bisect_loop_split (fuel : nat) (l1 l2 : list Z) (z : Z) (lo hi : nat) :
  Forall (fun y => y < z) l1 ->
  Forall (fun y => z <= y) l2 ->
  (lo <= length l1 <= hi)%nat ->
  (hi <= length (l1 ++ l2))%nat ->
  (hi - lo < fuel)%nat ->
  bisect_loop fuel (VNum <$> (l1 ++ l2)) (VNum z) lo hi = Val (length l1).
Proof.
  intros Hlt Hge. revert lo hi.
  induction fuel as [|fuel IH]; intros lo hi Hlo Hhi Hfuel; [lia|].
  cbn [bisect_loop]. destruct (lo <? hi)%nat eqn:E.
  - apply Nat.ltb_lt in E.
    assert (Hmid : (lo <= (lo + hi) / 2 < hi)%nat).
    { pose proof (Nat.div_mod_eq (lo + hi) 2) as Hd.
      pose proof (Nat.mod_upper_bound (lo + hi) 2). lia. }
    set (mid := ((lo + hi) / 2)%nat) in *.
    unfold py_getitem. rewrite list_lookup_fmap.
    destruct (decide (mid < length l1)%nat) as [Hin|Hout].
    + destruct (lookup_lt_is_Some_2 l1 mid Hin) as [y Hy].
      rewrite (lookup_app_l_Some _ _ _ _ Hy). cbn [fmap option_fmap option_map py_lt].
      pose proof (Forall_lookup_1 _ _ _ _ Hlt Hy) as Hyz. simpl in Hyz.
      replace (y <? z) with true by (symmetry; apply Z.ltb_lt; lia).
      apply IH; lia.
    + pose proof Hhi as Hhi'. rewrite length_app in Hhi'.
      assert (Hin : (mid - length l1 < length l2)%nat) by lia.
      destruct (lookup_lt_is_Some_2 l2 _ Hin) as [y Hy].
      rewrite lookup_app_r by lia. rewrite Hy. cbn [fmap option_fmap option_map py_lt].
      pose proof (Forall_lookup_1 _ _ _ _ Hge Hy) as Hyz. simpl in Hyz.
      replace (y <? z) with false by (symmetry; apply Z.ltb_ge; lia).
      apply IH; lia.
  - apply Nat.ltb_ge in E. f_equal. lia.
Qed.

Lemma bisect_left_split (l1 l2 : list Z) (z : Z) :
  Forall (fun y => y < z) l1 ->
  Forall (fun y => z <= y) l2 ->
  bisect_left (VNum <$> (l1 ++ l2)) (VNum z) = Val (length l1).
Proof.
  intros Hlt Hge. unfold bisect_left.
  apply bisect_loop_split; auto; rewrite ?length_fmap, ?length_app; lia.
Qed.

(** The loop of [bisect_left] ends before its fuel does: with more turns than
    the interval is long, the answer does not depend on the fuel. *)
Lemma bisect_loop_fuel (a : list value) (x : value) (fuel fuel' lo hi : nat) :
  (hi - lo < fuel)%nat -> (hi - lo < fuel')%nat ->
  bisect_loop fuel a x lo hi = bisect_loop fuel' a x lo hi.
Proof.
  revert fuel' lo hi. induction fuel as [|fuel IH]; intros fuel' lo hi H1 H2; [lia|].
  destruct fuel' as [|fuel']; [lia|].
  cbn [bisect_loop]. destruct (lo <? hi)%nat eqn:E; [|reflexivity].
  apply Nat.ltb_lt in E.
  assert (Hmid : (lo <= (lo + hi) / 2 < hi)%nat).
  { pose proof (Nat.div_mod_eq (lo + hi) 2) as Hd.
    pose proof (Nat.mod_upper_bound (lo + hi) 2). lia. }
  destruct (py_getitem a _) as [am|]; [|reflexivity].
  destruct (py_lt am x) as [[|]|]; [apply IH; lia|apply IH; lia|reflexivity].
Qed.

(** [bisect_left] returns a position of the list. *)
Lemma bisect_loop_bound (a : list value) (x : value) (fuel lo hi p : nat) :
  (lo <= hi)%nat ->
  bisect_loop fuel a x lo hi = Val p -> (lo <= p <= hi)%nat.
Proof.
  revert lo hi. induction fuel as [|fuel IH]; intros lo hi Hle; cbn [bisect_loop].
  - intros [= <-]. lia.
  - destruct (lo <? hi)%nat eqn:E; [|intros [= <-]; lia].
    apply Nat.ltb_lt in E.
    assert (Hmid : (lo <= (lo + hi) / 2 < hi)%nat).
    { pose proof (Nat.div_mod_eq (lo + hi) 2) as Hd.
      pose proof (Nat.mod_upper_bound (lo + hi) 2). lia. }
    destruct (py_getitem a _) as [am|]; [|discriminate].
    destruct (py_lt am x) as [[|]|]; [| |discriminate]; intros H; apply IH in H; lia.
Qed.

Lemma bisect_left_bound (a : list value) (x : value) (p : nat) :
  bisect_left a x = Val p -> (p <= length a)%nat.
Proof. intros H. apply bisect_loop_bound in H; lia. Qed.

(** A sorted list splits at any key into the smaller and the others. *)
Lemma sorted_split (ks : list Z) (z : Z) :
  StronglySorted Z.le ks ->
  exists l1 l2, ks = l1 ++ l2 /\ Forall (fun y => y < z) l1 /\ Forall (fun y => z <= y) l2.
Proof.
  induction 1 as [|a ks Hs IH Ha].
  - exists [], []. repeat split; constructor.
  - destruct (Z_lt_dec a z) as [Hlt|Hge].
    + destruct IH as (l1 & l2 & -> & H1 & H2).
      exists (a :: l1), l2. repeat split; auto.
    + exists [], (a :: ks). repeat split; auto.
      constructor; [lia|]. eapply Forall_impl; [exact Ha|]. simpl. intros; lia.
Qed.

Lemma strict_sorted_le (ks : list Z) :
  StronglySorted Z.lt ks -> StronglySorted Z.le ks.
Proof.
  induction 1; constructor; auto.
  eapply Forall_impl; [eassumption|]. simpl. intros; lia.
Qed.

(** ** Malformed deltas *)

Lemma storeArray_short (v : variant) (side : bool) (delta : list value) (s : book) :
  (length delta < arity v)%nat ->
  exists e, storeArray v side delta s = Raise e s.
Proof.
  intros Hlen.
  destruct delta as [|price [|size [|third rest]]];
    [| | |destruct v; simpl in Hlen; lia];
    destruct v; simpl in Hlen; try lia;
    unfold storeArray, OrderBookSide_storeArray, CountedOrderBookSide_storeArray,
      IndexedOrderBookSide_storeArray, IncrementalOrderBookSide_storeArray,
      IncrementalIndexedOrderBookSide_storeArray, optional_index_price, index_price_of;
    mrun; eauto;
    destruct side, price; cbn; eauto.
Qed.

(** C9. For every class, a delta with fewer fields than the class's delta
    shape makes [storeArray] raise, and the object is exactly as it was before
    the call: level list, key list, dict and both caps. *)
Theorem malformed_delta_no_mutation (v : variant) (side : bool) (delta : list value)
    (s : book) :
  (length delta < arity v)%nat ->
  exists e, storeArray v side delta s = Raise e s.
Proof. apply storeArray_short. Qed.

Lemma malformed_delta_no_mutation_witness :
  exists e, storeArray Counted true [VNum 10; VNum 1] (empty_book (Some 3))
            = Raise e (empty_book (Some 3)).
Proof. apply malformed_delta_no_mutation. simpl. lia. Defined.

(** ** The list primitives inside their bounds *)

Lemma py_setitem_lt {A : Type} (l : list A) (i : nat) (x : A) :
  (i < length l)%nat -> py_setitem l i x = Val (<[i := x]> l).
Proof. intros H. unfold py_setitem. by rewrite (proj2 (Nat.ltb_lt _ _) H). Qed.

Lemma py_setitem_ge {A : Type} (l : list A) (i : nat) (x : A) :
  (length l <= i)%nat -> py_setitem l i x = Exc IndexError.
Proof. intros H. unfold py_setitem. by rewrite (proj2 (Nat.ltb_ge _ _) H). Qed.

Lemma py_delitem_lt {A : Type} (l : list A) (i : nat) :
  (i < length l)%nat -> py_delitem l i = Val (delete i l).
Proof. intros H. unfold py_delitem. by rewrite (proj2 (Nat.ltb_lt _ _) H). Qed.

Lemma py_delitem_ge {A : Type} (l : list A) (i : nat) :
  (length l <= i)%nat -> py_delitem l i = Exc IndexError.
Proof. intros H. unfold py_delitem. by rewrite (proj2 (Nat.ltb_ge _ _) H). Qed.

Lemma py_getitem_Some {A : Type} (l : list A) (i : nat) (x : A) :
  l !! i = Some x -> py_getitem l i = Val x.
Proof. intros H. unfold py_getitem. by rewrite H. Qed.

Lemma py_pop_snoc {A : Type} (l : list A) (x : A) :
  py_pop (l ++ [x]) = Val (l, x).
Proof. unfold py_pop. by rewrite last_snoc, removelast_last. Qed.

Lemma py_pop_nil {A : Type} : py_pop (@nil A) = Exc IndexError.
Proof. reflexivity. Qed.

Lemma py_insert_length {A : Type} (l : list A) (i : nat) (x : A) :
  length (py_insert l i x) = S (length l).
Proof.
  unfold py_insert. rewrite length_app. simpl.
  rewrite length_take, length_drop. lia.
Qed.

(** ** A stated price of zero *)

(** C10. In both order-indexed classes, a delta for a known order id with a
    nonzero size and the stated price 0 has exactly the effect (same
    outcome, same final object) of the delta that leaves the price out: the
    key falls back to the order's old key. With old key [k], which
    bisect_left puts at position [p]:
    - in IndexedOrderBookSide the level at [p] becomes
      [abs(k), size, order_id] and the key there stays [k];
    - in IncrementalIndexedOrderBookSide, with [old] the size of the level
      stored at [p]: a positive size [z] with [z + old > 0] makes the level
      at [p] [abs(k), z + old, order_id] and the key there [k]; any other
      nonzero size deletes the level and the key at [p] and drops the id
      from the map.
    The key 0 is in no case looked up, stored or mapped. *)
Theorem zero_price_is_unknown_price (v : variant) (side : bool) (s : book)
    (size order_id : value) (rest : list value) :
  is_indexed v = true ->
  is_Some (_hashmap s !! order_id) ->
  truthy size = true ->
  storeArray v side (VNum 0 :: size :: order_id :: rest) s
    = storeArray v side (VNone :: size :: order_id :: rest) s
  /\ (forall (k : Z) (p : nat),
        v = Indexed ->
        _hashmap s !! order_id = Some (VNum k) ->
        bisect_left (_index s) (VNum k) = Val p ->
        (p < length (_index s))%nat ->
        (p < length (levels s))%nat ->
        storeArray v side (VNum 0 :: size :: order_id :: rest) s
          = Ok tt (Book (<[p := VNum (Z.abs k) :: size :: order_id :: rest]> (levels s))
                        (<[p := VNum k]> (_index s))
                        (_hashmap s) (_depth s) (_n s)))
  /\ (forall (k z old : Z) (p : nat) (lvl : list value),
        v = IncrementalIndexed ->
        size = VNum z ->
        _hashmap s !! order_id = Some (VNum k) ->
        bisect_left (_index s) (VNum k) = Val p ->
        (p < length (_index s))%nat ->
        levels s !! p = Some lvl -> lvl !! 1%nat = Some (VNum old) ->
        storeArray v side (VNum 0 :: size :: order_id :: rest) s
          = if (0 <? z) && (0 <? z + old)
            then Ok tt (Book (<[p := VNum (Z.abs k) :: VNum (z + old) :: order_id :: rest]>
                                (levels s))
                             (<[p := VNum k]> (_index s))
                             (_hashmap s) (_depth s) (_n s))
            else Ok tt (Book (delete p (levels s)) (delete p (_index s))
                             (delete order_id (_hashmap s)) (_depth s) (_n s))).
Proof.
  intros Hv [old Hold] Hsize.
  assert (Hknown : bool_decide (is_Some (_hashmap s !! order_id)) = true)
    by (apply bool_decide_eq_true_2; eauto).
  assert (Hkey : optional_index_price side (VNum 0) = Val (VNum 0)) by (by destruct side).
  assert (Hnone : optional_index_price side VNone = Val VNone) by reflexivity.
  split; [|split].
  - destruct v; try discriminate; unfold storeArray.
    + unfold IndexedOrderBookSide_storeArray, hashmap_contains.
      mrun. rewrite Hkey, Hnone. mrun.
      rewrite Hsize, Hknown. reflexivity.
    + unfold IncrementalIndexedOrderBookSide_storeArray, hashmap_contains.
      mrun. rewrite Hkey, Hnone. mrun.
      rewrite Hknown.
      destruct size as [|z|]; try reflexivity.
      destruct (0 <? z) eqn:Hz; cbn; rewrite ?Hold, ?Hz; reflexivity.
  - intros k p -> Hk Hp Hpi Hpl.
    unfold storeArray, IndexedOrderBookSide_storeArray, hashmap_contains, hashmap_getitem.
    mrun. rewrite Hkey. mrun.
    rewrite Hsize, Hknown, Hk. mrun.
    rewrite bool_decide_eq_true_2 by reflexivity.
    unfold index_bisect, index_setitem, self_setitem. mrun. rewrite Hp. mrun.
    rewrite (py_setitem_lt _ _ _ Hpi). mrun.
    rewrite (py_setitem_lt _ _ _ Hpl). reflexivity.
  - intros k z size0 p lvl -> -> Hk Hp Hpi Hlvl Hsize0.
    assert (Hpl : (p < length (levels s))%nat) by (by apply lookup_lt_Some in Hlvl).
    unfold storeArray, IncrementalIndexedOrderBookSide_storeArray, remove_order,
      hashmap_contains, hashmap_getitem, hashmap_delitem, index_bisect, level_getitem,
      index_setitem, self_setitem, index_delitem, self_delitem.
    mrun. rewrite Hkey. mrun. rewrite Hknown.
    destruct (0 <? z) eqn:Hz; mrun.
    + rewrite Hk. mrun. rewrite Hp. mrun.
      rewrite (py_getitem_Some _ _ _ Hlvl). mrun.
      rewrite (py_getitem_Some _ _ _ Hsize0). mrun.
      destruct (0 <? z + size0) eqn:E; mrun.
      * rewrite bool_decide_eq_true_2 by reflexivity. mrun.
        rewrite (py_setitem_lt _ _ _ Hpi). mrun.
        by rewrite (py_setitem_lt _ _ _ Hpl).
      * rewrite Hk. mrun. rewrite Hp. mrun.
        rewrite (py_delitem_lt _ _ Hpi). mrun.
        by rewrite (py_delitem_lt _ _ Hpl).
    + rewrite Hz. mrun. rewrite Hk. mrun. rewrite Hp. mrun.
      rewrite (py_delitem_lt _ _ Hpi). mrun.
      by rewrite (py_delitem_lt _ _ Hpl).
Qed.

Lemma zero_price_is_unknown_price_witness :
  let s := one_incremental_order in
  storeArray IncrementalIndexed false [VNum 0; VNum 2; VStr "A"] s
    = storeArray IncrementalIndexed false [VNone; VNum 2; VStr "A"] s
  /\ storeArray IncrementalIndexed false [VNum 0; VNum 2; VStr "A"] s
     = Ok tt (Book [[VNum 10; VNum 7; VStr "A"]] [VNum 10]
                   {[ VStr "A" := VNum 10 ]} sys_maxsize sys_maxsize).
Proof.
  intros s.
  destruct (zero_price_is_unknown_price IncrementalIndexed false s (VNum 2) (VStr "A") [])
    as (Hsame & _ & Hpinned).
  - reflexivity.
  - vm_compute. eauto.
  - reflexivity.
  - split; [exact Hsame|].
    rewrite (Hpinned 10 2 5 0%nat [VNum 10; VNum 5; VStr "A"]).
    + vm_compute. reflexivity.
    + reflexivity.
    + reflexivity.
    + vm_compute. reflexivity.
    + vm_compute. reflexivity.
    + vm_compute. lia.
    + reflexivity.
    + reflexivity.
Defined.

(** ** The read contract *)

Lemma drain_take (fuel : nat) (s : book) (pos : nat) (cnt stop : Z) :
  drain fuel s (Iterator pos cnt stop)
    = take (Nat.min fuel (Z.to_nat (stop - cnt))) (drop pos (levels s)).
Proof.
  revert pos cnt. induction fuel as [|fuel IH]; intros pos cnt; [reflexivity|].
  cbn [drain]. unfold py_next. cbn [it_cnt it_stop it_pos].
  destruct (cnt <? stop) eqn:E.
  - apply Z.ltb_lt in E.
    replace (Nat.min (S fuel) (Z.to_nat (stop - cnt)))
      with (S (Nat.min fuel (Z.to_nat (stop - (cnt + 1))))) by lia.
    destruct (levels s !! pos) as [lvl|] eqn:L.
    + rewrite IH. by rewrite (drop_S _ _ _ L).
    + apply lookup_ge_None in L. by rewrite drop_ge.
  - apply Z.ltb_ge in E.
    replace (Z.to_nat (stop - cnt)) with 0%nat by lia.
    by rewrite Nat.min_0_r.
Qed.

Lemma to_list_take (s : book) :
  0 <= _n s <= sys_maxsize ->
  to_list s
    = Ok (take (Z.to_nat (Z.min (Z.of_nat (length (levels s))) (_n s))) (levels s)) s.
Proof.
  intros Hn. unfold to_list, py_iter. mrun.
  replace (_n s <? 0) with false by (symmetry; apply Z.ltb_ge; lia).
  replace (sys_maxsize <? _n s) with false by (symmetry; apply Z.ltb_ge; lia).
  cbn. rewrite drain_take, drop_0, Z.sub_0_r. f_equal.
  destruct (Z_le_dec (Z.of_nat (length (levels s))) (_n s)).
  - rewrite Z.min_l, Nat.min_l by lia. rewrite Nat2Z.id. reflexivity.
  - rewrite Z.min_r, Nat.min_r by lia. reflexivity.
Qed.

(** C3 (amended). With stop [n] between 0 and [sys.maxsize] and [s] stored
    levels: [len()] is [min(s, n)]; iterating yields the first [min(s, n)]
    stored levels in their order, leaves the object as it was, and can be
    done again with the same result; and an integer index reads the stored
    list itself, so [at(i)] returns the stored level [i] for every
    [0 <= i < s], whether or not [i] is below [n]. *)
Theorem read_contract_raw_index (s : book) :
  0 <= _n s <= sys_maxsize ->
  let visible_len := Z.min (Z.of_nat (length (levels s))) (_n s) in
  py_len s = Ok visible_len s
  /\ to_list s = Ok (take (Z.to_nat visible_len) (levels s)) s
  /\ (let* a := to_list in let* b := to_list in ret (a, b)) s
       = Ok (take (Z.to_nat visible_len) (levels s),
             take (Z.to_nat visible_len) (levels s)) s
  /\ (forall (i : nat) (lvl : list value),
        levels s !! i = Some lvl -> getitem_int (Z.of_nat i) s = Ok lvl s).
Proof.
  intros Hn vl. repeat split.
  - unfold py_len. mrun. fold vl.
    replace (vl <? 0) with false by (symmetry; apply Z.ltb_ge; lia). reflexivity.
  - by apply to_list_take.
  - unfold bind. rewrite !to_list_take by done. reflexivity.
  - intros i lvl Hi. unfold getitem_int. mrun.
    assert (Hlt := lookup_lt_Some (levels s) i lvl Hi).
    replace (Z.of_nat i <? 0) with false by (symmetry; apply Z.ltb_ge; lia).
    replace (Z.of_nat i <? 0) with false by (symmetry; apply Z.ltb_ge; lia).
    replace (Z.of_nat (length (levels s)) <=? Z.of_nat i) with false
      by (symmetry; apply Z.leb_gt; lia).
    cbn. rewrite Nat2Z.id. unfold py_getitem. by rewrite Hi.
Qed.

Lemma read_contract_raw_index_witness :
  py_len three_asks = Ok 1 three_asks
  /\ to_list three_asks = Ok [[VNum 9; VNum 1]] three_asks.
Proof.
  assert (H : 0 <= _n three_asks <= sys_maxsize) by (vm_compute; split; intros ?; discriminate).
  destruct (read_contract_raw_index three_asks H) as (Hlen & Hlist & _).
  split; [exact Hlen | exact Hlist].
Defined.

(** C3 as stated fails: with three stored levels and [limit(1)], index 2 is
    past the visible length and [at(2)] still returns the hidden third level. *)
Lemma hidden_level_is_indexable :
  ~ (forall (s : book) (i : Z) (lvl : list value),
       Z.min (Z.of_nat (length (levels s))) (_n s) <= i < Z.of_nat (length (levels s)) ->
       levels s !! Z.to_nat i = Some lvl ->
       getitem_int i s <> Ok lvl s).
Proof.
  intros H.
  refine (H three_asks 2 [VNum 11; VNum 1] _ _ _).
  - vm_compute. split; [intros ?; discriminate | reflexivity].
  - reflexivity.
  - reflexivity.
Qed.

(** ** The depth limiter *)

Lemma forget_app (v : variant) (a b : list (list value)) (h : gmap value value) :
  forget v (a ++ b) h = forget v a (forget v b h).
Proof. unfold forget. destruct (is_indexed v); [apply foldr_app | reflexivity]. Qed.

Lemma forget_nil (v : variant) (h : gmap value value) : forget v [] h = h.
Proof. unfold forget. by destruct (is_indexed v). Qed.

Lemma pop_worst_snoc (v : variant) (lv : list (list value)) (x : list value)
    (ix : list value) (k : value) (h : gmap value value) (d n : Z) :
  (arity v <= length x)%nat ->
  pop_worst v (Book (lv ++ [x]) (ix ++ [k]) h d n) = Ok tt (Book lv ix (forget v [x] h) d n).
Proof.
  intros Hx. unfold pop_worst, self_pop, index_pop, remove_index, forget. mrun.
  rewrite py_pop_snoc. mrun.
  destruct (is_indexed v) eqn:Hv.
  - assert (H3 : (2 < length x)%nat) by (destruct v; simpl in *; try discriminate; lia).
    destruct (lookup_lt_is_Some_2 x 2 H3) as [o Ho].
    unfold hashmap_contains, hashmap_delitem. mrun.
    rewrite Ho, (py_getitem_Some _ _ _ Ho). mrun.
    case_bool_decide as Hknown; mrun; rewrite py_pop_snoc; mrun; [reflexivity|].
    rewrite delete_id; [reflexivity|].
    by apply eq_None_not_Some.
  - mrun. rewrite py_pop_snoc. reflexivity.
Qed.

Lemma list_snoc_case {A : Type} (l : list A) :
  l = [] \/ exists l' x, l = l' ++ [x].
Proof. induction l using rev_ind; [by left | right; eauto]. Qed.

Lemma pops_take (v : variant) (k : nat) (s : book) :
  parallel s -> shaped v s -> (k <= length (levels s))%nat ->
  repeat_times k (pop_worst v) s
    = Ok tt (Book (take (length (levels s) - k) (levels s))
                  (take (length (levels s) - k) (_index s))
                  (forget v (drop (length (levels s) - k) (levels s)) (_hashmap s))
                  (_depth s) (_n s)).
Proof.
  revert s. induction k as [|k IH]; intros [lv ix h d n]; unfold parallel, shaped; cbn;
    intros Hpar Hshape Hk.
  - rewrite Nat.sub_0_r, !take_ge, drop_ge, forget_nil by lia. reflexivity.
  - destruct (list_snoc_case lv) as [->|(lv' & x & ->)]; [simpl in Hk; lia|].
    destruct (list_snoc_case ix) as [->|(ix' & key & ->)].
    { rewrite length_app in Hpar. simpl in Hpar. lia. }
    rewrite !length_app in *. cbn [length] in *.
    apply Forall_app in Hshape as [Hshape Hx]. apply Forall_inv in Hx.
    unfold bind at 1. rewrite pop_worst_snoc by done.
    rewrite IH; unfold parallel, shaped; cbn; try done; try lia.
    replace (length lv' + 1 - S k)%nat with (length lv' - k)%nat by lia.
    rewrite !take_app_le, drop_app_le, forget_app by lia.
    reflexivity.
Qed.

Lemma limit_spec (v : variant) (n : option Z) (s : book) :
  parallel s -> shaped v s -> 0 <= visible n -> 0 <= _depth s ->
  let len := length (levels s) in
  let k := Z.to_nat (Z.min (Z.of_nat len) (visible n) - _depth s) in
  limit v n s
    = Ok tt (Book (take (len - k) (levels s)) (take (len - k) (_index s))
                  (forget v (drop (len - k) (levels s)) (_hashmap s))
                  (_depth s) (visible n)).
Proof.
  intros Hpar Hshape Hn Hd len k. unfold limit, py_len. mrun.
  replace (Z.min (Z.of_nat (length (levels s))) (visible n) <? 0) with false
    by (symmetry; apply Z.ltb_ge; lia).
  cbn. fold len. fold k.
  rewrite pops_take; cbn; try done. subst k len. lia.
Qed.

Lemma bind_assoc {A B C : Type} (m : M A) (f : A -> M B) (g : B -> M C) (s : book) :
  bind (bind m f) g s = bind m (fun x => bind (f x) g) s.
Proof. unfold bind. by destruct (m s). Qed.

Lemma take_parallel (v : variant) (s : book) (m : nat) (h : gmap value value) (n : Z) :
  parallel s -> shaped v s ->
  parallel (Book (take m (levels s)) (take m (_index s)) h (_depth s) n)
  /\ shaped v (Book (take m (levels s)) (take m (_index s)) h (_depth s) n).
Proof.
  unfold parallel, shaped. cbn. intros Hpar Hshape. split.
  - rewrite !length_take. lia.
  - by apply Forall_take.
Qed.

(** C6. With parallel lists, well-shaped levels, a depth that is not
    negative and a stored length within [sys.maxsize]: [limit(k)] followed by
    [limit(None)], for any [k >= 0], ends exactly where [limit(None)] alone
    ends. The levels and keys within the depth are all still stored, in the
    same order and with the same values; the dict has lost only the ids of
    the levels past the depth; and iterating then yields every retained
    level. *)
Theorem limit_then_unlimit_nondestructive (v : variant) (k : Z) (s : book) :
  parallel s -> shaped v s ->
  0 <= k -> 0 <= _depth s ->
  Z.of_nat (length (levels s)) <= sys_maxsize ->
  let D := Z.to_nat (_depth s) in
  let kept :=
    Book (take D (levels s)) (take D (_index s))
         (forget v (drop D (levels s)) (_hashmap s)) (_depth s) sys_maxsize in
  (limit v (Some k) ;; limit v None) s = Ok tt kept
  /\ limit v None s = Ok tt kept
  /\ (limit v (Some k) ;; limit v None ;; to_list) s = Ok (take D (levels s)) kept.
Proof.
  intros Hpar Hshape Hk Hd Hmax D kept.
  assert (Hms : 0 <= sys_maxsize) by (vm_compute; discriminate).
  assert (Hnone : limit v None s = Ok tt kept).
  { rewrite limit_spec by done. cbn [visible].
    set (m := (length (levels s) - _)%nat).
    destruct (Nat.le_gt_cases (length (levels s)) D) as [Hle|Hgt].
    - assert (Hpar' := Hpar). unfold parallel in Hpar'.
      replace m with (length (levels s)) by (subst m D; lia).
      unfold kept. rewrite !take_ge, !drop_ge by lia. reflexivity.
    - replace m with D by (subst m D; lia). reflexivity. }
  assert (Hseq : (limit v (Some k) ;; limit v None) s = Ok tt kept).
  { unfold bind. rewrite limit_spec by done. cbn [visible].
    set (m1 := (length (levels s) - _)%nat).
    destruct (take_parallel v s m1 (forget v (drop m1 (levels s)) (_hashmap s)) k Hpar Hshape)
      as [Hpar1 Hshape1].
    rewrite limit_spec by done. cbn [levels _index _hashmap _depth _n visible].
    rewrite length_take.
    set (m2 := (_ - _)%nat).
    rewrite !take_take, <- forget_app.
    assert (Hm : (m2 <= m1)%nat) by (subst m1 m2; lia).
    rewrite <- (drop_app_le _ _ _) by (rewrite length_take; lia).
    rewrite take_drop.
    replace (Nat.min m2 m1) with m2 by lia.
    destruct (Nat.le_gt_cases (length (levels s)) D) as [Hle|Hgt].
    - assert (Hpar' := Hpar). unfold parallel in Hpar'.
      replace m2 with (length (levels s)) by (subst m1 m2 D; lia).
      unfold kept. rewrite !take_ge, !drop_ge by lia. reflexivity.
    - replace m2 with D by (subst m1 m2 D; lia). reflexivity. }
  split; [exact Hseq|]. split; [exact Hnone|].
  rewrite <- bind_assoc. unfold bind at 1.
  rewrite Hseq, to_list_take by (cbn; lia).
  unfold kept. cbn [levels _n]. f_equal.
  apply take_ge. rewrite length_take. lia.
Qed.

Lemma three_orders_ok : parallel three_orders /\ shaped Indexed three_orders.
Proof.
  split; [reflexivity|]. unfold shaped.
  change (levels three_orders)
    with [[VNum 10; VNum 1; VStr "A"]; [VNum 11; VNum 1; VStr "B"];
          [VNum 12; VNum 1; VStr "C"]].
  repeat constructor.
Qed.

Lemma limit_then_unlimit_nondestructive_witness :
  (limit Indexed (Some 1) ;; limit Indexed None) three_orders
    = limit Indexed None three_orders.
Proof.
  destruct three_orders_ok as [Hpar Hshape].
  destruct (limit_then_unlimit_nondestructive Indexed 1 three_orders Hpar Hshape)
    as (Hseq & Hnone & _).
  - lia.
  - vm_compute. discriminate.
  - vm_compute. discriminate.
  - rewrite Hseq, Hnone. reflexivity.
Defined.

(** C1 (amended). [storeArray] itself never trims. With parallel lists,
    well-shaped levels and a depth [d >= 1], a call [limit(n)] whose [n] is
    absent or not below the stored length leaves exactly the first [d] stored
    levels and keys, so at most [d] of them; and when the keys are numbers in
    ascending order, every retained key is at most every discarded key: the
    retained levels are the [d] best. *)
Theorem depth_cap_after_limit (v : variant) (n : option Z) (s : book) :
  parallel s -> shaped v s ->
  0 < _depth s ->
  Z.of_nat (length (levels s)) <= visible n ->
  let D := Z.to_nat (_depth s) in
  exists s',
    limit v n s = Ok tt s'
    /\ levels s' = take D (levels s)
    /\ _index s' = take D (_index s)
    /\ Z.of_nat (length (levels s')) <= _depth s
    /\ (forall ks : list Z,
          _index s = VNum <$> ks -> StronglySorted Z.le ks ->
          _index s' = VNum <$> take D ks
          /\ forall a b : Z, a ∈ take D ks -> b ∈ drop D ks -> a <= b).
Proof.
  intros Hpar Hshape Hd Hn D.
  rewrite limit_spec by (done || lia).
  set (m := (length (levels s) - _)%nat).
  assert (Hpar' := Hpar). unfold parallel in Hpar'.
  assert (Hm : take m (levels s) = take D (levels s) /\ take m (_index s) = take D (_index s)).
  { destruct (Nat.le_gt_cases (length (levels s)) D) as [Hle|Hgt].
    - replace m with (length (levels s)) by (subst m D; lia).
      by rewrite !take_ge by lia.
    - by replace m with D by (subst m D; lia). }
  destruct Hm as [Hm1 Hm2].
  eexists. split; [reflexivity|]. cbn [levels _index].
  split; [exact Hm1|]. split; [exact Hm2|]. split.
  - rewrite Hm1, length_take. lia.
  - intros ks Hks Hsorted. split.
    + by rewrite Hm2, Hks, fmap_take.
    + intros a b Ha Hb.
      rewrite <- (take_drop D ks) in Hsorted.
      by apply (StronglySorted_app_1_elem_of _ _ _ _ _ Hsorted).
Qed.

Lemma depth_cap_after_limit_witness :
  exists s',
    limit Indexed None three_orders = Ok tt s'
    /\ levels s' = [[VNum 10; VNum 1; VStr "A"]; [VNum 11; VNum 1; VStr "B"]].
Proof.
  destruct three_orders_ok as [Hpar Hshape].
  destruct (depth_cap_after_limit Indexed None three_orders Hpar Hshape)
    as (s' & Hs' & Hlv & _).
  - reflexivity.
  - vm_compute. discriminate.
  - exists s'. split; [exact Hs' | exact Hlv].
Defined.

(** C1 as stated fails: [storeArray] does not trim. Asks(depth=1) holds two
    levels after two deltas. *)
Lemma store_array_does_not_trim :
  ~ (forall (v : variant) (side : bool) (d : Z) (deltas : list (list value)),
       0 < d ->
       Z.of_nat (length (levels (run v side (empty_book (Some d)) (OpStore <$> deltas)))) <= d).
Proof.
  intros H.
  specialize (H Absolute false 1 [[VNum 10; VNum 1]; [VNum 11; VNum 1]]).
  vm_compute in H. apply H; reflexivity.
Qed.

(** ** Locating a key in a strictly ascending key list *)

Lemma index_price_of_num (side : bool) (price : Z) :
  index_price_of side (VNum price) = Val (VNum (sort_key side price)).
Proof. by destruct side. Qed.

Lemma lookup_split_head (l1 l2 : list Z) :
  (VNum <$> (l1 ++ l2)) !! length l1 = VNum <$> head l2.
Proof.
  rewrite list_lookup_fmap, lookup_app_r by lia.
  rewrite Nat.sub_diag. by destruct l2.
Qed.

Lemma insert_split (l1 l2 : list Z) (z : Z) :
  py_insert (VNum <$> (l1 ++ l2)) (length l1) (VNum z) = VNum <$> (l1 ++ z :: l2).
Proof.
  unfold py_insert. rewrite !fmap_app.
  rewrite take_app_length', drop_app_length' by (by rewrite length_fmap).
  reflexivity.
Qed.

Lemma delitem_split (l1 l2 : list Z) (z : Z) :
  py_delitem (VNum <$> (l1 ++ z :: l2)) (length l1) = Val (VNum <$> (l1 ++ l2)).
Proof.
  rewrite py_delitem_lt by (rewrite length_fmap, length_app; simpl; lia).
  f_equal. rewrite !fmap_app. cbn [fmap list_fmap].
  rewrite <- (length_fmap VNum l1). apply delete_middle.
Qed.

Lemma Forall_lt_le (key : Z) (l : list Z) :
  Forall (fun y => key < y) l -> Forall (fun y => key <= y) l.
Proof. intros H. eapply Forall_impl; [exact H|]. intros; cbn in *; lia. Qed.

(** A strictly ascending list around a key: the smaller keys, maybe the key,
    the larger keys. *)
Lemma strict_split (ks : list Z) (key : Z) :
  StronglySorted Z.lt ks ->
  exists l1 l2,
    Forall (fun y => y < key) l1 /\ Forall (fun y => key < y) l2
    /\ ((ks = l1 ++ l2 /\ key ∉ ks) \/ ks = l1 ++ key :: l2).
Proof.
  induction 1 as [|a ks Hs IH Ha].
  - exists [], []. split; [constructor|]. split; [constructor|].
    left. split; [done|]. apply not_elem_of_nil.
  - destruct (Z.lt_trichotomy a key) as [Hlt|[ -> |Hgt]].
    + destruct IH as (l1 & l2 & H1 & H2 & Hcase).
      exists (a :: l1), l2. split; [by constructor|]. split; [done|].
      destruct Hcase as [[-> Hnot]| ->]; [left|by right].
      split; [done|]. rewrite elem_of_cons. intros [->|Hin]; [lia|done].
    + exists [], ks. split; [constructor|]. split; [done|]. by right.
    + exists [], (a :: ks). split; [constructor|].
      assert (Hall : Forall (fun y => key < y) (a :: ks)).
      { constructor; [lia|]. eapply Forall_impl; [exact Ha|]. intros; cbn in *; lia. }
      split; [done|]. left. split; [done|].
      intros Hin. pose proof (proj1 (Forall_forall _ _) Hall _ Hin). cbn in *. lia.
Qed.

Lemma sorted_around (l1 l2 : list Z) (key : Z) :
  Forall (fun y => y < key) l1 -> Forall (fun y => key < y) l2 ->
  StronglySorted Z.lt (l1 ++ l2) <-> StronglySorted Z.lt (l1 ++ key :: l2).
Proof.
  intros H1 H2. rewrite !StronglySorted_app, StronglySorted_cons.
  rewrite Forall_forall in H1. rewrite Forall_forall in H2.
  split.
  - intros (Hx & Hs1 & Hs2). repeat split; auto.
    + intros x1 x2 Hx1 [->|Hx2]%elem_of_cons; [by apply H1|by apply Hx].
    + by apply Forall_forall.
  - intros (Hx & Hs1 & _ & Hs2). repeat split; auto.
    intros x1 x2 Hx1 Hx2. apply Hx; [done|]. by apply elem_of_cons; right.
Qed.

Lemma index_bisect_absent (l1 l2 : list Z) (key : Z) lv h d n :
  Forall (fun y => y < key) l1 -> Forall (fun y => key < y) l2 ->
  index_bisect (VNum key) (Book lv (VNum <$> (l1 ++ l2)) h d n)
    = Ok (length l1) (Book lv (VNum <$> (l1 ++ l2)) h d n).
Proof.
  intros H1 H2. unfold index_bisect. mrun.
  by rewrite bisect_left_split by auto using Forall_lt_le.
Qed.

Lemma index_bisect_present (l1 l2 : list Z) (key : Z) lv h d n :
  Forall (fun y => y < key) l1 -> Forall (fun y => key < y) l2 ->
  index_bisect (VNum key) (Book lv (VNum <$> (l1 ++ key :: l2)) h d n)
    = Ok (length l1) (Book lv (VNum <$> (l1 ++ key :: l2)) h d n).
Proof.
  intros H1 H2. unfold index_bisect. mrun.
  rewrite bisect_left_split; [done|done|].
  constructor; [lia|by apply Forall_lt_le].
Qed.

Lemma index_matches_absent (l1 l2 : list Z) (key : Z) lv h d n :
  Forall (fun y => key < y) l2 ->
  index_matches (length l1) (VNum key) (Book lv (VNum <$> (l1 ++ l2)) h d n)
    = Ok false (Book lv (VNum <$> (l1 ++ l2)) h d n).
Proof.
  intros H2. unfold index_matches. mrun. rewrite lookup_split_head.
  destruct l2 as [|k l2]; [done|]. cbn.
  apply Forall_inv in H2. rewrite bool_decide_eq_false_2; [done|].
  intros [=]. lia.
Qed.

Lemma index_matches_present (l1 l2 : list Z) (key : Z) lv h d n :
  index_matches (length l1) (VNum key) (Book lv (VNum <$> (l1 ++ key :: l2)) h d n)
    = Ok true (Book lv (VNum <$> (l1 ++ key :: l2)) h d n).
Proof.
  unfold index_matches. mrun. rewrite lookup_split_head. cbn.
  by rewrite bool_decide_eq_true_2.
Qed.

(** ** The price-keyed classes, one call at a time *)

Lemma level_setitem_index (i j : nat) (x : value) (s : book) :
  _index (state_of (level_setitem i j x s)) = _index s.
Proof.
  unfold level_setitem. mrun.
  destruct (py_getitem (levels s) i) as [lvl|]; [|done]. cbn.
  by destruct (py_setitem lvl j x).
Qed.

Lemma level_setitem_ok (i j : nat) (x : value) (lvl : list value) lv ix h d n :
  lv !! i = Some lvl -> (j < length lvl)%nat ->
  level_setitem i j x (Book lv ix h d n)
    = Ok tt (Book (<[i := <[j := x]> lvl]> lv) ix h d n).
Proof.
  intros Hi Hj. unfold level_setitem. mrun.
  rewrite (py_getitem_Some _ _ _ Hi). mrun. by rewrite py_setitem_lt.
Qed.

Lemma level_getitem_ok (i j : nat) (x : value) (lvl : list value) (s : book) :
  levels s !! i = Some lvl -> lvl !! j = Some x ->
  level_getitem i j s = Ok x s.
Proof.
  intros Hi Hj. unfold level_getitem. mrun.
  rewrite (py_getitem_Some _ _ _ Hi). mrun. by rewrite (py_getitem_Some _ _ _ Hj).
Qed.

Lemma level_getitem_eq (i j : nat) (s : book) :
  level_getitem i j s
    = match levels s !! i ≫= (fun lvl => lvl !! j) with
      | Some x => Ok x s
      | None => Raise IndexError s
      end.
Proof.
  unfold level_getitem, py_getitem. mrun.
  destruct (levels s !! i) as [lvl|]; cbn; [|done].
  by destruct (lvl !! j).
Qed.

Lemma index_insert_split (l1 l2 : list Z) (key : Z) lv h d n :
  index_insert (length l1) (VNum key) (Book lv (VNum <$> (l1 ++ l2)) h d n)
    = Ok tt (Book lv (VNum <$> (l1 ++ key :: l2)) h d n).
Proof. unfold index_insert. mrun. by rewrite insert_split. Qed.

Lemma self_insert_eq (p : nat) (delta : list value) lv ix h d n :
  self_insert p delta (Book lv ix h d n) = Ok tt (Book (py_insert lv p delta) ix h d n).
Proof. reflexivity. Qed.

Lemma index_delitem_split (l1 l2 : list Z) (key : Z) lv h d n :
  index_delitem (length l1) (Book lv (VNum <$> (l1 ++ key :: l2)) h d n)
    = Ok tt (Book lv (VNum <$> (l1 ++ l2)) h d n).
Proof. unfold index_delitem. mrun. by rewrite delitem_split. Qed.

Lemma self_delitem_eq (p : nat) lv ix h d n :
  self_delitem p (Book lv ix h d n)
    = match py_delitem lv p with
      | Val lv' => Ok tt (Book lv' ix h d n)
      | Exc e => Raise e (Book lv ix h d n)
      end.
Proof. unfold self_delitem. mrun. by destruct (py_delitem lv p). Qed.

Section one_call.
Variables (side : bool) (price : Z) (l1 l2 : list Z).
Variables (lv : list (list value)) (h : gmap value value) (d n : Z).
Let key : Z := sort_key side price.
Hypothesis Hl1 : Forall (fun y => y < key) l1.
Hypothesis Hl2 : Forall (fun y => key < y) l2.
Let absent : book := Book lv (VNum <$> (l1 ++ l2)) h d n.
Let present : book := Book lv (VNum <$> (l1 ++ key :: l2)) h d n.

Lemma absolute_absent (size : value) (rest : list value) :
  OrderBookSide_storeArray side (VNum price :: size :: rest) absent
  = if truthy size
    then Ok tt (Book (py_insert lv (length l1) (VNum price :: size :: rest))
                     (VNum <$> (l1 ++ key :: l2)) h d n)
    else Ok tt absent.
Proof.
  unfold OrderBookSide_storeArray, absent. mrun.
  rewrite index_price_of_num. mrun. fold key.
  rewrite index_bisect_absent by done.
  rewrite index_matches_absent by done.
  destruct (truthy size); [|done]. by rewrite index_insert_split.
Qed.

Lemma absolute_present (size : value) (rest : list value) :
  OrderBookSide_storeArray side (VNum price :: size :: rest) present
  = if truthy size then level_setitem (length l1) 1 size present
    else match py_delitem lv (length l1) with
         | Val lv' => Ok tt (Book lv' (VNum <$> (l1 ++ l2)) h d n)
         | Exc e => Raise e (Book lv (VNum <$> (l1 ++ l2)) h d n)
         end.
Proof.
  unfold OrderBookSide_storeArray, present. mrun.
  rewrite index_price_of_num. mrun. fold key.
  rewrite index_bisect_present by done.
  rewrite index_matches_present.
  destruct (truthy size); [done|]. by rewrite index_delitem_split, self_delitem_eq.
Qed.

Lemma counted_absent (size count : value) (rest : list value) :
  CountedOrderBookSide_storeArray side (VNum price :: size :: count :: rest) absent
  = if truthy size && truthy count
    then Ok tt (Book (py_insert lv (length l1) (VNum price :: size :: count :: rest))
                     (VNum <$> (l1 ++ key :: l2)) h d n)
    else Ok tt absent.
Proof.
  unfold CountedOrderBookSide_storeArray, absent. mrun.
  rewrite index_price_of_num. mrun. fold key.
  rewrite index_bisect_absent by done.
  rewrite index_matches_absent by done.
  destruct (truthy size && truthy count); [|done]. by rewrite index_insert_split.
Qed.

Lemma counted_present (size count : value) (rest : list value) :
  CountedOrderBookSide_storeArray side (VNum price :: size :: count :: rest) present
  = if truthy size && truthy count
    then (level_setitem (length l1) 1 size ;; level_setitem (length l1) 2 count) present
    else match py_delitem lv (length l1) with
         | Val lv' => Ok tt (Book lv' (VNum <$> (l1 ++ l2)) h d n)
         | Exc e => Raise e (Book lv (VNum <$> (l1 ++ l2)) h d n)
         end.
Proof.
  unfold CountedOrderBookSide_storeArray, present. mrun.
  rewrite index_price_of_num. mrun. fold key.
  rewrite index_bisect_present by done.
  rewrite index_matches_present.
  destruct (truthy size && truthy count); [done|].
  by rewrite index_delitem_split, self_delitem_eq.
Qed.

Lemma incremental_absent (size : value) (rest : list value) :
  IncrementalOrderBookSide_storeArray side (VNum price :: size :: rest) absent
  = match py_gt size (VNum 0) with
    | Val true =>
        Ok tt (Book (py_insert lv (length l1) (VNum price :: size :: rest))
                    (VNum <$> (l1 ++ key :: l2)) h d n)
    | Val false => Ok tt absent
    | Exc e => Raise e absent
    end.
Proof.
  unfold IncrementalOrderBookSide_storeArray, absent. mrun.
  rewrite index_price_of_num. mrun. fold key.
  rewrite index_bisect_absent by done.
  rewrite index_matches_absent by done. mrun.
  destruct size as [|z|]; mrun; try done.
  destruct (0 <? z); mrun; [by rewrite index_insert_split|].
  by rewrite index_matches_absent.
Qed.

Lemma incremental_present (size : value) (rest : list value) :
  IncrementalOrderBookSide_storeArray side (VNum price :: size :: rest) present
  = match lv !! length l1 ≫= (fun lvl => lvl !! 1%nat) with
    | None => Raise IndexError present
    | Some old =>
        match py_add size old with
        | Exc e => Raise e present
        | Val size' =>
            match py_gt size' (VNum 0) with
            | Val true => level_setitem (length l1) 1 size' present
            | Val false =>
                match py_delitem lv (length l1) with
                | Val lv' => Ok tt (Book lv' (VNum <$> (l1 ++ l2)) h d n)
                | Exc e => Raise e (Book lv (VNum <$> (l1 ++ l2)) h d n)
                end
            | Exc e => Raise e present
            end
        end
    end.
Proof.
  unfold IncrementalOrderBookSide_storeArray, present. mrun.
  rewrite index_price_of_num. mrun. fold key.
  rewrite index_bisect_present by done.
  rewrite index_matches_present. mrun.
  rewrite level_getitem_eq. cbn [levels].
  destruct (lv !! length l1 ≫= _) as [old|]; [|done]. mrun.
  destruct (py_add size old) as [size'|]; [|done]. mrun.
  destruct size' as [|z|]; mrun; try done.
  destruct (0 <? z); mrun; [done|].
  by rewrite index_matches_present, index_delitem_split, self_delitem_eq.
Qed.
End one_call.

(** ** The key list stays strictly ascending in the price-keyed classes *)

Lemma sorted_keys_split (ix : list value) (key : Z) :
  (exists ks, ix = VNum <$> ks /\ StronglySorted Z.lt ks) ->
  exists l1 l2,
    Forall (fun y => y < key) l1 /\ Forall (fun y => key < y) l2
    /\ StronglySorted Z.lt (l1 ++ l2)
    /\ (ix = VNum <$> (l1 ++ l2) \/ ix = VNum <$> (l1 ++ key :: l2)).
Proof.
  intros (ks & -> & Hs).
  destruct (strict_split ks key Hs) as (l1 & l2 & H1 & H2 & [[-> _]| ->]);
    exists l1, l2; repeat split; auto.
  by apply (sorted_around l1 l2 key).
Qed.

Lemma sorted_keys_either (s : book) (l1 l2 : list Z) (key : Z) :
  Forall (fun y => y < key) l1 -> Forall (fun y => key < y) l2 ->
  StronglySorted Z.lt (l1 ++ l2) ->
  _index s = VNum <$> (l1 ++ l2) \/ _index s = VNum <$> (l1 ++ key :: l2) ->
  sorted_keys s.
Proof.
  intros H1 H2 Hs [Hix|Hix]; eexists; (split; [exact Hix|]); [done|].
  by apply (sorted_around l1 l2 key).
Qed.

Ltac either_index :=
  cbn [state_of _index]; rewrite ?level_setitem_index; cbn [_index]; auto.

Lemma store_sorted (v : variant) (side : bool) (delta : list value) (s : book) :
  is_indexed v = false -> numeric_price delta = true ->
  sorted_keys s -> sorted_keys (state_of (storeArray v side delta s)).
Proof.
  intros Hv Hnum Hs.
  destruct (Nat.lt_ge_cases (length delta) (arity v)) as [Hshort|Hlong].
  { destruct (storeArray_short v side delta s Hshort) as [e ->]. exact Hs. }
  destruct delta as [|[|price|] rest]; try discriminate.
  destruct s as [lv ix h d n].
  destruct (sorted_keys_split ix (sort_key side price) Hs)
    as (l1 & l2 & H1 & H2 & Hsorted & [-> | ->]);
    apply (sorted_keys_either _ l1 l2 (sort_key side price) H1 H2 Hsorted);
    destruct v; try discriminate; cbn [storeArray];
    destruct rest as [|size [|count rest]]; cbn in Hlong; try lia.
  - rewrite absolute_absent by done. destruct (truthy size); either_index.
  - rewrite absolute_absent by done. destruct (truthy size); either_index.
  - rewrite counted_absent by done. destruct (_ && _); either_index.
  - rewrite incremental_absent by done.
    destruct (py_gt _ _) as [[|]|]; either_index.
  - rewrite incremental_absent by done.
    destruct (py_gt _ _) as [[|]|]; either_index.
  - rewrite absolute_present by done.
    destruct (truthy size); [|destruct (py_delitem _ _)]; either_index.
  - rewrite absolute_present by done.
    destruct (truthy size); [|destruct (py_delitem _ _)]; either_index.
  - rewrite counted_present by done.
    destruct (_ && _); [|destruct (py_delitem _ _); either_index].
    unfold bind. destruct (level_setitem _ 1 _ _) as [[] s1|e s1] eqn:E1.
    + rewrite level_setitem_index.
      change s1 with (state_of (Ok tt s1)). rewrite <- E1. either_index.
    + change s1 with (state_of (@Raise unit e s1)). rewrite <- E1. either_index.
  - rewrite incremental_present by done.
    destruct (_ ≫= _) as [old|]; [|either_index].
    destruct (py_add _ _) as [size'|]; [|either_index].
    destruct (py_gt _ _) as [[|]|]; [| destruct (py_delitem _ _) |]; either_index.
  - rewrite incremental_present by done.
    destruct (_ ≫= _) as [old|]; [|either_index].
    destruct (py_add _ _) as [size'|]; [|either_index].
    destruct (py_gt _ _) as [[|]|]; [| destruct (py_delitem _ _) |]; either_index.
Qed.

Lemma pop_worst_index (v : variant) (s : book) :
  exists j, _index (state_of (pop_worst v s)) = take j (_index s).
Proof.
  destruct s as [lv ix h d n].
  unfold pop_worst, self_pop, index_pop, remove_index, hashmap_contains, hashmap_delitem.
  mrun.
  destruct (py_pop lv) as [[lv' x]|]; mrun; [|by exists (length ix); rewrite take_ge].
  assert (Hpop : forall lv0 h0,
    exists j,
      _index (state_of
        (match match py_pop ix with
               | Val a => fun s : book => Ok a s
               | Exc e => fun s : book => Raise e s
               end (Book lv0 ix h0 d n) with
         | Ok a s' => Ok tt (Book (levels s') a.1 (_hashmap s') (_depth s') (_n s'))
         | Raise e s' => Raise e s'
         end)) = take j ix).
  { intros lv0 h0. destruct (list_snoc_case ix) as [->|(ix' & k & ->)].
    - by exists 0%nat.
    - rewrite py_pop_snoc. cbn. exists (length ix'). by rewrite take_app_length. }
  destruct (is_indexed v); mrun; [|apply Hpop].
  destruct (py_getitem x 2) as [o|]; mrun; [|by exists (length ix); rewrite take_ge].
  case_bool_decide; apply Hpop.
Qed.

Lemma repeat_pop_index (v : variant) (k : nat) (s : book) :
  exists j, _index (state_of (repeat_times k (pop_worst v) s)) = take j (_index s).
Proof.
  revert s. induction k as [|k IH]; intros s.
  - exists (length (_index s)). by rewrite take_ge.
  - cbn [repeat_times]. unfold bind.
    destruct (pop_worst_index v s) as [j1 Hj1].
    destruct (pop_worst v s) as [[] s1|e s1]; cbn [state_of] in *.
    + destruct (IH s1) as [j Hj]. exists (Nat.min j j1).
      by rewrite Hj, Hj1, take_take.
    + by exists j1.
Qed.

Lemma limit_index (v : variant) (n : option Z) (s : book) :
  exists j, _index (state_of (limit v n s)) = take j (_index s).
Proof.
  unfold limit, py_len. mrun.
  destruct (_ <? 0); cbn.
  - exists (length (_index s)). by rewrite take_ge.
  - match goal with |- context [repeat_times ?k _ ?s1] =>
      destruct (repeat_pop_index v k s1) as [j Hj] end.
    by exists j.
Qed.

Lemma sorted_keys_take (ix ix' : list value) (j : nat) :
  ix' = take j ix ->
  (exists ks, ix = VNum <$> ks /\ StronglySorted Z.lt ks) ->
  exists ks, ix' = VNum <$> ks /\ StronglySorted Z.lt ks.
Proof.
  intros -> (ks & -> & Hs). exists (take j ks). split; [by rewrite fmap_take|].
  rewrite <- (take_drop j ks) in Hs. by apply StronglySorted_app_1_l in Hs.
Qed.

Lemma limit_sorted (v : variant) (n : option Z) (s : book) :
  sorted_keys s -> sorted_keys (state_of (limit v n s)).
Proof.
  intros Hs. destruct (limit_index v n s) as [j Hj].
  exact (sorted_keys_take _ _ j Hj Hs).
Qed.

Lemma run_sorted (v : variant) (side : bool) (ops : list op) (s : book) :
  is_indexed v = false -> forallb numeric_op ops = true ->
  sorted_keys s -> sorted_keys (run v side s ops).
Proof.
  intros Hv. revert s. induction ops as [|o ops IH]; intros s Hops Hs; [done|].
  cbn in Hops. apply andb_prop in Hops as [Ho Hops].
  cbn [run fold_left]. apply IH; [done|].
  destruct o as [delta|n]; cbn [apply_op].
  - by apply store_sorted.
  - by apply limit_sorted.
Qed.

Lemma strictly_sorted_NoDup (ks : list Z) : StronglySorted Z.lt ks -> NoDup ks.
Proof.
  induction 1 as [|a ks Hs IH Ha]; constructor; [|done].
  intros Hin. pose proof (proj1 (Forall_forall _ _) Ha _ Hin). cbn in *. lia.
Qed.

(** C2 (amended). In the three price-keyed classes (OrderBookSide,
    CountedOrderBookSide, IncrementalOrderBookSide), on either side and for
    any depth, after every history of [storeArray] calls with a numeric
    price and [limit] calls, the key list is a list of numbers in strictly
    ascending order, so no key occurs twice. (The order-indexed classes keep
    one level per order and do store equal keys.) *)
Theorem key_index_strictly_ascending (v : variant) (side : bool) (depth : option Z)
    (ops : list op) :
  is_indexed v = false ->
  forallb numeric_op ops = true ->
  exists ks : list Z,
    _index (run v side (empty_book depth) ops) = VNum <$> ks
    /\ StronglySorted Z.lt ks
    /\ NoDup ks.
Proof.
  intros Hv Hops.
  destruct (run_sorted v side ops (empty_book depth) Hv Hops) as (ks & Hks & Hs).
  - exists []. split; [done|constructor].
  - exists ks. auto using strictly_sorted_NoDup.
Qed.

Lemma key_index_strictly_ascending_witness :
  exists ks : list Z,
    _index (run Incremental true (empty_book (Some 2))
              [OpStore [VNum 10; VNum 5]; OpStore [VNum 12; VNum 1];
               OpStore [VNum 10; VNum (-5)]; OpLimit None])
      = VNum <$> ks
    /\ StronglySorted Z.lt ks /\ NoDup ks.
Proof. apply key_index_strictly_ascending; reflexivity. Defined.

(** C2 as stated fails in the order-indexed classes: two orders with
    distinct ids at one price give two stored levels with equal keys. *)
Lemma indexed_orders_share_a_key :
  _index two_orders_one_price = [VNum 10; VNum 10]
  /\ ~ (exists ks : list Z,
          _index two_orders_one_price = VNum <$> ks /\ StronglySorted Z.lt ks).
Proof.
  split; [reflexivity|].
  intros (ks & Hks & Hs).
  change (_index two_orders_one_price) with (VNum <$> [10; 10]) in Hks.
  destruct ks as [|a [|b [|c ks]]]; try discriminate.
  injection Hks as <- <-.
  apply StronglySorted_inv in Hs as [_ Ha].
  apply Forall_inv in Ha. lia.
Qed.

(** ** The Absolute and Incremental strategies, case by case *)

Lemma split_position (l1 l2 : list Z) (key : Z) (j : nat) (k : Z) :
  Forall (fun y => y < key) l1 -> Forall (fun y => key <= y) l2 ->
  (l1 ++ l2) !! j = Some k ->
  (j < length l1)%nat <-> k < key.
Proof.
  intros H1 H2 Hj. apply lookup_app_Some in Hj as [Hj|[Hlen Hj]].
  - pose proof (Forall_lookup_1 _ _ _ _ H1 Hj) as Hk. cbn in Hk.
    apply lookup_lt_Some in Hj. lia.
  - pose proof (Forall_lookup_1 _ _ _ _ H2 Hj) as Hk. cbn in Hk. lia.
Qed.

Lemma key_position_unique (l1 l2 : list Z) (key : Z) (q : nat) :
  Forall (fun y => y < key) l1 -> Forall (fun y => key < y) l2 ->
  (VNum <$> (l1 ++ key :: l2)) !! q = Some (VNum key) ->
  q = length l1.
Proof.
  intros H1 H2 Hq. apply list_lookup_fmap_Some in Hq as (k & Hk & Hq). injection Hk as <-.
  apply lookup_app_Some in Hq as [Hq|[Hlen Hq]].
  - pose proof (Forall_lookup_1 _ _ _ _ H1 Hq) as Hk. cbn in Hk. lia.
  - destruct (q - length l1)%nat as [|m] eqn:Hm; [lia|].
    cbn in Hq. pose proof (Forall_lookup_1 _ _ _ _ H2 Hq) as Hk. cbn in Hk. lia.
Qed.

Lemma delete_split (l1 l2 : list Z) (key : Z) :
  delete (length l1) (VNum <$> (l1 ++ key :: l2)) = VNum <$> (l1 ++ l2).
Proof.
  pose proof (delitem_split l1 l2 key) as H.
  rewrite py_delitem_lt in H by (rewrite length_fmap, length_app; simpl; lia).
  by injection H.
Qed.

Lemma py_insert_lookup {A : Type} (l : list A) (p : nat) (x : A) :
  (p <= length l)%nat -> py_insert l p x !! p = Some x.
Proof.
  intros Hp. unfold py_insert.
  rewrite lookup_app_r by (rewrite length_take; lia).
  rewrite length_take. by replace (p - Nat.min p (length l))%nat with 0%nat by lia.
Qed.

(** What the object looks like to one call of a price-keyed [storeArray]:
    keys split around the delta's key, which is either there or not. *)
Lemma keyed_view (s : book) (ks : list Z) (key : Z) :
  _index s = VNum <$> ks -> StronglySorted Z.lt ks ->
  exists l1 l2,
    Forall (fun y => y < key) l1 /\ Forall (fun y => key < y) l2
    /\ ((ks = l1 ++ l2 /\ (key ∉ ks)
         /\ s = Book (levels s) (VNum <$> (l1 ++ l2)) (_hashmap s) (_depth s) (_n s))
        \/ (ks = l1 ++ key :: l2 /\ (key ∈ ks)
            /\ s = Book (levels s) (VNum <$> (l1 ++ key :: l2))
                        (_hashmap s) (_depth s) (_n s))).
Proof.
  intros Hix Hs.
  destruct (strict_split ks key Hs) as (l1 & l2 & H1 & H2 & [[-> Hnot]| ->]);
    exists l1, l2; (split; [done|]); (split; [done|]); [left|right];
    (split; [done|]); destruct s; cbn in *; subst.
  - done.
  - split; [|done]. apply elem_of_app. right. by left.
Qed.

(** C7. OrderBookSide on a book whose key list is strictly ascending, with
    parallel lists and well-shaped levels. The delta [(price, size)] has the
    key [-price] (bids) or [price] (asks); [bisect_left] returns the position
    [p] with all smaller keys before it and no smaller key from it on. With
    the key present: a nonzero size overwrites field 1 of the level at [p] and
    changes nothing else, size zero deletes the level and the key at [p]. With
    the key absent: a nonzero size inserts the delta and the key at [p], size
    zero changes nothing. Applying a delta with nonzero size a second time
    changes nothing more, and then exactly one position holds the key, with a
    level whose size is the delta's. *)
Theorem absolute_apply (side : bool) (s : book) (price size : Z) (ks : list Z) :
  _index s = VNum <$> ks -> StronglySorted Z.lt ks ->
  parallel s -> shaped Absolute s ->
  let key := sort_key side price in
  let delta := [VNum price; VNum size] in
  let apply := fun s => storeArray Absolute side delta s in
  exists p : nat,
    bisect_left (_index s) (VNum key) = Val p
    /\ (forall j k, ks !! j = Some k -> (j < p)%nat <-> k < key)
    /\ (key ∈ ks ->
        exists lvl, ks !! p = Some key /\ levels s !! p = Some lvl
          /\ apply s = Ok tt
               (if size =? 0
                then Book (delete p (levels s)) (delete p (_index s))
                          (_hashmap s) (_depth s) (_n s)
                else Book (<[p := <[1%nat := VNum size]> lvl]> (levels s)) (_index s)
                          (_hashmap s) (_depth s) (_n s)))
    /\ (key ∉ ks ->
        apply s = Ok tt
          (if size =? 0 then s
           else Book (py_insert (levels s) p delta) (py_insert (_index s) p (VNum key))
                     (_hashmap s) (_depth s) (_n s)))
    /\ (size <> 0 ->
        let s1 := state_of (apply s) in
        state_of (apply s1) = s1
        /\ (forall q, _index s1 !! q = Some (VNum key) <-> q = p)
        /\ exists lvl, levels s1 !! p = Some lvl /\ lvl !! 1%nat = Some (VNum size)).
Proof.
  intros Hix Hsorted Hpar Hshape key d2 apply.
  subst apply. cbn beta.
  destruct (keyed_view s ks key Hix Hsorted)
    as (l1 & l2 & H1 & H2 & [(-> & Hnot & Hs)|(-> & Hin & Hs)]).
  - (* the key is absent *)
    exists (length l1).
    assert (Hp : (length l1 <= length (levels s))%nat).
    { unfold parallel in Hpar. rewrite Hix, length_fmap, length_app in Hpar. lia. }
    assert (Happly : storeArray Absolute side d2 s = Ok tt
      (if size =? 0 then s
       else Book (py_insert (levels s) (length l1) d2)
                 (VNum <$> (l1 ++ key :: l2)) (_hashmap s) (_depth s) (_n s))).
    { rewrite Hs at 1. cbn [storeArray]. unfold d2.
      rewrite absolute_absent by done. cbn [truthy].
      destruct (size =? 0); cbn [negb]; [by rewrite <- Hs|done]. }
    split; [rewrite Hix; by apply bisect_left_split, Forall_lt_le|].
    split; [intros j k Hj; apply (split_position l1 l2 key j k); auto using Forall_lt_le|].
    split; [done|].
    split; [intros _; by rewrite Happly, Hix, insert_split|].
    intros Hsize s1.
    assert (Hs1 : s1 = Book (py_insert (levels s) (length l1) d2)
                            (VNum <$> (l1 ++ key :: l2)) (_hashmap s) (_depth s) (_n s)).
    { subst s1. rewrite Happly. by rewrite (proj2 (Z.eqb_neq _ _) Hsize). }
    rewrite Hs1. cbn [levels _index].
    split; [|split].
    + cbn [storeArray]. unfold d2.
      rewrite absolute_present by done. cbn [truthy].
      rewrite (proj2 (Z.eqb_neq _ _) Hsize). cbn [negb].
      rewrite (level_setitem_ok _ _ _ d2); [|by apply py_insert_lookup|cbn; lia].
      cbn [state_of]. f_equal. by apply list_insert_id, py_insert_lookup.
    + intros q. split; [by apply key_position_unique|].
      intros ->. by rewrite lookup_split_head.
    + exists d2. by rewrite py_insert_lookup.
  - (* the key is present *)
    exists (length l1).
    assert (Hp : (length l1 < length (levels s))%nat).
    { unfold parallel in Hpar. rewrite Hix, length_fmap, length_app in Hpar.
      cbn in Hpar. lia. }
    destruct (lookup_lt_is_Some_2 _ _ Hp) as [lvl Hlvl].
    assert (Hlen : (1 < length lvl)%nat).
    { pose proof (Forall_lookup_1 _ _ _ _ Hshape Hlvl) as Hl. cbn in Hl. lia. }
    assert (Happly : storeArray Absolute side d2 s = Ok tt
      (if size =? 0
       then Book (delete (length l1) (levels s)) (VNum <$> (l1 ++ l2))
                 (_hashmap s) (_depth s) (_n s)
       else Book (<[length l1 := <[1%nat := VNum size]> lvl]> (levels s))
                 (VNum <$> (l1 ++ key :: l2)) (_hashmap s) (_depth s) (_n s))).
    { rewrite Hs at 1. cbn [storeArray]. unfold d2.
      rewrite absolute_present by done. cbn [truthy].
      destruct (size =? 0); cbn [negb].
      - by rewrite py_delitem_lt.
      - by rewrite (level_setitem_ok _ _ _ lvl). }
    split; [rewrite Hix; apply bisect_left_split; [done|]|].
    { constructor; [lia|by apply Forall_lt_le]. }
    split.
    { intros j k Hj. apply (split_position l1 (key :: l2) key j k); [done| |done].
      constructor; [lia|by apply Forall_lt_le]. }
    split.
    { intros _. exists lvl. split.
      - rewrite lookup_app_r, Nat.sub_diag by lia. done.
      - split; [done|]. rewrite Happly, Hix, delete_split. done. }
    split; [done|].
    intros Hsize s1.
    assert (Hs1 : s1 = Book (<[length l1 := <[1%nat := VNum size]> lvl]> (levels s))
                            (VNum <$> (l1 ++ key :: l2)) (_hashmap s) (_depth s) (_n s)).
    { subst s1. rewrite Happly. by rewrite (proj2 (Z.eqb_neq _ _) Hsize). }
    rewrite Hs1. cbn [levels _index].
    assert (Hnew : <[length l1 := <[1%nat := VNum size]> lvl]> (levels s) !! length l1
                   = Some (<[1%nat := VNum size]> lvl))
      by (by apply list_lookup_insert_eq).
    split; [|split].
    + cbn [storeArray]. unfold d2.
      rewrite absolute_present by done. cbn [truthy].
      rewrite (proj2 (Z.eqb_neq _ _) Hsize). cbn [negb].
      rewrite (level_setitem_ok _ _ _ (<[1%nat := VNum size]> lvl));
        [|done|by rewrite length_insert].
      cbn [state_of]. f_equal. by rewrite !list_insert_insert_eq.
    + intros q. split; [by apply key_position_unique|].
      intros ->. by rewrite lookup_split_head.
    + exists (<[1%nat := VNum size]> lvl). split; [done|].
      by apply list_lookup_insert_eq.
Qed.

Lemma absolute_apply_witness :
  exists p : nat,
    bisect_left (_index four_asks_depth_three) (VNum (sort_key false 9)) = Val p.
Proof.
  destruct (absolute_apply false four_asks_depth_three 9 0 [8; 9; 10]) as (p & Hp & _).
  - reflexivity.
  - repeat (constructor; try lia).
  - reflexivity.
  - unfold shaped.
    change (levels four_asks_depth_three)
      with [[VNum 8; VNum 1]; [VNum 9; VNum 1]; [VNum 10; VNum 1]].
    repeat constructor.
  - exists p. exact Hp.
Defined.

(** C8. IncrementalOrderBookSide on a book whose key list is strictly
    ascending, with parallel lists and numeric stored sizes. With the delta's
    key present at [p], the effective size is the delta's size plus the
    stored size: if positive it overwrites field 1 of the level at [p],
    otherwise the level and the key at [p] are deleted. With the key absent
    the effective size is the delta's size: if positive the delta and the key
    are inserted at [p], otherwise nothing changes. On asks, [(10, 5)] then
    [(10, -3)] leaves the single level [(10, 2)], and [(10, -2)] after that
    leaves the book empty. *)
Theorem incremental_apply (side : bool) (s : book) (price size : Z) (ks : list Z) :
  _index s = VNum <$> ks -> StronglySorted Z.lt ks ->
  parallel s -> numeric_sizes s ->
  let key := sort_key side price in
  let delta := [VNum price; VNum size] in
  (exists p : nat,
     bisect_left (_index s) (VNum key) = Val p
     /\ (key ∈ ks ->
         exists (lvl : list value) (old : Z),
           ks !! p = Some key /\ levels s !! p = Some lvl /\ lvl !! 1%nat = Some (VNum old)
           /\ storeArray Incremental side delta s = Ok tt
                (if 0 <? size + old
                 then Book (<[p := <[1%nat := VNum (size + old)]> lvl]> (levels s))
                           (_index s) (_hashmap s) (_depth s) (_n s)
                 else Book (delete p (levels s)) (delete p (_index s))
                           (_hashmap s) (_depth s) (_n s)))
     /\ (key ∉ ks ->
         storeArray Incremental side delta s = Ok tt
           (if 0 <? size
            then Book (py_insert (levels s) p delta) (py_insert (_index s) p (VNum key))
                      (_hashmap s) (_depth s) (_n s)
            else s)))
  /\ levels (run Incremental false (empty_book None)
               [OpStore [VNum 10; VNum 5]; OpStore [VNum 10; VNum (-3)]])
     = [[VNum 10; VNum 2]]
  /\ levels (run Incremental false (empty_book None)
               [OpStore [VNum 10; VNum 5]; OpStore [VNum 10; VNum (-3)];
                OpStore [VNum 10; VNum (-2)]])
     = [].
Proof.
  intros Hix Hsorted Hpar Hsizes key delta.
  split; [|split; reflexivity].
  destruct (keyed_view s ks key Hix Hsorted)
    as (l1 & l2 & H1 & H2 & [(-> & Hnot & Hs)|(-> & Hin & Hs)]);
    exists (length l1).
  - (* the key is absent *)
    split; [rewrite Hix; by apply bisect_left_split, Forall_lt_le|].
    split; [done|]. intros _.
    rewrite Hs at 1. cbn [storeArray]. unfold delta.
    rewrite incremental_absent by done. cbn [py_gt py_lt].
    rewrite Hix, insert_split. destruct (0 <? size); [done|by rewrite <- Hs].
  - (* the key is present *)
    assert (Hp : (length l1 < length (levels s))%nat).
    { unfold parallel in Hpar. rewrite Hix, length_fmap, length_app in Hpar.
      cbn in Hpar. lia. }
    destruct (lookup_lt_is_Some_2 _ _ Hp) as [lvl Hlvl].
    destruct (Forall_lookup_1 _ _ _ _ Hsizes Hlvl) as [old Hold].
    split; [rewrite Hix; apply bisect_left_split; [done|]|].
    { constructor; [lia|by apply Forall_lt_le]. }
    split; [|done]. intros _. exists lvl, old.
    split; [by rewrite lookup_app_r, Nat.sub_diag by lia|].
    split; [done|]. split; [done|].
    rewrite Hs at 1. cbn [storeArray]. unfold delta.
    rewrite incremental_present by done.
    rewrite Hlvl. cbn [mbind option_bind]. rewrite Hold. cbn [py_add py_gt py_lt].
    rewrite Hix, delete_split. destruct (0 <? size + old).
    + rewrite (level_setitem_ok _ _ _ lvl); [done|done|].
      by apply lookup_lt_Some in Hold.
    + by rewrite py_delitem_lt.
Qed.

Lemma incremental_apply_witness :
  exists p : nat,
    bisect_left (_index one_incremental_ask) (VNum (sort_key false 10)) = Val p.
Proof.
  destruct (incremental_apply false one_incremental_ask 10 (-3) [10]) as ((p & Hp & _) & _).
  - reflexivity.
  - repeat (constructor; try lia).
  - reflexivity.
  - unfold numeric_sizes.
    change (levels one_incremental_ask) with [[VNum 10; VNum 5]].
    repeat constructor. by exists 5.
  - exists p. exact Hp.
Defined.

(** ** The order-indexed classes on orders that share or change a price *)

(** C4. The id map and the level list drift apart. In IndexedAsks, after
    orders A and B are stored at price 10 and A is deleted, the level that is
    left carries id A, the map no longer has A, and the map still has B, whose
    level is gone: [bisect_left] on the price finds B's level first. *)
Theorem id_map_loses_track_at_equal_prices :
  levels delete_one_of_two = [[VNum 10; VNum 1; VStr "A"]]
  /\ _hashmap delete_one_of_two !! VStr "A" = None
  /\ _hashmap delete_one_of_two !! VStr "B" = Some (VNum 10)
  /\ ~ (forall order_id : value,
          is_Some (_hashmap delete_one_of_two !! order_id)
          <-> exists lvl, lvl ∈ levels delete_one_of_two /\ lvl !! 2%nat = Some order_id).
Proof.
  assert (HA : _hashmap delete_one_of_two !! VStr "A" = None) by (vm_compute; reflexivity).
  repeat split; try (vm_compute; reflexivity).
  intros H. destruct (proj2 (H (VStr "A"))) as [x Hx].
  - exists [VNum 10; VNum 1; VStr "A"]. split; [|reflexivity].
    change (levels delete_one_of_two) with [[VNum 10; VNum 1; VStr "A"]].
    by left.
  - rewrite HA in Hx. discriminate.
Qed.

(** C5. In IncrementalIndexedAsks, order A rests at price 10 with size 5.
    The delta [(11, 3, A)] resolves to key 11, where no level is stored. With
    nothing past key 10 the call raises IndexError at [self[index][1]] and
    changes nothing; with order B at price 12 and size 7 it moves A to 11
    with size 3 + 7, adding the size of B's level. *)
Theorem incremental_move_reads_wrong_level :
  storeArray IncrementalIndexed false [VNum 11; VNum 3; VStr "A"] one_incremental_order
    = Raise IndexError one_incremental_order
  /\ levels (state_of (storeArray IncrementalIndexed false [VNum 11; VNum 3; VStr "A"]
                         two_incremental_orders))
     = [[VNum 11; VNum 10; VStr "A"]; [VNum 12; VNum 7; VStr "B"]].
Proof. split; vm_compute; reflexivity. Qed.

(** ** What every reachable object satisfies *)

Lemma py_delitem_Val {A : Type} (l l' : list A) (i : nat) :
  py_delitem l i = Val l' -> (i < length l)%nat /\ l' = delete i l.
Proof.
  unfold py_delitem. destruct (i <? length l)%nat eqn:E; [|discriminate].
  apply Nat.ltb_lt in E. by intros [= <-].
Qed.

Lemma py_setitem_Val {A : Type} (l l' : list A) (i : nat) (x : A) :
  py_setitem l i x = Val l' -> (i < length l)%nat /\ l' = <[i := x]> l.
Proof.
  unfold py_setitem. destruct (i <? length l)%nat eqn:E; [|discriminate].
  apply Nat.ltb_lt in E. by intros [= <-].
Qed.

Lemma py_getitem_Val {A : Type} (l : list A) (i : nat) (x : A) :
  py_getitem l i = Val x -> l !! i = Some x.
Proof. unfold py_getitem. destruct (l !! i); [by intros [= <-]|discriminate]. Qed.

Lemma delete_length_lt {A : Type} (l : list A) (i : nat) :
  (i < length l)%nat -> length (delete i l) = (length l - 1)%nat.
Proof. intros H. apply length_delete. by apply lookup_lt_is_Some_2. Qed.

Lemma Forall_py_insert {A : Type} (P : A -> Prop) (l : list A) (i : nat) (x : A) :
  Forall P l -> P x -> Forall P (py_insert l i x).
Proof.
  intros Hl Hx. unfold py_insert. apply Forall_app. split; [by apply Forall_take|].
  constructor; [done|by apply Forall_drop].
Qed.

Section preservation.
Context (P : book -> Prop).

Lemma preserves_ret {A : Type} (a : A) : preserves P (ret a).
Proof. by intros s Hs. Qed.

Lemma preserves_raise {A : Type} (e : exn) : preserves P (@raise A e).
Proof. by intros s Hs. Qed.

Lemma preserves_readonly {A : Type} (m : M A) : readonly m -> preserves P m.
Proof. intros Hm s Hs. by rewrite Hm. Qed.

Lemma preserves_bind {A B : Type} (m : M A) (k : A -> M B) :
  preserves P m -> (forall a, preserves P (k a)) -> preserves P (bind m k).
Proof.
  intros Hm Hk s Hs. unfold bind. specialize (Hm s Hs).
  destruct (m s) as [a s'|e s']; cbn in *; [by apply Hk|done].
Qed.

Lemma preserves_bind_lift {A B : Type} (r : res A) (k : A -> M B) :
  (forall a, r = Val a -> preserves P (k a)) -> preserves P (bind (lift r) k).
Proof.
  intros Hk s Hs. unfold bind, lift. destruct r as [a|e]; cbn; [by apply Hk|done].
Qed.

Lemma preserves_bind_readonly {A B : Type} (m : M A) (k : A -> M B) :
  readonly m -> (forall a s, m s = Ok a s -> preserves P (k a)) ->
  preserves P (bind m k).
Proof.
  intros Hm Hk s Hs. unfold bind. specialize (Hm s).
  destruct (m s) as [a s'|e s'] eqn:E; cbn in *; subst s'; [by eapply Hk|done].
Qed.

Lemma preserves_bind_post {A B : Type} (m : M A) (k : A -> M B) (Q : A -> Prop) :
  (forall s a s', m s = Ok a s' -> Q a) ->
  preserves P m -> (forall a, Q a -> preserves P (k a)) -> preserves P (bind m k).
Proof.
  intros HQ Hm Hk s Hs. unfold bind. specialize (Hm s Hs). specialize (HQ s).
  destruct (m s) as [a s'|e s']; cbn in *; [|done]. apply Hk; [by eapply HQ|done].
Qed.

Lemma preserves_assoc {A B C : Type} (m : M A) (f : A -> M B) (g : B -> M C) :
  preserves P (bind (bind m f) g) -> preserves P (bind m (fun x => bind (f x) g)).
Proof. intros H s Hs. rewrite <- bind_assoc. by apply H. Qed.
End preservation.

Lemma readonly_lift {A : Type} (r : res A) : readonly (lift r).
Proof. intros s. by destruct r. Qed.

Lemma readonly_index_bisect (x : value) : readonly (index_bisect x).
Proof. intros s. unfold index_bisect. mrun. by destruct (bisect_left _ _). Qed.

Lemma readonly_index_matches (i : nat) (x : value) : readonly (index_matches i x).
Proof. by intros s. Qed.

Lemma readonly_level_getitem (i j : nat) : readonly (level_getitem i j).
Proof. intros s. rewrite level_getitem_eq. by destruct (_ ≫= _). Qed.

Lemma readonly_hashmap_contains (o : value) : readonly (hashmap_contains o).
Proof. by intros s. Qed.

Lemma readonly_hashmap_getitem (o : value) : readonly (hashmap_getitem o).
Proof. intros s. unfold hashmap_getitem. mrun. by destruct (_ !! _). Qed.

Section well_formedness.
Variable v : variant.

Lemma wf_hashmap_setitem (o k : value) : preserves (well_formed v) (hashmap_setitem o k).
Proof. by intros [lv ix h d n] Hs. Qed.

Lemma wf_hashmap_delitem (o : value) : preserves (well_formed v) (hashmap_delitem o).
Proof. by intros [lv ix h d n] Hs. Qed.

Lemma wf_level_setitem (i j : nat) (x : value) :
  preserves (well_formed v) (level_setitem i j x).
Proof.
  intros [lv ix h d n] [Hpar Hshape]. unfold level_setitem. mrun.
  destruct (py_getitem lv i) as [lvl|] eqn:Hi; cbn; [|done].
  destruct (py_setitem lvl j x) as [lvl'|] eqn:Hj; cbn; [|done].
  apply py_getitem_Val in Hi. apply py_setitem_Val in Hj as [Hj ->].
  unfold well_formed, parallel, shaped. cbn [levels _index state_of] in *.
  split; [by rewrite length_insert|].
  apply Forall_insert; [done|]. rewrite length_insert.
  by apply (Forall_lookup_1 _ _ _ _ Hshape Hi).
Qed.

Lemma wf_insert_pair (p : nat) (k : value) (delta : list value) :
  (arity v <= length delta)%nat ->
  preserves (well_formed v) (index_insert p k ;; self_insert p delta).
Proof.
  intros Hdelta [lv ix h d n] [Hpar Hshape].
  unfold well_formed, parallel, shaped in *. cbn [levels _index state_of] in *.
  unfold index_insert, self_insert. mrun.
  unfold well_formed, parallel, shaped. cbn [levels _index state_of].
  split; [by rewrite !py_insert_length, Hpar|by apply Forall_py_insert].
Qed.

Lemma wf_delete_pair (p : nat) :
  preserves (well_formed v) (index_delitem p ;; self_delitem p).
Proof.
  intros [lv ix h d n] [Hpar Hshape].
  unfold well_formed, parallel, shaped in *. cbn [levels _index state_of] in *.
  unfold bind, index_delitem, self_delitem. mrun.
  destruct (py_delitem ix p) as [ix'|] eqn:Hix; mrun; [|done].
  apply py_delitem_Val in Hix as [Hp ->].
  rewrite py_delitem_lt by lia. unfold well_formed, parallel, shaped.
  cbn [state_of levels _index]. split.
  - rewrite !delete_length_lt by lia. lia.
  - by apply Forall_delete.
Qed.

Lemma wf_setitem_pair (p : nat) (k : value) (delta : list value) :
  (arity v <= length delta)%nat ->
  preserves (well_formed v) (index_setitem p k ;; self_setitem p delta).
Proof.
  intros Hdelta [lv ix h d n] [Hpar Hshape].
  unfold well_formed, parallel, shaped in *. cbn [levels _index state_of] in *.
  unfold bind, index_setitem, self_setitem. mrun.
  destruct (py_setitem ix p k) as [ix'|] eqn:Hix; mrun; [|done].
  apply py_setitem_Val in Hix as [Hp ->].
  rewrite py_setitem_lt by lia. unfold well_formed, parallel, shaped.
  cbn [state_of levels _index]. split.
  - by rewrite !length_insert.
  - by apply Forall_insert.
Qed.
End well_formedness.

Ltac preserve_step :=
  first
    [ apply preserves_ret
    | apply preserves_raise
    | apply wf_insert_pair
    | apply wf_delete_pair
    | apply wf_setitem_pair
    | apply wf_level_setitem
    | apply wf_hashmap_setitem
    | apply wf_hashmap_delitem
    | apply preserves_bind_lift; intros ? ?
    | apply preserves_readonly;
      first [ apply readonly_lift | apply readonly_index_bisect | apply readonly_index_matches
            | apply readonly_level_getitem | apply readonly_hashmap_contains
            | apply readonly_hashmap_getitem ]
    | match goal with
      | |- preserves _ (bind (index_delitem ?p) (fun _ => bind (self_delitem ?p) _)) =>
          apply preserves_assoc
      end
    | apply preserves_bind; [|intros ?]
    | match goal with
      | |- preserves _ (if ?b then _ else _) => destruct b
      | |- preserves _ (match ?x with _ => _ end) => destruct x
      | |- preserves _ (let '(_, _) := ?x in _) => destruct x
      end ].

Ltac delta_length :=
  repeat match goal with
  | H : py_getitem _ _ = Val _ |- _ => apply py_getitem_Val, lookup_lt_Some in H
  end;
  rewrite ?length_insert; cbn [arity]; lia.

Lemma storeArray_well_formed (v : variant) (side : bool) (delta : list value) :
  preserves (well_formed v) (storeArray v side delta).
Proof.
  destruct v; unfold storeArray, OrderBookSide_storeArray, CountedOrderBookSide_storeArray,
    IndexedOrderBookSide_storeArray, IncrementalOrderBookSide_storeArray,
    IncrementalIndexedOrderBookSide_storeArray,
    insert_new_price_level, remove_order, remove_old_price_level; cbv zeta.
  - repeat preserve_step; delta_length.
  - repeat preserve_step; delta_length.
  - repeat preserve_step; delta_length.
  - repeat preserve_step; delta_length.
  - do 6 preserve_step.
    match goal with
    | |- preserves _ (bind ?m ?k) =>
        apply (preserves_bind_post _ m k
                 (fun '(_, _, _, _, d0) => length d0 = length delta))
    end.
    + intros s r s'. destruct (_ && _); [|by intros [= <- _]].
      unfold bind.
      destruct (hashmap_getitem _ _) as [old_price s1|]; [|discriminate].
      destruct (index_bisect _ _) as [index s2|]; [|discriminate].
      destruct (level_getitem _ _ _) as [old_size s3|]; [|discriminate].
      destruct (py_add _ _) as [size'|]; [|discriminate].
      destruct (py_abs _) as [p|]; [|discriminate].
      intros [= <- _]. by rewrite !length_insert.
    + repeat preserve_step.
    + intros [[[[old_price index] index_price] size'] delta'] Hlen.
      repeat preserve_step; rewrite ?Hlen; delta_length.
Qed.

Lemma pop_worst_well_formed (v : variant) : preserves (well_formed v) (pop_worst v).
Proof.
  intros [lv ix h d n] [Hpar Hshape].
  unfold well_formed, parallel, shaped in *. cbn [levels _index] in *.
  destruct (list_snoc_case lv) as [->|(lv' & x & ->)]; [done|].
  destruct (list_snoc_case ix) as [->|(ix' & k & ->)].
  { rewrite length_app in Hpar. cbn in Hpar. lia. }
  apply Forall_app in Hshape as [Hshape Hx]. apply Forall_inv in Hx.
  rewrite pop_worst_snoc by done. cbn [state_of levels _index].
  rewrite !length_app in Hpar. cbn in Hpar. split; [lia|done].
Qed.

Lemma repeat_times_preserves (P : book -> Prop) (body : M unit) (k : nat) :
  preserves P body -> preserves P (repeat_times k body).
Proof.
  intros Hbody. induction k as [|k IH]; cbn [repeat_times].
  - apply preserves_ret.
  - by apply preserves_bind.
Qed.

Lemma limit_well_formed (v : variant) (n : option Z) : preserves (well_formed v) (limit v n).
Proof.
  unfold limit, py_len. apply preserves_bind; [by intros [lv ix h d0 n0] Hs|intros _].
  apply preserves_bind.
  - intros s Hs. mrun. by destruct (_ <? 0).
  - intros len. apply preserves_bind; [by intros s Hs|intros s].
    apply repeat_times_preserves, pop_worst_well_formed.
Qed.

(** Every object reached from the constructor by [storeArray] and [limit]
    calls, whatever their arguments and outcomes, has parallel lists and
    well-shaped levels. *)
Lemma run_well_formed (v : variant) (side : bool) (ops : list op) (s : book) :
  well_formed v s -> well_formed v (run v side s ops).
Proof.
  revert s. induction ops as [|o ops IH]; intros s Hs; [done|].
  cbn [run fold_left]. apply IH. destruct o as [delta|n]; cbn [apply_op].
  - by apply storeArray_well_formed.
  - by apply limit_well_formed.
Qed.

Lemma empty_book_well_formed (v : variant) (depth : option Z) :
  well_formed v (empty_book depth).
Proof. split; [reflexivity|constructor]. Qed.

(** ** A weakest-precondition calculus for the methods *)

Section wp_rules.
Context (I : book -> Prop).

Lemma wp_ret {A : Type} (a : A) (Q : A -> book -> Prop) (s : book) :
  Q a s -> wp I (ret a) Q s.
Proof. done. Qed.

Lemma wp_raise {A : Type} (e : exn) (Q : A -> book -> Prop) (s : book) :
  I s -> wp I (raise e) Q s.
Proof. done. Qed.

Lemma wp_lift {A : Type} (r : res A) (Q : A -> book -> Prop) (s : book) :
  I s -> (forall a, r = Val a -> Q a s) -> wp I (lift r) Q s.
Proof. intros HI HQ. unfold wp, lift. destruct r; cbn; auto. Qed.

Lemma wp_bind {A B : Type} (m : M A) (k : A -> M B) (Q : B -> book -> Prop) (s : book) :
  wp I m (fun a s' => wp I (k a) Q s') s -> wp I (bind m k) Q s.
Proof. unfold wp, bind. by destruct (m s). Qed.

Lemma wp_state_of {A : Type} (m : M A) (s : book) :
  wp I m (fun _ s' => I s') s -> I (state_of (m s)).
Proof. unfold wp. by destruct (m s). Qed.

Lemma wp_index_bisect (x : value) (Q : nat -> book -> Prop) (s : book) :
  I s -> (forall p, bisect_left (_index s) x = Val p -> Q p s) ->
  wp I (index_bisect x) Q s.
Proof.
  intros HI HQ. unfold wp, index_bisect. mrun.
  destruct (bisect_left (_index s) x); cbn; auto.
Qed.

Lemma wp_index_matches (i : nat) (x : value) (Q : bool -> book -> Prop) (s : book) :
  (forall b, Q b s) -> wp I (index_matches i x) Q s.
Proof. intros HQ. apply HQ. Qed.

Lemma wp_hashmap_contains (o : value) (Q : bool -> book -> Prop) (s : book) :
  Q (bool_decide (is_Some (_hashmap s !! o))) s -> wp I (hashmap_contains o) Q s.
Proof. done. Qed.

Lemma wp_hashmap_getitem (o : value) (Q : value -> book -> Prop) (s : book) :
  I s -> (forall k, _hashmap s !! o = Some k -> Q k s) -> wp I (hashmap_getitem o) Q s.
Proof.
  intros HI HQ. unfold wp, hashmap_getitem. mrun.
  destruct (_hashmap s !! o); cbn; auto.
Qed.

Lemma wp_hashmap_setitem (o k : value) (Q : unit -> book -> Prop) (s : book) :
  Q tt (Book (levels s) (_index s) (<[o := k]> (_hashmap s)) (_depth s) (_n s)) ->
  wp I (hashmap_setitem o k) Q s.
Proof. done. Qed.

Lemma wp_hashmap_delitem (o : value) (Q : unit -> book -> Prop) (s : book) :
  Q tt (Book (levels s) (_index s) (delete o (_hashmap s)) (_depth s) (_n s)) ->
  wp I (hashmap_delitem o) Q s.
Proof. done. Qed.

Lemma wp_index_insert (p : nat) (k : value) (Q : unit -> book -> Prop) (s : book) :
  Q tt (Book (levels s) (py_insert (_index s) p k) (_hashmap s) (_depth s) (_n s)) ->
  wp I (index_insert p k) Q s.
Proof. done. Qed.

Lemma wp_self_insert (p : nat) (delta : list value) (Q : unit -> book -> Prop) (s : book) :
  Q tt (Book (py_insert (levels s) p delta) (_index s) (_hashmap s) (_depth s) (_n s)) ->
  wp I (self_insert p delta) Q s.
Proof. done. Qed.

Lemma wp_index_delitem (p : nat) (Q : unit -> book -> Prop) (s : book) :
  I s ->
  (forall ix', py_delitem (_index s) p = Val ix' ->
     Q tt (Book (levels s) ix' (_hashmap s) (_depth s) (_n s))) ->
  wp I (index_delitem p) Q s.
Proof.
  intros HI HQ. unfold wp, index_delitem. mrun.
  destruct (py_delitem (_index s) p); cbn; auto.
Qed.

Lemma wp_index_setitem (p : nat) (k : value) (Q : unit -> book -> Prop) (s : book) :
  I s ->
  (forall ix', py_setitem (_index s) p k = Val ix' ->
     Q tt (Book (levels s) ix' (_hashmap s) (_depth s) (_n s))) ->
  wp I (index_setitem p k) Q s.
Proof.
  intros HI HQ. unfold wp, index_setitem. mrun.
  destruct (py_setitem (_index s) p k); cbn; auto.
Qed.

Lemma wp_self_delitem (p : nat) (Q : unit -> book -> Prop) (s : book) :
  I s ->
  (forall lv', py_delitem (levels s) p = Val lv' ->
     Q tt (Book lv' (_index s) (_hashmap s) (_depth s) (_n s))) ->
  wp I (self_delitem p) Q s.
Proof.
  intros HI HQ. unfold wp, self_delitem. mrun.
  destruct (py_delitem (levels s) p); cbn; auto.
Qed.

Lemma wp_self_setitem (p : nat) (delta : list value) (Q : unit -> book -> Prop) (s : book) :
  I s ->
  (forall lv', py_setitem (levels s) p delta = Val lv' ->
     Q tt (Book lv' (_index s) (_hashmap s) (_depth s) (_n s))) ->
  wp I (self_setitem p delta) Q s.
Proof.
  intros HI HQ. unfold wp, self_setitem. mrun.
  destruct (py_setitem (levels s) p delta); cbn; auto.
Qed.

Lemma wp_level_getitem (i j : nat) (Q : value -> book -> Prop) (s : book) :
  I s ->
  (forall lvl x, levels s !! i = Some lvl -> lvl !! j = Some x -> Q x s) ->
  wp I (level_getitem i j) Q s.
Proof.
  intros HI HQ. unfold wp. rewrite level_getitem_eq.
  destruct (levels s !! i) as [lvl|] eqn:Hi; cbn; [|done].
  destruct (lvl !! j) as [x|] eqn:Hj; cbn; eauto.
Qed.

Lemma wp_level_setitem (i j : nat) (x : value) (Q : unit -> book -> Prop) (s : book) :
  I s ->
  (forall lvl, levels s !! i = Some lvl -> (j < length lvl)%nat ->
     Q tt (Book (<[i := <[j := x]> lvl]> (levels s)) (_index s)
                (_hashmap s) (_depth s) (_n s))) ->
  wp I (level_setitem i j x) Q s.
Proof.
  intros HI HQ. unfold wp, level_setitem. mrun.
  destruct (py_getitem (levels s) i) as [lvl|] eqn:Hi; cbn; [|done].
  destruct (py_setitem lvl j x) as [lvl'|] eqn:Hj; cbn; [|done].
  apply py_getitem_Val in Hi. apply py_setitem_Val in Hj as [Hj ->]. by apply HQ.
Qed.
End wp_rules.

Ltac wp_prim :=
  lazymatch goal with
  | |- wp _ (ret _) _ _ => apply wp_ret
  | |- wp _ (raise _) _ _ => apply wp_raise
  | |- wp _ (lift _) _ _ => apply wp_lift; [|intros ? ?]
  | |- wp _ (index_bisect _) _ _ => apply wp_index_bisect; [|intros ? ?]
  | |- wp _ (index_matches _ _) _ _ => apply wp_index_matches; intros ?
  | |- wp _ (hashmap_contains _) _ _ => apply wp_hashmap_contains
  | |- wp _ (hashmap_getitem _) _ _ => apply wp_hashmap_getitem; [|intros ? ?]
  | |- wp _ (hashmap_setitem _ _) _ _ => apply wp_hashmap_setitem
  | |- wp _ (hashmap_delitem _) _ _ => apply wp_hashmap_delitem
  | |- wp _ (index_insert _ _) _ _ => apply wp_index_insert
  | |- wp _ (self_insert _ _) _ _ => apply wp_self_insert
  | |- wp _ (index_delitem _) _ _ => apply wp_index_delitem; [|intros ? ?]
  | |- wp _ (index_setitem _ _) _ _ => apply wp_index_setitem; [|intros ? ?]
  | |- wp _ (self_delitem _) _ _ => apply wp_self_delitem; [|intros ? ?]
  | |- wp _ (self_setitem _ _) _ _ => apply wp_self_setitem; [|intros ? ?]
  | |- wp _ (level_getitem _ _) _ _ => apply wp_level_getitem; [|intros ? ? ? ?]
  | |- wp _ (level_setitem _ _ _) _ _ => apply wp_level_setitem; [|intros ? ? ?]
  end.

Ltac wp_step :=
  lazymatch goal with
  | |- wp _ (bind (bind _ _) _) _ _ => apply wp_bind
  | |- wp _ (bind (if ?b then _ else _) _) _ _ => apply wp_bind
  | |- wp _ (bind _ _) _ _ => apply wp_bind; wp_prim
  | |- wp _ (if ?b then _ else _) _ _ => destruct b eqn:?
  | |- wp _ (match ?x with _ => _ end) _ _ => destruct x eqn:?
  | |- wp _ _ _ _ => wp_prim
  end;
  cbn [levels _index _hashmap _depth _n].

(** ** The key list of the order-indexed classes stays ascending *)

Lemma ascending_nil : ascending [].
Proof. exists []. split; [done|constructor]. Qed.

Lemma ascending_insert (ix : list value) (key : Z) (p : nat) :
  ascending ix -> bisect_left ix (VNum key) = Val p ->
  ascending (py_insert ix p (VNum key)).
Proof.
  intros (ks & -> & Hs) Hp.
  destruct (sorted_split ks key Hs) as (l1 & l2 & -> & H1 & H2).
  rewrite (bisect_left_split _ _ _ H1 H2) in Hp. injection Hp as <-.
  rewrite insert_split. eexists. split; [done|].
  apply StronglySorted_app in Hs as (Hx & Hs1 & Hs2).
  apply StronglySorted_app. split; [|split; [done|]].
  - intros x1 x2 Hx1 [->|Hx2]%elem_of_cons; [|by apply Hx].
    pose proof (proj1 (Forall_forall _ _) H1 _ Hx1). cbn in *. lia.
  - by constructor.
Qed.

Lemma ascending_delete (ix : list value) (p : nat) :
  ascending ix -> ascending (delete p ix).
Proof.
  intros (ks & -> & Hs). exists (delete p ks). split.
  - by rewrite !delete_take_drop, fmap_app, fmap_take, fmap_drop.
  - rewrite delete_take_drop.
    rewrite <- (take_drop p ks) in Hs.
    apply StronglySorted_app in Hs as (Hx & Hs1 & Hs2).
    apply StronglySorted_app. split; [|split; [done|]].
    + intros x1 x2 Hx1 Hx2. apply Hx; [done|].
      rewrite <- (take_drop 1 (drop p ks)), drop_drop, Nat.add_1_r.
      apply elem_of_app. by right.
    + rewrite <- (take_drop 1 (drop p ks)), drop_drop, Nat.add_1_r in Hs2.
      by apply StronglySorted_app in Hs2 as (_ & _ & Hs2).
Qed.

Lemma ascending_delitem (ix ix' : list value) (p : nat) :
  ascending ix -> py_delitem ix p = Val ix' -> ascending ix'.
Proof. intros Hix [_ ->]%py_delitem_Val. by apply ascending_delete. Qed.

Lemma ascending_setitem (ix ix' : list value) (key : Z) (p : nat) :
  ascending ix -> bisect_left ix (VNum key) = Val p ->
  py_setitem ix p (VNum key) = Val ix' -> ascending ix'.
Proof.
  intros (ks & -> & Hs) Hp [Hlt ->]%py_setitem_Val.
  destruct (sorted_split ks key Hs) as (l1 & l2 & -> & H1 & H2).
  rewrite (bisect_left_split _ _ _ H1 H2) in Hp. injection Hp as <-.
  rewrite length_fmap, length_app in Hlt.
  destruct l2 as [|a l2]; [cbn in Hlt; lia|].
  exists (l1 ++ key :: l2). split.
  - rewrite <- list_fmap_insert. f_equal.
    rewrite insert_app_r_alt, Nat.sub_diag by lia. done.
  - apply StronglySorted_app in Hs as (Hx & Hs1 & Hs2).
    apply StronglySorted_cons in Hs2 as [Ha Hs2].
    apply Forall_cons in H2 as [Hka H2].
    apply StronglySorted_app. split; [|split; [done|]].
    + intros x1 x2 Hx1 [->|Hx2]%elem_of_cons.
      * pose proof (proj1 (Forall_forall _ _) H1 _ Hx1). cbn in *. lia.
      * apply Hx; [done|]. apply elem_of_cons. by right.
    + by constructor.
Qed.

Lemma ascending_take (ix : list value) (j : nat) : ascending ix -> ascending (take j ix).
Proof.
  intros (ks & -> & Hs). exists (take j ks). split; [by rewrite fmap_take|].
  rewrite <- (take_drop j ks) in Hs. by apply StronglySorted_app_1_l in Hs.
Qed.

Lemma numeric_map_insert (h : gmap value value) (o : value) (z : Z) :
  numeric_map h -> numeric_map (<[o := VNum z]> h).
Proof.
  intros Hh o' k. destruct (decide (o = o')) as [->|Hne].
  - rewrite lookup_insert_eq. intros [= <-]. eauto.
  - rewrite lookup_insert_ne by done. apply Hh.
Qed.

Lemma numeric_map_delete (h : gmap value value) (o : value) :
  numeric_map h -> numeric_map (delete o h).
Proof.
  intros Hh o' k. destruct (decide (o = o')) as [->|Hne].
  - by rewrite lookup_delete_eq.
  - rewrite lookup_delete_ne by done. apply Hh.
Qed.

Lemma py_abs_Val (x p : value) : py_abs x = Val p -> exists z : Z, x = VNum z.
Proof. destruct x; try discriminate. eauto. Qed.

Lemma py_gt_Val_true (x : value) : py_gt x (VNum 0) = Val true -> exists z : Z, x = VNum z /\ 0 < z.
Proof.
  destruct x as [|z|]; try discriminate. cbn. intros [= H].
  exists z. split; [done|]. by apply Z.ltb_lt.
Qed.

Lemma placeable_unknown (s : book) (delta : list value) (side : bool)
    (price size order_id index_price : value) :
  placeable s delta = true ->
  py_getitem delta 0 = Val price -> py_getitem delta 1 = Val size ->
  py_getitem delta 2 = Val order_id ->
  bool_decide (is_Some (_hashmap s !! order_id)) = false ->
  size <> VNum 0 ->
  optional_index_price side price = Val index_price ->
  exists z : Z, index_price = VNum z.
Proof.
  intros Hok H0%py_getitem_Val H1%py_getitem_Val H2%py_getitem_Val Hunknown Hsize Hkey.
  unfold placeable in Hok. rewrite H1, H2, Hunknown in Hok.
  destruct delta as [|[|z|] rest]; try discriminate; cbn in *.
  - destruct size as [|[| |]|]; try discriminate. by destruct Hsize.
  - injection H0 as <-. destruct side; cbn in Hkey; injection Hkey as <-; eauto.
  - destruct size as [|[| |]|]; try discriminate. by destruct Hsize.
Qed.

Ltac numeric_facts :=
  repeat match goal with
  | H : py_abs ?x = Val _ |- _ =>
      let z := fresh "z" in apply py_abs_Val in H as [z H]; try rewrite H in *
  | Hok : placeable ?s ?delta = true,
    H0 : py_getitem ?delta 0 = Val ?price,
    H1 : py_getitem ?delta 1 = Val ?size,
    H2 : py_getitem ?delta 2 = Val ?oid,
    Hk : bool_decide (is_Some (_hashmap ?s !! ?oid)) = false,
    Hi : optional_index_price ?side ?price = Val ?ip |- _ =>
      is_var ip;
      let z := fresh "z" in
      let Hz := fresh "Hz" in
      assert (exists z : Z, ip = VNum z) as [z Hz]
        by (apply (placeable_unknown s delta side price size oid ip Hok H0 H1 H2 Hk);
            [intros ->; discriminate | exact Hi]);
      subst ip
  end.

Ltac inv_leaf :=
  unfold indexed_inv; cbn [levels _index _hashmap _depth _n];
  split;
  eauto using ascending_insert, ascending_delitem, ascending_setitem, ascending_delete,
    numeric_map_insert, numeric_map_delete.

Lemma indexed_store_inv (side : bool) (delta : list value) (s : book) :
  indexed_inv s -> placeable s delta = true ->
  indexed_inv (state_of (IndexedOrderBookSide_storeArray side delta s)).
Proof.
  intros HI Hok. apply wp_state_of.
  unfold IndexedOrderBookSide_storeArray, insert_new_price_level, remove_order,
    remove_old_price_level; cbv zeta.
  destruct HI as [Hasc Hnm].
  repeat (wp_step; numeric_facts); try (by inv_leaf).

Qed.

Lemma py_gt_twice (size : value) (b1 b2 : bool) :
  py_gt size (VNum 0) = Val b1 -> py_gt size (VNum 0) = Val b2 -> b1 = b2.
Proof. congruence. Qed.

Lemma incremental_indexed_store_inv (side : bool) (delta : list value) (s : book) :
  indexed_inv s -> placeable s delta = true ->
  indexed_inv (state_of (IncrementalIndexedOrderBookSide_storeArray side delta s)).
Proof.
  intros HI Hok. apply wp_state_of.
  unfold IncrementalIndexedOrderBookSide_storeArray, insert_new_price_level, remove_order,
    remove_old_price_level; cbv zeta.
  destruct HI as [Hasc Hnm].
  repeat (wp_step; cbv beta; cbn iota; numeric_facts); try (by inv_leaf).
  all: match goal with
       | Ha : py_gt ?x _ = Val ?b, Hb : py_gt ?x _ = Val true |- _ =>
           pose proof (py_gt_twice _ _ _ Ha Hb); subst b; discriminate
       end.
Qed.

Lemma indexed_storeArray_inv (v : variant) (side : bool) (delta : list value) (s : book) :
  is_indexed v = true ->
  indexed_inv s -> placeable s delta = true ->
  indexed_inv (state_of (storeArray v side delta s)).
Proof.
  intros Hv. destruct v; try discriminate; cbn [storeArray].
  - apply indexed_store_inv.
  - apply incremental_indexed_store_inv.
Qed.

Lemma numeric_map_forget (v : variant) (popped : list (list value)) (h : gmap value value) :
  numeric_map h -> numeric_map (forget v popped h).
Proof.
  intros Hh. unfold forget. destruct (is_indexed v); [|done].
  induction popped as [|lvl popped IH]; cbn; [done|].
  destruct (lvl !! 2%nat); cbn; [by apply numeric_map_delete|done].
Qed.

Lemma pop_worst_numeric_map (v : variant) :
  preserves (fun s => numeric_map (_hashmap s)) (pop_worst v).
Proof.
  unfold pop_worst, self_pop, index_pop, remove_index.
  apply preserves_bind.
  - intros [lv ix h d n] Hs. mrun. by destruct (py_pop lv).
  - intros order. apply preserves_bind.
    + destruct (is_indexed v); [|apply preserves_ret].
      apply preserves_bind_lift. intros o _. apply preserves_bind.
      * apply preserves_readonly, readonly_hashmap_contains.
      * intros [|]; [|apply preserves_ret].
        intros [lv ix h d n] Hs. by apply numeric_map_delete.
    + intros _ [lv ix h d n] Hs. mrun. by destruct (py_pop ix).
Qed.

Lemma limit_indexed_inv (v : variant) (n : option Z) (s : book) :
  indexed_inv s -> indexed_inv (state_of (limit v n s)).
Proof.
  intros [Hasc Hnm]. split.
  - destruct (limit_index v n s) as [j ->]. by apply ascending_take.
  - clear Hasc. revert s Hnm.
    change (preserves (fun s => numeric_map (_hashmap s)) (limit v n)).
    unfold limit, py_len. apply preserves_bind; [by intros [lv ix h d0 n0] Hs|intros _].
    apply preserves_bind.
    + intros s Hs. mrun. by destruct (_ <? 0).
    + intros len. apply preserves_bind; [by intros s Hs|intros s].
      apply repeat_times_preserves, pop_worst_numeric_map.
Qed.

Lemma run_indexed_inv (v : variant) (side : bool) (ops : list op) (s : book) :
  is_indexed v = true -> placeable_history v side s ops = true ->
  indexed_inv s -> indexed_inv (run v side s ops).
Proof.
  intros Hv. revert s. induction ops as [|o ops IH]; intros s Hops Hs; [done|].
  cbn in Hops. apply andb_prop in Hops as [Ho Hops].
  cbn [run fold_left]. apply IH; [done|].
  destruct o as [delta|n]; cbn [apply_op].
  - by apply indexed_storeArray_inv.
  - by apply limit_indexed_inv.
Qed.


(** * Further properties of the code *)

(** ** Invariants of every history *)

(** X1. In all five classes, on either side and for any depth, after any
    history of [storeArray] and [limit] calls (any arguments, failed calls
    included) the key list and the level list have the same length, and every
    stored level has at least the fields of its class's delta. *)
Theorem lists_stay_parallel (v : variant) (side : bool) (depth : option Z) (ops : list op) :
  let s := run v side (empty_book depth) ops in
  length (_index s) = length (levels s)
  /\ Forall (fun lvl => (arity v <= length lvl)%nat) (levels s).
Proof. apply run_well_formed, empty_book_well_formed. Qed.

(** X2. In the two order-indexed classes, after any history in which every
    delta, when it is applied, states a numeric price or names a known order
    id or has size zero, the key list is a list of numbers in ascending order
    (equal keys allowed) and every key in the id map is a number. *)
Theorem indexed_keys_ascending (v : variant) (side : bool) (depth : option Z)
    (ops : list op) :
  is_indexed v = true ->
  placeable_history v side (empty_book depth) ops = true ->
  let s := run v side (empty_book depth) ops in
  (exists ks : list Z, _index s = VNum <$> ks /\ StronglySorted Z.le ks)
  /\ (forall o k, _hashmap s !! o = Some k -> exists z : Z, k = VNum z).
Proof.
  intros Hv Hops. apply (run_indexed_inv v side ops); [done|done|].
  split; [apply ascending_nil|]. intros o k. cbn. by rewrite lookup_empty.
Qed.

Lemma indexed_keys_ascending_witness :
  let s := run Indexed true (empty_book None) moved_then_removed in
  (exists ks : list Z, _index s = VNum <$> ks /\ StronglySorted Z.le ks)
  /\ (forall o k, _hashmap s !! o = Some k -> exists z : Z, k = VNum z).
Proof. apply indexed_keys_ascending; vm_compute; reflexivity. Defined.

(** ** bisect.bisect_left *)

(** X3. On a list of numbers in ascending order [bisect_left] never raises:
    it returns the position [p], at most the length, with exactly the keys
    smaller than [x] before it; that is the leftmost place where [x] can go. *)
Theorem bisect_left_leftmost (ks : list Z) (x : Z) :
  StronglySorted Z.le ks ->
  exists p : nat,
    bisect_left (VNum <$> ks) (VNum x) = Val p
    /\ (p <= length ks)%nat
    /\ forall (j : nat) (k : Z), ks !! j = Some k -> (j < p)%nat <-> k < x.
Proof.
  intros Hs. destruct (sorted_split ks x Hs) as (l1 & l2 & -> & H1 & H2).
  exists (length l1). split; [by apply bisect_left_split|].
  split; [rewrite length_app; lia|].
  intros j k Hj. by apply (split_position l1 l2 x j k).
Qed.

Lemma bisect_left_leftmost_witness :
  exists p : nat,
    bisect_left (VNum <$> [8; 10; 10; 12]) (VNum 10) = Val p
    /\ (p <= length [8; 10; 10; 12])%nat
    /\ forall (j : nat) (k : Z), [8; 10; 10; 12] !! j = Some k -> (j < p)%nat <-> k < 10.
Proof. apply bisect_left_leftmost. repeat (constructor; try lia). Defined.

Lemma bisect_loop_none (fuel : nat) (a : list value) (lo hi : nat) :
  (lo < hi <= length a)%nat ->
  bisect_loop (S fuel) a VNone lo hi = Exc TypeError.
Proof.
  intros Hlo. cbn [bisect_loop].
  rewrite (proj2 (Nat.ltb_lt _ _)) by lia.
  assert (Hmid : ((lo + hi) / 2 < length a)%nat).
  { pose proof (Nat.div_mod_eq (lo + hi) 2) as Hd.
    pose proof (Nat.mod_upper_bound (lo + hi) 2). lia. }
  destruct (lookup_lt_is_Some_2 a _ Hmid) as [am Ham].
  rewrite (py_getitem_Some _ _ _ Ham). by destruct am.
Qed.

(** X4. At its edges: on the empty list [bisect_left] returns 0 for any
    value and compares nothing; on any other list the key [None] raises
    TypeError at the first comparison; and whatever it returns is a position
    of the list. *)
Theorem bisect_left_edges (a : list value) (x : value) :
  bisect_left [] x = Val 0%nat
  /\ (a <> [] -> bisect_left a VNone = Exc TypeError)
  /\ (forall p : nat, bisect_left a x = Val p -> (p <= length a)%nat).
Proof.
  split; [reflexivity|]. split; [|apply bisect_left_bound].
  intros Ha. unfold bisect_left. apply bisect_loop_none.
  destruct a; [done|]. cbn. lia.
Qed.

Lemma bisect_left_edges_witness :
  bisect_left [VNum 10] VNone = Exc TypeError.
Proof. by apply (bisect_left_edges [VNum 10] VNone). Defined.

(** ** limit *)

(** X5. What [limit(n)] does to a well-formed book with [n >= 0] (or absent)
    and a depth that is not negative: with [s] stored levels it drops the
    last [max(0, min(s, n) - depth)] levels and keys, forgets the order ids of
    the dropped levels, and stores [n]. The count is taken from the visible
    length, so when [n] is at most the depth nothing at all is dropped, however
    many levels are stored. *)
Theorem limit_drops_tail (v : variant) (n : option Z) (s : book) :
  well_formed v s -> 0 <= visible n -> 0 <= _depth s ->
  let len := length (levels s) in
  let kept := (len - Z.to_nat (Z.min (Z.of_nat len) (visible n) - _depth s))%nat in
  limit v n s
    = Ok tt (Book (take kept (levels s)) (take kept (_index s))
                  (forget v (drop kept (levels s)) (_hashmap s))
                  (_depth s) (visible n))
  /\ (visible n <= _depth s ->
      limit v n s = Ok tt (Book (levels s) (_index s) (_hashmap s) (_depth s) (visible n))).
Proof.
  intros [Hpar Hshape] Hn Hd len kept.
  assert (Hspec := limit_spec v n s Hpar Hshape Hn Hd). cbn zeta in Hspec.
  split; [exact Hspec|]. intros Hle. rewrite Hspec.
  replace (Z.to_nat (Z.min (Z.of_nat (length (levels s))) (visible n) - _depth s))
    with 0%nat by lia.
  unfold parallel in Hpar.
  rewrite Nat.sub_0_r, !take_ge, drop_ge, forget_nil by lia. reflexivity.
Qed.

Lemma limit_drops_tail_witness :
  limit Indexed (Some 1) three_orders
    = Ok tt (Book (levels three_orders) (_index three_orders) (_hashmap three_orders)
                  (_depth three_orders) 1).
Proof.
  destruct three_orders_ok as [Hpar Hshape].
  destruct (limit_drops_tail Indexed (Some 1) three_orders) as [_ Hnone].
  - by split.
  - vm_compute. discriminate.
  - vm_compute. discriminate.
  - apply Hnone. vm_compute. discriminate.
Defined.

(** X6. [limit(n)] with a negative [n] raises ValueError, from [len()], after
    [_n] has been set: nothing else changes, and from then on [len()] and
    iteration raise ValueError on the object. *)
Theorem limit_negative (v : variant) (n : Z) (s : book) :
  n < 0 ->
  let s' := Book (levels s) (_index s) (_hashmap s) (_depth s) n in
  limit v (Some n) s = Raise ValueError s'
  /\ py_len s' = Raise ValueError s'
  /\ py_iter s' = Raise ValueError s'
  /\ to_list s' = Raise ValueError s'.
Proof.
  intros Hn s'.
  assert (Hmin : (Z.min (Z.of_nat (length (levels s))) n <? 0) = true)
    by (apply Z.ltb_lt; lia).
  assert (Hneg : (n <? 0) = true) by (by apply Z.ltb_lt).
  repeat split.
  - unfold limit, py_len. mrun. by rewrite Hmin.
  - unfold py_len. mrun. by rewrite Hmin.
  - unfold py_iter. mrun. by rewrite Hneg.
  - unfold to_list, py_iter. mrun. by rewrite Hneg.
Qed.

Lemma limit_negative_witness :
  limit Absolute (Some (-1)) three_asks
    = Raise ValueError
        (Book (levels three_asks) (_index three_asks) (_hashmap three_asks)
              (_depth three_asks) (-1)).
Proof. by apply (limit_negative Absolute (-1) three_asks). Defined.

(** ** Indexed access *)

(** X7. [at(i)] with an integer reads the stored list and never changes the
    object: for [0 <= i < s] it returns the stored level [i], for
    [-s <= i < 0] the stored level [s + i] (so [at(-1)] is the last stored
    level, hidden or not), and for any other [i] it raises IndexError. *)
Theorem getitem_int_cases (s : book) (i : Z) :
  let len := Z.of_nat (length (levels s)) in
  (0 <= i < len ->
     exists lvl, levels s !! Z.to_nat i = Some lvl /\ getitem_int i s = Ok lvl s)
  /\ (- len <= i < 0 ->
     exists lvl, levels s !! Z.to_nat (len + i) = Some lvl /\ getitem_int i s = Ok lvl s)
  /\ (i < - len \/ len <= i -> getitem_int i s = Raise IndexError s).
Proof.
  intros len. unfold getitem_int. mrun. subst len. repeat split.
  - intros Hi.
    destruct (lookup_lt_is_Some_2 (levels s) (Z.to_nat i)) as [lvl Hlvl]; [lia|].
    exists lvl. split; [done|].
    rewrite (proj2 (Z.ltb_ge i 0)) by lia. cbv iota.
    rewrite (proj2 (Z.ltb_ge i 0)), (proj2 (Z.leb_gt _ i)) by lia.
    cbn. by rewrite (py_getitem_Some _ _ _ Hlvl).
  - intros Hi.
    destruct (lookup_lt_is_Some_2 (levels s) (Z.to_nat (Z.of_nat (length (levels s)) + i)))
      as [lvl Hlvl]; [lia|].
    exists lvl. split; [done|].
    rewrite (proj2 (Z.ltb_lt i 0)) by lia. cbv iota.
    rewrite (proj2 (Z.ltb_ge (i + _) 0)), (proj2 (Z.leb_gt _ (i + _))) by lia.
    cbn. rewrite (Z.add_comm i). by rewrite (py_getitem_Some _ _ _ Hlvl).
  - intros [Hi|Hi].
    + rewrite (proj2 (Z.ltb_lt i 0)) by lia. cbv iota.
      by rewrite (proj2 (Z.ltb_lt (i + _) 0)) by lia.
    + rewrite (proj2 (Z.ltb_ge i 0)) by lia. cbv iota.
      rewrite (proj2 (Z.ltb_ge i 0)), (proj2 (Z.leb_le _ i)) by lia.
      done.
Qed.

Lemma getitem_int_cases_witness :
  exists lvl,
    levels three_asks !! Z.to_nat (3 + -1) = Some lvl
    /\ getitem_int (-1) three_asks = Ok lvl three_asks.
Proof.
  destruct (getitem_int_cases three_asks (-1)) as (_ & Hneg & _).
  apply Hneg. vm_compute. split; [intros ?; discriminate|reflexivity].
Defined.

(** ** What a delta never touches *)

Lemma storeArray_caps (v : variant) (side : bool) (delta : list value) (s : book) :
  _depth (state_of (storeArray v side delta s)) = _depth s
  /\ _n (state_of (storeArray v side delta s)) = _n s.
Proof.
  apply (wp_state_of (fun s' => _depth s' = _depth s /\ _n s' = _n s)).
  destruct v; unfold storeArray, OrderBookSide_storeArray, CountedOrderBookSide_storeArray,
    IndexedOrderBookSide_storeArray, IncrementalOrderBookSide_storeArray,
    IncrementalIndexedOrderBookSide_storeArray,
    insert_new_price_level, remove_order, remove_old_price_level; cbv zeta;
    repeat (wp_step; cbv beta; cbn iota); done.
Qed.

Lemma pop_worst_caps (d n : Z) (v : variant) :
  preserves (fun s => _depth s = d /\ _n s = n) (pop_worst v).
Proof.
  unfold pop_worst, self_pop, index_pop, remove_index.
  apply preserves_bind.
  - intros [lv ix h d0 n0] Hs. mrun. by destruct (py_pop lv).
  - intros order. apply preserves_bind.
    + destruct (is_indexed v); [|apply preserves_ret].
      apply preserves_bind_lift. intros o _. apply preserves_bind.
      * apply preserves_readonly, readonly_hashmap_contains.
      * intros [|]; [|apply preserves_ret]. by intros [lv ix h d0 n0] Hs.
    + intros _ [lv ix h d0 n0] Hs. mrun. by destruct (py_pop ix).
Qed.

Lemma limit_caps (v : variant) (n : option Z) (s : book) :
  _depth (state_of (limit v n s)) = _depth s
  /\ _n (state_of (limit v n s)) = visible n.
Proof.
  unfold limit, py_len. mrun.
  destruct (_ <? 0); cbn [state_of _depth _n]; [done|].
  match goal with |- context [repeat_times ?k _ ?s1] =>
    apply (repeat_times_preserves _ _ k (pop_worst_caps (_depth s) (visible n) v) s1)
  end. done.
Qed.

(** X8. A delta never changes the two caps: in every class, whatever the
    delta and whether the call returns or raises, [_depth] and [_n] are after
    [storeArray] what they were before, so a visible length set by [limit]
    stays in force until the next [limit]. [limit(n)] itself always leaves
    [_depth] alone and leaves [_n] equal to [n] ([sys.maxsize] when absent). *)
Theorem caps_persist (v : variant) (side : bool) (delta : list value) (n : option Z)
    (s : book) :
  _depth (state_of (storeArray v side delta s)) = _depth s
  /\ _n (state_of (storeArray v side delta s)) = _n s
  /\ _depth (state_of (limit v n s)) = _depth s
  /\ _n (state_of (limit v n s)) = visible n.
Proof.
  destruct (storeArray_caps v side delta s) as [H1 H2].
  destruct (limit_caps v n s) as [H3 H4]. done.
Qed.

(** ** The order-indexed classes at their edges *)

Lemma bisect_left_none (a : list value) : a <> [] -> bisect_left a VNone = Exc TypeError.
Proof.
  intros Ha. unfold bisect_left. apply bisect_loop_none.
  destruct a; [done|]. cbn. lia.
Qed.

Lemma optional_price_ok (side : bool) (price : value) :
  price = VNone \/ (exists z : Z, price = VNum z) ->
  exists k, optional_index_price side price = Val k.
Proof. intros [->|[z ->]]; [by exists VNone|]. destruct side; by eexists. Qed.

(** X9. In both order-indexed classes, a delta of size zero for an order id
    that is not in the map, with the price absent or a number, returns and
    changes nothing: removing an unknown order is a silent no-op. *)
Theorem indexed_remove_unknown (v : variant) (side : bool) (s : book)
    (price order_id : value) (rest : list value) :
  is_indexed v = true ->
  _hashmap s !! order_id = None ->
  price = VNone \/ (exists z : Z, price = VNum z) ->
  storeArray v side (price :: VNum 0 :: order_id :: rest) s = Ok tt s.
Proof.
  intros Hv Hunknown Hprice.
  destruct (optional_price_ok side price Hprice) as [k Hk].
  assert (Hc : bool_decide (is_Some (_hashmap s !! order_id)) = false).
  { apply bool_decide_eq_false_2. rewrite Hunknown. by intros [? ?]. }
  destruct v; try discriminate; unfold storeArray.
  - unfold IndexedOrderBookSide_storeArray, hashmap_contains. mrun.
    rewrite Hk. mrun. by rewrite Hc.
  - unfold IncrementalIndexedOrderBookSide_storeArray, hashmap_contains. mrun.
    rewrite Hk. mrun. by rewrite Hc.
Qed.

Lemma indexed_remove_unknown_witness :
  storeArray Indexed true [VNone; VNum 0; VStr "Z"] three_orders = Ok tt three_orders.
Proof.
  apply indexed_remove_unknown; [reflexivity|vm_compute; reflexivity|by left].
Defined.

(** X10. In both order-indexed classes, a delta with a positive size, no
    price and an order id that is not in the map is not refused up front. On a
    book with stored keys [storeArray] first records the id with key [None]
    and then raises TypeError in [bisect_left], so the id stays in the map
    with no level; on an empty book it returns, having stored the delta as a
    level with key [None]. *)
Theorem new_order_without_price (v : variant) (side : bool) (s : book)
    (z : Z) (order_id : value) (rest : list value) :
  is_indexed v = true ->
  _hashmap s !! order_id = None ->
  0 < z ->
  let delta := VNone :: VNum z :: order_id :: rest in
  let recorded := <[order_id := VNone]> (_hashmap s) in
  (_index s <> [] ->
   storeArray v side delta s
     = Raise TypeError (Book (levels s) (_index s) recorded (_depth s) (_n s)))
  /\ (_index s = [] ->
      storeArray v side delta s
        = Ok tt (Book (py_insert (levels s) 0 delta) [VNone] recorded (_depth s) (_n s))).
Proof.
  intros Hv Hunknown Hz delta recorded.
  assert (Hc : bool_decide (is_Some (_hashmap s !! order_id)) = false).
  { apply bool_decide_eq_false_2. rewrite Hunknown. by intros [? ?]. }
  assert (Hpos : (0 <? z) = true) by (by apply Z.ltb_lt).
  assert (Htruthy : negb (z =? 0) = true).
  { apply negb_true_iff, Z.eqb_neq. lia. }
  assert (Hnone : optional_index_price side VNone = Val VNone) by reflexivity.
  split; intros Hix.
  - pose proof (bisect_left_none _ Hix) as Hb.
    destruct v; try discriminate; unfold storeArray, delta.
    + unfold IndexedOrderBookSide_storeArray, insert_new_price_level, hashmap_contains,
        hashmap_setitem, index_bisect.
      mrun. rewrite Hnone. mrun. rewrite Hc, Htruthy. mrun. by rewrite Hb.
    + unfold IncrementalIndexedOrderBookSide_storeArray, insert_new_price_level,
        hashmap_contains, hashmap_setitem, index_bisect.
      mrun. rewrite Hnone. mrun. rewrite Hc, Hpos. mrun. rewrite Hpos. mrun.
      by rewrite Hb.
  - destruct v; try discriminate; unfold storeArray, delta.
    + unfold IndexedOrderBookSide_storeArray, insert_new_price_level, hashmap_contains,
        hashmap_setitem, index_bisect, index_insert, self_insert.
      mrun. rewrite Hnone. mrun. rewrite Hc, Htruthy. mrun. by rewrite Hix.
    + unfold IncrementalIndexedOrderBookSide_storeArray, insert_new_price_level,
        hashmap_contains, hashmap_setitem, index_bisect, index_insert, self_insert.
      mrun. rewrite Hnone. mrun. rewrite Hc, Hpos. mrun. rewrite Hpos. mrun.
      by rewrite Hix.
Qed.

Lemma new_order_without_price_witness :
  storeArray Indexed true [VNone; VNum 5; VStr "Z"] three_orders
    = Raise TypeError
        (Book (levels three_orders) (_index three_orders)
              (<[VStr "Z" := VNone]> (_hashmap three_orders))
              (_depth three_orders) (_n three_orders)).
Proof.
  destruct (new_order_without_price Indexed true three_orders 5 (VStr "Z") []) as [H _].
  - reflexivity.
  - vm_compute. reflexivity.
  - lia.
  - apply H. vm_compute. discriminate.
Defined.

(** ** No dead level is ever stored *)

Lemma live_set_size_truthy (lvl : list value) (x : value) :
  (1 < length lvl)%nat -> truthy x = true ->
  exists size, <[1%nat := x]> lvl !! 1%nat = Some size /\ truthy size = true.
Proof. intros Hl Hx. exists x. by rewrite list_lookup_insert_eq. Qed.

Lemma live_set_size_positive (lvl : list value) (x : value) :
  (1 < length lvl)%nat -> py_gt x (VNum 0) = Val true ->
  exists z : Z, <[1%nat := x]> lvl !! 1%nat = Some (VNum z) /\ 0 < z.
Proof.
  intros Hl Hx. apply py_gt_Val_true in Hx as (z & -> & Hz).
  exists z. by rewrite list_lookup_insert_eq.
Qed.

Lemma all_live_insert (v : variant) (lv : list (list value)) (p : nat) (delta : list value) :
  Forall (live v) lv -> live v delta -> Forall (live v) (py_insert lv p delta).
Proof. apply Forall_py_insert. Qed.

Lemma all_live_delitem (v : variant) (lv lv' : list (list value)) (p : nat) :
  Forall (live v) lv -> py_delitem lv p = Val lv' -> Forall (live v) lv'.
Proof. intros Hlv [_ ->]%py_delitem_Val. by apply Forall_delete. Qed.

Lemma all_live_setitem (v : variant) (lv lv' : list (list value)) (p : nat)
    (delta : list value) :
  Forall (live v) lv -> live v delta -> py_setitem lv p delta = Val lv' ->
  Forall (live v) lv'.
Proof. intros Hlv Hd [_ ->]%py_setitem_Val. by apply Forall_insert. Qed.

Ltac live_leaf :=
  unfold all_live in *; cbn [levels _index _hashmap _depth _n] in *;
  repeat match goal with
  | H : py_getitem _ _ = Val _ |- _ => apply py_getitem_Val in H
  end;
  try done;
  first
    [ eapply all_live_delitem; [|eassumption]; eassumption
    | eapply all_live_setitem; [eassumption| |eassumption]
    | apply all_live_insert;
      [first [assumption | eapply all_live_delitem; eassumption]|]
    | apply Forall_insert; [assumption|]
    | idtac ].

Lemma absolute_all_live (side : bool) (delta : list value) (s : book) :
  all_live Absolute s -> all_live Absolute (state_of (OrderBookSide_storeArray side delta s)).
Proof.
  intros HI. apply wp_state_of. unfold OrderBookSide_storeArray.
  repeat wp_step; live_leaf.
  - by apply live_set_size_truthy.
  - match goal with
    | H : delta !! 1%nat = Some ?x |- _ => by exists x
    end.
Qed.

Lemma live_counted_set_size (lvl : list value) (x : value) :
  live Counted lvl -> truthy x = true -> live Counted (<[1%nat := x]> lvl).
Proof.
  intros (size & count & H1 & H2 & Hs & Hc) Hx. exists x, count.
  apply lookup_lt_Some in H1 as Hl.
  rewrite list_lookup_insert_eq by done. by rewrite list_lookup_insert_ne by done.
Qed.

Lemma live_counted_set_count (lvl : list value) (x : value) :
  live Counted lvl -> truthy x = true -> live Counted (<[2%nat := x]> lvl).
Proof.
  intros (size & count & H1 & H2 & Hs & Hc) Hx. exists size, x.
  apply lookup_lt_Some in H2 as Hl.
  rewrite list_lookup_insert_eq by done. by rewrite list_lookup_insert_ne by done.
Qed.

Lemma counted_all_live (side : bool) (delta : list value) (s : book) :
  all_live Counted s ->
  all_live Counted (state_of (CountedOrderBookSide_storeArray side delta s)).
Proof.
  intros HI. apply wp_state_of. unfold CountedOrderBookSide_storeArray.
  repeat wp_step; live_leaf.
  all: try match goal with
       | H : _ && _ = true |- _ => apply andb_prop in H as [? ?]
       end.
  - apply live_counted_set_size; [|done].
    match goal with
    | H : levels s !! _ = Some lvl |- _ => by apply (Forall_lookup_1 _ _ _ _ HI H)
    end.
  - assert (Hlvl : live Counted lvl).
    { match goal with
      | H : levels s !! _ = Some lvl |- _ => by apply (Forall_lookup_1 _ _ _ _ HI H)
      end. }
    assert (Hp : (p < length (levels s))%nat).
    { match goal with
      | H : levels s !! p = Some lvl |- _ => by apply lookup_lt_Some in H
      end. }
    match goal with
    | H : <[_ := _]> _ !! _ = Some _ |- _ =>
        rewrite list_lookup_insert_eq in H by done; injection H as <-
    end.
    apply Forall_insert; [apply Forall_insert; [done|]|].
    + by apply live_counted_set_size.
    + apply live_counted_set_count; [by apply live_counted_set_size|done].
  - match goal with
    | H1 : delta !! 1%nat = Some ?x, H2 : delta !! 2%nat = Some ?y |- _ => by exists x, y
    end.
Qed.

Lemma incremental_all_live (side : bool) (delta : list value) (s : book) :
  all_live Incremental s ->
  all_live Incremental (state_of (IncrementalOrderBookSide_storeArray side delta s)).
Proof.
  intros HI. apply wp_state_of. unfold IncrementalOrderBookSide_storeArray.
  repeat wp_step; live_leaf.
  - by apply live_set_size_positive.
  - match goal with
    | H : py_gt _ _ = Val true |- _ => apply py_gt_Val_true in H as (z & -> & Hz)
    end.
    by exists z.
Qed.

Lemma indexed_all_live (side : bool) (delta : list value) (s : book) :
  all_live Indexed s ->
  all_live Indexed (state_of (IndexedOrderBookSide_storeArray side delta s)).
Proof.
  intros HI. apply wp_state_of.
  unfold IndexedOrderBookSide_storeArray, insert_new_price_level, remove_order,
    remove_old_price_level; cbv zeta.
  assert (Hlive : forall a0 p, delta !! 1%nat = Some a0 -> truthy a0 = true ->
                   live Indexed (<[0%nat := p]> delta)).
  { intros a0 p H0 Ht. exists a0. by rewrite list_lookup_insert_ne. }
  repeat wp_step; live_leaf; eauto.
  all: match goal with
       | H : ?d !! 1%nat = Some ?x |- live _ ?d => exists x; by split
       end.
Qed.

Lemma incremental_indexed_all_live (side : bool) (delta : list value) (s : book) :
  all_live IncrementalIndexed s ->
  all_live IncrementalIndexed
    (state_of (IncrementalIndexedOrderBookSide_storeArray side delta s)).
Proof.
  intros HI. apply wp_state_of.
  unfold IncrementalIndexedOrderBookSide_storeArray, insert_new_price_level, remove_order,
    remove_old_price_level; cbv zeta.
  repeat (wp_step; cbv beta; cbn iota); live_leaf.
  1-3: apply live_set_size_positive; [|done];
    rewrite length_insert;
    match goal with
    | H : ?d !! 1%nat = Some _ |- (1 < length ?d)%nat => by apply lookup_lt_Some in H
    end.
  all: match goal with
       | H1 : ?d !! 1%nat = Some ?x, H : py_gt ?x _ = Val true |- live _ ?d =>
           apply py_gt_Val_true in H as (z & -> & Hz)
       end; by exists z.
Qed.

Lemma storeArray_all_live (v : variant) (side : bool) (delta : list value) (s : book) :
  all_live v s -> all_live v (state_of (storeArray v side delta s)).
Proof.
  destruct v; cbn [storeArray].
  - apply absolute_all_live.
  - apply counted_all_live.
  - apply indexed_all_live.
  - apply incremental_all_live.
  - apply incremental_indexed_all_live.
Qed.

Lemma py_pop_Val {A : Type} (l l' : list A) (x : A) :
  py_pop l = Val (l', x) -> l = l' ++ [x].
Proof.
  destruct (list_snoc_case l) as [->|(l0 & x0 & ->)]; [discriminate|].
  rewrite py_pop_snoc. by intros [= <- <-].
Qed.

Lemma pop_worst_all_live (v : variant) : preserves (all_live v) (pop_worst v).
Proof.
  unfold pop_worst, self_pop, index_pop, remove_index.
  apply preserves_bind.
  - intros [lv ix h d n] Hs. unfold all_live in *. mrun.
    destruct (py_pop lv) as [[lv' x]|] eqn:Hpop; cbn; [|done].
    apply py_pop_Val in Hpop as ->. by apply Forall_app in Hs as [? ?].
  - intros order. apply preserves_bind.
    + destruct (is_indexed v); [|apply preserves_ret].
      apply preserves_bind_lift. intros o _. apply preserves_bind.
      * apply preserves_readonly, readonly_hashmap_contains.
      * intros [|]; [|apply preserves_ret]. by intros [lv ix h d0 n0] Hs.
    + intros _ [lv ix h d0 n0] Hs. mrun. by destruct (py_pop ix).
Qed.

Lemma limit_all_live (v : variant) (n : option Z) : preserves (all_live v) (limit v n).
Proof.
  unfold limit, py_len. apply preserves_bind; [by intros [lv ix h d0 n0] Hs|intros _].
  apply preserves_bind.
  - intros s Hs. mrun. by destruct (_ <? 0).
  - intros len. apply preserves_bind; [by intros s Hs|intros s].
    apply repeat_times_preserves, pop_worst_all_live.
Qed.

Lemma run_all_live (v : variant) (side : bool) (ops : list op) (s : book) :
  all_live v s -> all_live v (run v side s ops).
Proof.
  revert s. induction ops as [|o ops IH]; intros s Hs; [done|].
  cbn [run fold_left]. apply IH. destruct o as [delta|n]; cbn [apply_op].
  - by apply storeArray_all_live.
  - by apply limit_all_live.
Qed.

(** X11. No dead level is ever stored. In every class, after any history of
    [storeArray] and [limit] calls (any arguments, failed calls included),
    every stored level has a nonzero size (Absolute and Order-Indexed), a
    nonzero size and a nonzero count (Counted), or a size that is a positive
    number (Incremental and Incremental + Order-Indexed). *)
Theorem no_dead_level (v : variant) (side : bool) (depth : option Z) (ops : list op) :
  Forall (live v) (levels (run v side (empty_book depth) ops)).
Proof. apply run_all_live. constructor. Qed.

(** ** The price-keyed classes keep their levels best first *)

Lemma keyed_split (side : bool) (lv : list (list value)) (l1 rest : list Z) :
  Forall2 (priced side) lv (VNum <$> (l1 ++ rest)) ->
  exists lv1 lv2,
    lv = lv1 ++ lv2 /\ length lv1 = length l1
    /\ Forall2 (priced side) lv1 (VNum <$> l1)
    /\ Forall2 (priced side) lv2 (VNum <$> rest).
Proof.
  rewrite fmap_app. intros (lv1 & lv2 & H1 & H2 & ->)%Forall2_app_inv_r.
  exists lv1, lv2. repeat split; try done.
  apply Forall2_length in H1. by rewrite length_fmap in H1.
Qed.

Lemma keyed_insert (side : bool) (lv : list (list value)) (l1 l2 : list Z)
    (price : Z) (rest : list value) :
  Forall2 (priced side) lv (VNum <$> (l1 ++ l2)) ->
  Forall2 (priced side) (py_insert lv (length l1) (VNum price :: rest))
    (VNum <$> (l1 ++ sort_key side price :: l2)).
Proof.
  intros (lv1 & lv2 & -> & Hlen & H1 & H2)%keyed_split.
  unfold py_insert. rewrite <- Hlen, take_app_length, drop_app_length.
  rewrite fmap_app. apply Forall2_app; [done|]. constructor; [|done].
  by exists price.
Qed.

Lemma keyed_delete (side : bool) (lv : list (list value)) (l1 l2 : list Z) (key : Z) :
  Forall2 (priced side) lv (VNum <$> (l1 ++ key :: l2)) ->
  py_delitem lv (length l1)
    = Val (delete (length l1) lv)
  /\ Forall2 (priced side) (delete (length l1) lv) (VNum <$> (l1 ++ l2)).
Proof.
  intros Hk. pose proof (Forall2_length _ _ _ Hk) as Hlen.
  rewrite length_fmap, length_app in Hlen. cbn in Hlen.
  split; [apply py_delitem_lt; lia|].
  rewrite <- delete_split with (key := key). by apply Forall2_delete.
Qed.

Lemma keyed_level_setitem (side : bool) (i j : nat) (x : value) :
  j <> 0%nat -> preserves (keyed side) (level_setitem i j x).
Proof.
  intros Hj [lv ix h d n] Hk. unfold keyed in *. cbn [levels _index] in *.
  unfold level_setitem. mrun.
  destruct (py_getitem lv i) as [lvl|] eqn:Hi; cbn; [|done].
  destruct (py_setitem lvl j x) as [lvl'|] eqn:Hs; cbn; [|done].
  apply py_getitem_Val in Hi. apply py_setitem_Val in Hs as [Hlt ->].
  destruct (Forall2_lookup_l _ _ _ _ _ Hk Hi) as (k & Hik & price & Hp & ->).
  rewrite <- (list_insert_id ix i (VNum (sort_key side price))) by done.
  apply Forall2_insert; [done|]. exists price. split; [|done].
  by rewrite list_lookup_insert_ne.
Qed.

Lemma store_keyed (v : variant) (side : bool) (delta : list value) (s : book) :
  is_indexed v = false -> numeric_price delta = true ->
  sorted_keys s -> keyed side s ->
  keyed side (state_of (storeArray v side delta s)).
Proof.
  intros Hv Hnum Hs Hk.
  destruct (Nat.lt_ge_cases (length delta) (arity v)) as [Hshort|Hlong].
  { by destruct (storeArray_short v side delta s Hshort) as [e ->]. }
  destruct delta as [|[|price|] rest]; try discriminate.
  destruct s as [lv ix h d n]. unfold keyed in *. cbn [levels _index] in Hk.
  destruct (sorted_keys_split ix (sort_key side price) Hs)
    as (l1 & l2 & H1 & H2 & Hsorted & [-> | ->]);
    destruct v; try discriminate; cbn [storeArray];
    destruct rest as [|size [|count rest]]; cbn in Hlong; try lia.
  - rewrite absolute_absent by done.
    destruct (truthy size); cbn; [by apply keyed_insert|done].
  - rewrite absolute_absent by done.
    destruct (truthy size); cbn; [by apply keyed_insert|done].
  - rewrite counted_absent by done.
    destruct (_ && _); cbn; [by apply keyed_insert|done].
  - rewrite incremental_absent by done.
    destruct (py_gt _ _) as [[|]|]; cbn; [by apply keyed_insert|done|done].
  - rewrite incremental_absent by done.
    destruct (py_gt _ _) as [[|]|]; cbn; [by apply keyed_insert|done|done].
  - rewrite absolute_present by done.
    destruct (keyed_delete side lv l1 l2 _ Hk) as [-> Hdel].
    destruct (truthy size); [|done]. by apply (keyed_level_setitem side).
  - rewrite absolute_present by done.
    destruct (keyed_delete side lv l1 l2 _ Hk) as [-> Hdel].
    destruct (truthy size); [|done]. by apply (keyed_level_setitem side).
  - rewrite counted_present by done.
    destruct (keyed_delete side lv l1 l2 _ Hk) as [-> Hdel].
    destruct (_ && _); [|done].
    apply (preserves_bind (keyed side)); [by apply keyed_level_setitem| |done].
    intros _. by apply keyed_level_setitem.
  - rewrite incremental_present by done.
    destruct (keyed_delete side lv l1 l2 _ Hk) as [-> Hdel].
    destruct (_ ≫= _) as [old|]; [|done].
    destruct (py_add _ _) as [size'|]; [|done].
    destruct (py_gt _ _) as [[|]|]; [|done|done].
    by apply (keyed_level_setitem side).
  - rewrite incremental_present by done.
    destruct (keyed_delete side lv l1 l2 _ Hk) as [-> Hdel].
    destruct (_ ≫= _) as [old|]; [|done].
    destruct (py_add _ _) as [size'|]; [|done].
    destruct (py_gt _ _) as [[|]|]; [|done|done].
    by apply (keyed_level_setitem side).
Qed.

Lemma pop_worst_keyed (v : variant) (side : bool) :
  is_indexed v = false -> preserves (keyed side) (pop_worst v).
Proof.
  intros Hv [lv ix h d n] Hk. unfold keyed in *. cbn [levels _index] in *.
  unfold pop_worst, self_pop, index_pop, remove_index. rewrite Hv. mrun.
  destruct (list_snoc_case lv) as [->|(lv' & x & ->)]; [done|].
  rewrite py_pop_snoc. mrun.
  destruct (list_snoc_case ix) as [->|(ix' & k & ->)].
  { apply Forall2_length in Hk. rewrite length_app in Hk. cbn in Hk. lia. }
  rewrite py_pop_snoc. cbn.
  apply Forall2_app_inv in Hk as [Hk _]; [done|].
  apply Forall2_length in Hk. rewrite !length_app in Hk. cbn in Hk. lia.
Qed.

Lemma limit_keyed (v : variant) (side : bool) (n : option Z) :
  is_indexed v = false -> preserves (keyed side) (limit v n).
Proof.
  intros Hv. unfold limit, py_len.
  apply preserves_bind; [by intros [lv ix h d0 n0] Hs|intros _].
  apply preserves_bind.
  - intros s Hs. mrun. by destruct (_ <? 0).
  - intros len. apply preserves_bind; [by intros s Hs|intros s].
    by apply repeat_times_preserves, pop_worst_keyed.
Qed.

Lemma run_keyed (v : variant) (side : bool) (ops : list op) (s : book) :
  is_indexed v = false -> forallb numeric_op ops = true ->
  sorted_keys s -> keyed side s ->
  sorted_keys (run v side s ops) /\ keyed side (run v side s ops).
Proof.
  intros Hv. revert s. induction ops as [|o ops IH]; intros s Hops Hs Hk; [done|].
  cbn in Hops. apply andb_prop in Hops as [Ho Hops].
  cbn [run fold_left]. apply IH; [done| |]; destruct o as [delta|n]; cbn [apply_op].
  - by apply store_sorted.
  - by apply limit_sorted.
  - by apply store_keyed.
  - by apply limit_keyed.
Qed.

Lemma keyed_prices (side : bool) (lv : list (list value)) (ks : list Z) :
  Forall2 (priced side) lv (VNum <$> ks) ->
  exists prices : list Z,
    Forall2 (fun lvl p => lvl !! 0%nat = Some (VNum p)) lv prices
    /\ ks = sort_key side <$> prices.
Proof.
  revert ks. induction lv as [|lvl lv IH]; intros ks Hk.
  - apply Forall2_nil_inv_l in Hk. destruct ks; [|discriminate].
    exists []. by split.
  - apply Forall2_cons_inv_l in Hk as (k & ix' & (price & Hp & ->) & Hk & Heq).
    destruct ks as [|k ks]; [discriminate|]. cbn in Heq. injection Heq as -> <-.
    destruct (IH ks Hk) as (prices & Hprices & ->).
    exists (price :: prices). split; [by constructor|done].
Qed.

Lemma sorted_keys_better (side : bool) (prices : list Z) :
  StronglySorted Z.lt (sort_key side <$> prices) -> StronglySorted (better side) prices.
Proof.
  induction prices as [|p prices IH]; cbn; [constructor|].
  intros [Hall Hs]%StronglySorted_cons. constructor; [by apply IH|].
  apply Forall_forall. intros q Hq.
  assert (Hin : sort_key side q ∈ sort_key side <$> prices)
    by (apply list_elem_of_fmap; eauto).
  pose proof (proj1 (Forall_forall _ _) Hall _ Hin) as Hlt. cbn in Hlt.
  unfold better, sort_key in *. destruct side; lia.
Qed.

(** X12. In the three price-keyed classes, after any history of
    [storeArray] calls with a numeric price and [limit] calls, field 0 of every
    stored level is a numeric price, the key list holds exactly the keys of
    those prices in the same order ([-price] for bids, [price] for asks), and
    the stored prices are strictly best first: ascending for asks, descending
    for bids. *)
Theorem levels_best_first (v : variant) (side : bool) (depth : option Z) (ops : list op) :
  is_indexed v = false ->
  forallb numeric_op ops = true ->
  let s := run v side (empty_book depth) ops in
  exists prices : list Z,
    Forall2 (fun lvl p => lvl !! 0%nat = Some (VNum p)) (levels s) prices
    /\ _index s = VNum <$> (sort_key side <$> prices)
    /\ StronglySorted (better side) prices.
Proof.
  intros Hv Hops.
  destruct (run_keyed v side ops (empty_book depth) Hv Hops) as [(ks & Hix & Hs) Hk].
  - exists []. split; [done|constructor].
  - constructor.
  - unfold keyed in Hk. rewrite Hix in Hk.
    destruct (keyed_prices side _ ks Hk) as (prices & Hprices & ->).
    exists prices. split; [done|]. split; [done|]. by apply sorted_keys_better.
Qed.

Lemma levels_best_first_witness :
  exists prices : list Z,
    Forall2 (fun lvl p => lvl !! 0%nat = Some (VNum p))
      (levels (run Counted true (empty_book None)
                 [OpStore [VNum 10; VNum 1; VNum 2]; OpStore [VNum 12; VNum 1; VNum 1];
                  OpStore [VNum 11; VNum 3; VNum 1]]))
      prices
    /\ _index (run Counted true (empty_book None)
                 [OpStore [VNum 10; VNum 1; VNum 2]; OpStore [VNum 12; VNum 1; VNum 1];
                  OpStore [VNum 11; VNum 3; VNum 1]])
       = VNum <$> (sort_key true <$> prices)
    /\ StronglySorted (better true) prices.
Proof. apply levels_best_first; reflexivity. Defined.

(** ** The Counted strategy, case by case *)

(** X13. CountedOrderBookSide on a book whose key list is strictly
    ascending, with parallel lists and well-shaped levels, for a delta
    [(price, size, count)] of numbers. With the key present at [p]: if size
    and count are both nonzero, fields 1 and 2 of the level at [p] are
    overwritten and nothing else changes; if either is zero, the level and the
    key at [p] are deleted. With the key absent: if both are nonzero the delta
    and the key are inserted at [p]; if either is zero nothing changes. *)
Theorem counted_apply (side : bool) (s : book) (price size count : Z) (ks : list Z) :
  _index s = VNum <$> ks -> StronglySorted Z.lt ks ->
  parallel s -> shaped Counted s ->
  let key := sort_key side price in
  let delta := [VNum price; VNum size; VNum count] in
  let dead := (size =? 0) || (count =? 0) in
  exists p : nat,
    bisect_left (_index s) (VNum key) = Val p
    /\ (key ∈ ks ->
        exists lvl, ks !! p = Some key /\ levels s !! p = Some lvl
          /\ storeArray Counted side delta s = Ok tt
               (if dead
                then Book (delete p (levels s)) (delete p (_index s))
                          (_hashmap s) (_depth s) (_n s)
                else Book (<[p := <[2%nat := VNum count]> (<[1%nat := VNum size]> lvl)]>
                             (levels s))
                          (_index s) (_hashmap s) (_depth s) (_n s)))
    /\ (key ∉ ks ->
        storeArray Counted side delta s = Ok tt
          (if dead then s
           else Book (py_insert (levels s) p delta) (py_insert (_index s) p (VNum key))
                     (_hashmap s) (_depth s) (_n s))).
Proof.
  intros Hix Hsorted Hpar Hshape key delta dead.
  assert (Hdead : truthy (VNum size) && truthy (VNum count) = negb dead).
  { subst dead. cbn [truthy]. by rewrite negb_orb. }
  destruct (keyed_view s ks key Hix Hsorted)
    as (l1 & l2 & H1 & H2 & [(-> & Hnot & Hs)|(-> & Hin & Hs)]);
    exists (length l1).
  - split; [rewrite Hix; by apply bisect_left_split, Forall_lt_le|].
    split; [done|]. intros _.
    rewrite Hs at 1. cbn [storeArray]. unfold delta.
    rewrite counted_absent by done. rewrite Hdead.
    rewrite Hix, insert_split. destruct dead; cbn [negb]; [by rewrite <- Hs|done].
  - assert (Hp : (length l1 < length (levels s))%nat).
    { unfold parallel in Hpar. rewrite Hix, length_fmap, length_app in Hpar.
      cbn in Hpar. lia. }
    destruct (lookup_lt_is_Some_2 _ _ Hp) as [lvl Hlvl].
    assert (Hlen : (2 < length lvl)%nat).
    { pose proof (Forall_lookup_1 _ _ _ _ Hshape Hlvl) as Hl. cbn in Hl. lia. }
    split; [rewrite Hix; apply bisect_left_split; [done|]|].
    { constructor; [lia|by apply Forall_lt_le]. }
    split; [|done]. intros _. exists lvl.
    split; [by rewrite lookup_app_r, Nat.sub_diag by lia|].
    split; [done|].
    rewrite Hs at 1. cbn [storeArray]. unfold delta.
    rewrite counted_present by done. rewrite Hdead.
    rewrite Hix, delete_split. destruct dead; cbn [negb].
    + by rewrite py_delitem_lt.
    + unfold bind. rewrite (level_setitem_ok _ _ _ lvl); [|done|lia].
      rewrite (level_setitem_ok _ _ _ (<[1%nat := VNum size]> lvl));
        [|by apply list_lookup_insert_eq|by rewrite length_insert].
      by rewrite list_insert_insert_eq.
Qed.

Lemma counted_apply_witness :
  exists p : nat,
    bisect_left (_index two_counted_asks) (VNum (sort_key false 12)) = Val p.
Proof.
  destruct (counted_apply false two_counted_asks 12 0 5 [10; 12]) as (p & Hp & _).
  - reflexivity.
  - repeat (constructor; try lia).
  - reflexivity.
  - unfold shaped.
    change (levels two_counted_asks)
      with [[VNum 10; VNum 1; VNum 2]; [VNum 12; VNum 3; VNum 1]].
    repeat constructor.
  - exists p. exact Hp.
Defined.

(** ** The order-indexed classes, one call at a time *)

Lemma ascending_locate (ks : list Z) (key : Z) :
  StronglySorted Z.le ks ->
  exists p : nat,
    bisect_left (VNum <$> ks) (VNum key) = Val p
    /\ (p <= length ks)%nat
    /\ (forall (j : nat) (k : Z), ks !! j = Some k -> (j < p)%nat <-> k < key)
    /\ (key ∈ ks -> ks !! p = Some key).
Proof.
  intros Hs. destruct (sorted_split ks key Hs) as (l1 & l2 & -> & H1 & H2).
  exists (length l1). split; [by apply bisect_left_split|].
  split; [rewrite length_app; lia|].
  split; [intros j k Hj; by apply (split_position l1 l2 key j k)|].
  intros [Hin|Hin]%elem_of_app.
  - pose proof (proj1 (Forall_forall _ _) H1 _ Hin). cbn in *. lia.
  - rewrite lookup_app_r, Nat.sub_diag by lia.
    destruct l2 as [|a l2]; [by apply elem_of_nil in Hin|]. cbn. f_equal.
    apply StronglySorted_app_1_r, StronglySorted_cons in Hs as [Ha _].
    apply Forall_cons in H2 as [Hka _].
    apply elem_of_cons in Hin as [->|Hin]; [done|].
    pose proof (proj1 (Forall_forall _ _) Ha _ Hin). cbn in *. lia.
Qed.

Lemma known_order (s : book) (order_id k : value) :
  _hashmap s !! order_id = Some k ->
  bool_decide (is_Some (_hashmap s !! order_id)) = true.
Proof. intros H. apply bool_decide_eq_true_2. eauto. Qed.

Lemma unknown_order (s : book) (order_id : value) :
  _hashmap s !! order_id = None ->
  bool_decide (is_Some (_hashmap s !! order_id)) = false.
Proof. intros H. apply bool_decide_eq_false_2. rewrite H. by intros [? ?]. Qed.

Lemma optional_index_price_num (side : bool) (price : Z) :
  optional_index_price side (VNum price) = Val (VNum (sort_key side price)).
Proof. by destruct side. Qed.

(** X14. A new order. In both order-indexed classes, on a book whose key
    list is ascending, a delta with a numeric price, a positive size and an
    order id that is not in the map returns: the delta itself becomes a level
    at the leftmost position [p] its key can take, the key goes into the key
    list at [p], and the id is mapped to the key. *)
Theorem indexed_new_order (v : variant) (side : bool) (s : book) (price z : Z)
    (order_id : value) (rest : list value) (ks : list Z) :
  is_indexed v = true ->
  _index s = VNum <$> ks -> StronglySorted Z.le ks ->
  _hashmap s !! order_id = None ->
  0 < z ->
  let key := sort_key side price in
  let delta := VNum price :: VNum z :: order_id :: rest in
  exists p : nat,
    bisect_left (_index s) (VNum key) = Val p
    /\ (forall (j : nat) (k : Z), ks !! j = Some k -> (j < p)%nat <-> k < key)
    /\ storeArray v side delta s
       = Ok tt (Book (py_insert (levels s) p delta) (py_insert (_index s) p (VNum key))
                     (<[order_id := VNum key]> (_hashmap s)) (_depth s) (_n s)).
Proof.
  intros Hv Hix Hs Hunknown Hz key delta.
  destruct (ascending_locate ks key Hs) as (p & Hp & _ & Hpos & _).
  rewrite <- Hix in Hp. exists p. split; [done|]. split; [done|].
  pose proof (unknown_order _ _ Hunknown) as Hc.
  assert (Hpos' : (0 <? z) = true) by (by apply Z.ltb_lt).
  assert (Htruthy : negb (z =? 0) = true) by (apply negb_true_iff, Z.eqb_neq; lia).
  destruct v; try discriminate; unfold storeArray, delta.
  - unfold IndexedOrderBookSide_storeArray, insert_new_price_level, hashmap_contains,
      hashmap_setitem, index_bisect, index_insert, self_insert.
    mrun. rewrite optional_index_price_num. mrun. rewrite Hc, Htruthy. mrun.
    fold key. by rewrite Hp.
  - unfold IncrementalIndexedOrderBookSide_storeArray, insert_new_price_level,
      hashmap_contains, hashmap_setitem, index_bisect, index_insert, self_insert.
    mrun. rewrite optional_index_price_num. mrun. rewrite Hc, Hpos'. mrun.
    rewrite Hpos'. mrun. fold key. by rewrite Hp.
Qed.

Lemma indexed_new_order_witness :
  exists p : nat,
    bisect_left (_index one_bid_order) (VNum (sort_key true 105)) = Val p.
Proof.
  destruct (indexed_new_order Indexed true one_bid_order 105 5 (VStr "B") [] [-100])
    as (p & Hp & _).
  - reflexivity.
  - reflexivity.
  - repeat constructor.
  - vm_compute. reflexivity.
  - lia.
  - exists p. exact Hp.
Defined.

(** X15. Removing an order. In both order-indexed classes, on a book with
    parallel lists and an ascending key list, a delta of size zero whose
    order id is mapped to a stored key [k] returns: it deletes the level and
    the key at the first position [p] that holds [k], and drops the id from
    the map. The price of the delta plays no part (absent or a number). When
    no other order has the key [k], that level is the order's own. *)
Theorem indexed_remove_order (v : variant) (side : bool) (s : book) (price : value) (k : Z)
    (order_id : value) (rest : list value) (ks : list Z) :
  is_indexed v = true ->
  _index s = VNum <$> ks -> StronglySorted Z.le ks -> parallel s ->
  _hashmap s !! order_id = Some (VNum k) -> k ∈ ks ->
  price = VNone \/ (exists z : Z, price = VNum z) ->
  exists p : nat,
    bisect_left (_index s) (VNum k) = Val p
    /\ ks !! p = Some k
    /\ (forall (j : nat), (j < p)%nat -> ks !! j <> Some k)
    /\ storeArray v side (price :: VNum 0 :: order_id :: rest) s
       = Ok tt (Book (delete p (levels s)) (delete p (_index s))
                     (delete order_id (_hashmap s)) (_depth s) (_n s)).
Proof.
  intros Hv Hix Hs Hpar Hk Hin Hprice.
  destruct (ascending_locate ks k Hs) as (p & Hp & _ & Hpos & Hat).
  specialize (Hat Hin). rewrite <- Hix in Hp.
  exists p. split; [done|]. split; [done|]. split.
  { intros j Hj Hjk. apply (Hpos j k Hjk) in Hj. lia. }
  destruct (optional_price_ok side price Hprice) as [ip Hip].
  pose proof (known_order _ _ _ Hk) as Hc.
  assert (Hlt : (p < length ks)%nat) by (by apply lookup_lt_Some in Hat).
  assert (Hpi : (p < length (_index s))%nat) by (by rewrite Hix, length_fmap).
  assert (Hpl : (p < length (levels s))%nat) by (unfold parallel in Hpar; lia).
  destruct v; try discriminate; unfold storeArray.
  - unfold IndexedOrderBookSide_storeArray, remove_order, hashmap_contains,
      hashmap_getitem, hashmap_delitem, index_bisect, index_delitem, self_delitem.
    mrun. rewrite Hip. mrun. rewrite Hc, Hk. mrun. rewrite Hp. mrun.
    rewrite (py_delitem_lt _ _ Hpi). mrun. by rewrite (py_delitem_lt _ _ Hpl).
  - unfold IncrementalIndexedOrderBookSide_storeArray, remove_order, hashmap_contains,
      hashmap_getitem, hashmap_delitem, index_bisect, index_delitem, self_delitem.
    mrun. rewrite Hip. mrun. rewrite Hc, Hk. mrun. rewrite Hp. mrun.
    rewrite (py_delitem_lt _ _ Hpi). mrun. by rewrite (py_delitem_lt _ _ Hpl).
Qed.

Lemma indexed_remove_order_witness :
  exists p : nat, bisect_left (_index one_bid_order) (VNum (-100)) = Val p.
Proof.
  destruct (indexed_remove_order Indexed true one_bid_order VNone (-100) (VStr "A") []
              [-100]) as (p & Hp & _).
  - reflexivity.
  - reflexivity.
  - repeat constructor.
  - reflexivity.
  - vm_compute. reflexivity.
  - by left.
  - by left.
  - exists p. exact Hp.
Defined.

Lemma py_or_key (key k : Z) :
  key = 0 \/ key = k -> py_or (VNum key) (VNum k) = VNum k.
Proof.
  unfold py_or. cbn. intros [->| ->]; [done|].
  destruct (k =? 0) eqn:E; [|done]. apply Z.eqb_eq in E. by subst.
Qed.

Lemma py_or_other (key k : Z) :
  key <> 0 -> py_or (VNum key) (VNum k) = VNum key.
Proof.
  unfold py_or. cbn. intros H. apply Z.eqb_neq in H. by rewrite H.
Qed.

Lemma sorted_delete (ks : list Z) (p : nat) :
  StronglySorted Z.le ks -> StronglySorted Z.le (delete p ks).
Proof.
  intros Hs. rewrite delete_take_drop.
  rewrite <- (take_drop p ks) in Hs.
  apply StronglySorted_app in Hs as (Hx & Hs1 & Hs2).
  apply StronglySorted_app. split; [|split; [done|]].
  - intros x1 x2 Hx1 Hx2. apply Hx; [done|].
    rewrite <- (take_drop 1 (drop p ks)), drop_drop, Nat.add_1_r.
    apply elem_of_app. by right.
  - rewrite <- (take_drop 1 (drop p ks)), drop_drop, Nat.add_1_r in Hs2.
    by apply StronglySorted_app in Hs2 as (_ & _ & Hs2).
Qed.

(** X16. An update of a known order in IndexedOrderBookSide. On a book with
    parallel lists and an ascending key list, take a delta with a numeric
    price (sort key [key]), a nonzero size and an order id mapped to a stored
    key [k0], first found at position [p0]. If [key] is zero or equals [k0],
    the level at [p0] is overwritten by [abs(k0), size, id] and nothing else
    changes. Otherwise the level and the key at [p0] are deleted, and the
    delta, its price replaced by [abs(key)], is inserted with its key at the
    leftmost position [key] can take in the remaining key list; the id is
    mapped to [key]. *)
Theorem indexed_known_order (side : bool) (s : book) (price z k0 : Z)
    (order_id : value) (rest : list value) (ks : list Z) :
  _index s = VNum <$> ks -> StronglySorted Z.le ks -> parallel s ->
  _hashmap s !! order_id = Some (VNum k0) -> k0 ∈ ks ->
  z <> 0 ->
  let key := sort_key side price in
  let delta := VNum price :: VNum z :: order_id :: rest in
  exists p0 : nat,
    bisect_left (_index s) (VNum k0) = Val p0
    /\ ks !! p0 = Some k0
    /\ (key = 0 \/ key = k0 ->
        storeArray Indexed side delta s
        = Ok tt (Book (<[p0 := VNum (Z.abs k0) :: VNum z :: order_id :: rest]> (levels s))
                      (_index s) (_hashmap s) (_depth s) (_n s)))
    /\ (key <> 0 -> key <> k0 ->
        exists p1 : nat,
          bisect_left (delete p0 (_index s)) (VNum key) = Val p1
          /\ storeArray Indexed side delta s
             = Ok tt (Book (py_insert (delete p0 (levels s)) p1
                                      (VNum (Z.abs key) :: VNum z :: order_id :: rest))
                           (py_insert (delete p0 (_index s)) p1 (VNum key))
                           (<[order_id := VNum key]> (_hashmap s)) (_depth s) (_n s))).
Proof.
  intros Hix Hs Hpar Hk Hin Hz key delta.
  destruct (ascending_locate ks k0 Hs) as (p0 & Hp0 & _ & _ & Hat).
  specialize (Hat Hin). rewrite <- Hix in Hp0.
  exists p0. split; [done|]. split; [done|].
  pose proof (known_order _ _ _ Hk) as Hc.
  assert (Htruthy : negb (z =? 0) = true) by (apply negb_true_iff, Z.eqb_neq; lia).
  assert (Hlt : (p0 < length ks)%nat) by (by apply lookup_lt_Some in Hat).
  assert (Hpi : (p0 < length (_index s))%nat) by (by rewrite Hix, length_fmap).
  assert (Hpl : (p0 < length (levels s))%nat) by (unfold parallel in Hpar; lia).
  assert (Hat' : _index s !! p0 = Some (VNum k0))
    by (by rewrite Hix, list_lookup_fmap, Hat).
  split.
  - intros Hkey. unfold storeArray, delta, IndexedOrderBookSide_storeArray,
      hashmap_contains, hashmap_getitem, index_bisect, index_setitem, self_setitem.
    mrun. rewrite optional_index_price_num. mrun. rewrite Hc, Htruthy, Hk. mrun.
    fold key. rewrite (py_or_key key k0 Hkey). mrun.
    rewrite bool_decide_eq_true_2 by done. mrun. rewrite Hp0. mrun.
    rewrite (py_setitem_lt _ _ _ Hpi). mrun. rewrite (py_setitem_lt _ _ _ Hpl). mrun.
    by rewrite (list_insert_id _ _ _ Hat').
  - intros Hnz Hne.
    pose proof (sorted_delete ks p0 Hs) as Hs'.
    destruct (ascending_locate (delete p0 ks) key Hs') as (p1 & Hp1 & _).
    assert (Hdel : delete p0 (_index s) = VNum <$> delete p0 ks)
      by (by rewrite Hix, !delete_take_drop, fmap_app, fmap_take, fmap_drop).
    rewrite <- Hdel in Hp1. exists p1. split; [done|].
    unfold storeArray, delta, IndexedOrderBookSide_storeArray, remove_old_price_level,
      insert_new_price_level, hashmap_contains, hashmap_getitem, hashmap_setitem,
      index_bisect, index_delitem, index_insert, self_delitem, self_insert.
    mrun. rewrite optional_index_price_num. mrun. rewrite Hc, Htruthy, Hk. mrun.
    fold key. rewrite (py_or_other key k0 Hnz). mrun.
    rewrite bool_decide_eq_false_2 by congruence. mrun. rewrite Hp0. mrun.
    rewrite (py_delitem_lt _ _ Hpi). mrun. rewrite (py_delitem_lt _ _ Hpl). mrun.
    by rewrite Hp1.
Qed.

Lemma indexed_known_order_witness :
  storeArray Indexed true [VNum 105; VNum 5; VStr "A"] one_bid_order
  = Ok tt (Book [[VNum 105; VNum 5; VStr "A"]] [VNum (-105)]
                {[ VStr "A" := VNum (-105) ]} sys_maxsize sys_maxsize).
Proof.
  destruct (indexed_known_order true one_bid_order 105 5 (-100) (VStr "A") [] [-100])
    as (p0 & Hp0 & _ & _ & Hmove).
  - reflexivity.
  - repeat constructor.
  - reflexivity.
  - vm_compute. reflexivity.
  - by left.
  - lia.
  - destruct Hmove as (p1 & Hp1 & ->); [vm_compute; congruence..|].
    vm_compute in Hp0. injection Hp0 as <-.
    vm_compute in Hp1. injection Hp1 as <-.
    vm_compute. reflexivity.
Defined.

(** X17. Accumulation in IncrementalIndexedOrderBookSide. Take a delta with
    a positive size [z] for an order id mapped to the key [k0], the price
    absent, or with sort key zero or [k0]; let [p] be where bisect_left puts
    [k0] and let the level stored at [p] carry the size [old]. If
    [z + old > 0], the level at [p] is overwritten by
    [abs(k0), z + old, id] and the key at [p] by [k0]; otherwise the level
    and the key at [p] are deleted and the id is dropped from the map.
    Nothing asks the level at [p] to belong to that order. *)
Theorem incremental_indexed_accumulates (side : bool) (s : book) (price : value)
    (z k0 old : Z) (order_id : value) (rest lvl : list value) (p : nat) :
  parallel s ->
  _hashmap s !! order_id = Some (VNum k0) ->
  price = VNone
  \/ (exists q : Z, price = VNum q /\ (sort_key side q = 0 \/ sort_key side q = k0)) ->
  0 < z ->
  bisect_left (_index s) (VNum k0) = Val p ->
  levels s !! p = Some lvl -> lvl !! 1%nat = Some (VNum old) ->
  storeArray IncrementalIndexed side (price :: VNum z :: order_id :: rest) s
  = if 0 <? z + old
    then Ok tt (Book (<[p := VNum (Z.abs k0) :: VNum (z + old) :: order_id :: rest]>
                        (levels s))
                     (<[p := VNum k0]> (_index s)) (_hashmap s) (_depth s) (_n s))
    else Ok tt (Book (delete p (levels s)) (delete p (_index s))
                     (delete order_id (_hashmap s)) (_depth s) (_n s)).
Proof.
  intros Hpar Hk Hprice Hz Hp Hlvl Hold.
  pose proof (known_order _ _ _ Hk) as Hc.
  assert (Hpos : (0 <? z) = true) by (by apply Z.ltb_lt).
  assert (Hpl : (p < length (levels s))%nat) by (by apply lookup_lt_Some in Hlvl).
  assert (Hpi : (p < length (_index s))%nat) by (unfold parallel in Hpar; lia).
  assert (Hkey : exists ip, optional_index_price side price = Val ip
                            /\ py_or ip (VNum k0) = VNum k0).
  { destruct Hprice as [->|(q & -> & Hq)].
    - by exists VNone.
    - exists (VNum (sort_key side q)). split; [apply optional_index_price_num|].
      by apply py_or_key. }
  destruct Hkey as (ip & Hip & Hor).
  unfold storeArray, IncrementalIndexedOrderBookSide_storeArray, remove_order,
    hashmap_contains, hashmap_getitem, hashmap_delitem, index_bisect, level_getitem,
    index_setitem, self_setitem, index_delitem, self_delitem.
  mrun. rewrite Hip. mrun. rewrite Hc, Hpos. mrun. rewrite Hk. mrun.
  rewrite Hor, Hp. mrun. rewrite (py_getitem_Some _ _ _ Hlvl). mrun.
  rewrite (py_getitem_Some _ _ _ Hold). mrun.
  destruct (0 <? z + old) eqn:E; mrun.
  - rewrite bool_decide_eq_true_2 by done. mrun.
    rewrite (py_setitem_lt _ _ _ Hpi). mrun. by rewrite (py_setitem_lt _ _ _ Hpl).
  - rewrite Hk. mrun. rewrite Hp. mrun.
    rewrite (py_delitem_lt _ _ Hpi). mrun. by rewrite (py_delitem_lt _ _ Hpl).
Qed.

Lemma incremental_indexed_accumulates_witness :
  storeArray IncrementalIndexed false [VNone; VNum 2; VStr "A"] one_incremental_order
  = Ok tt (Book [[VNum 10; VNum 7; VStr "A"]] [VNum 10]
                {[ VStr "A" := VNum 10 ]} sys_maxsize sys_maxsize).
Proof.
  rewrite (incremental_indexed_accumulates false one_incremental_order VNone 2 10 5
             (VStr "A") [] [VNum 10; VNum 5; VStr "A"] 0).
  - vm_compute. reflexivity.
  - reflexivity.
  - vm_compute. reflexivity.
  - by left.
  - lia.
  - reflexivity.
  - reflexivity.
  - reflexivity.
Defined.

(** ** How many levels a book can hold *)

Ltac count_levels :=
  repeat match goal with
    | H : py_delitem _ _ = Val _ |- _ => apply py_delitem_Val in H as [? ->]
    | H : py_setitem _ _ _ = Val _ |- _ => apply py_setitem_Val in H as [? ->]
    end;
  cbn [levels] in *;
  repeat first [rewrite py_insert_length | rewrite length_insert
               | rewrite delete_length_lt by assumption];
  try lia.

Lemma storeArray_count (v : variant) (side : bool) (delta : list value) (s : book) :
  (length (levels s) <= S (length (levels (state_of (storeArray v side delta s))))
   /\ length (levels (state_of (storeArray v side delta s))) <= S (length (levels s)))%nat.
Proof.
  apply (wp_state_of (fun s' => (length (levels s) <= S (length (levels s'))
                                 /\ length (levels s') <= S (length (levels s)))%nat)).
  destruct v; unfold storeArray, OrderBookSide_storeArray, CountedOrderBookSide_storeArray,
    IndexedOrderBookSide_storeArray, IncrementalOrderBookSide_storeArray,
    IncrementalIndexedOrderBookSide_storeArray,
    insert_new_price_level, remove_order, remove_old_price_level; cbv zeta;
    repeat (wp_step; cbv beta; cbn iota); count_levels.
Qed.

Lemma pop_worst_count (L : nat) (v : variant) :
  preserves (fun s => (length (levels s) <= L)%nat) (pop_worst v).
Proof.
  unfold pop_worst, self_pop, index_pop, remove_index.
  apply preserves_bind.
  - intros [lv ix h d0 n0] Hs. mrun. destruct (py_pop lv) as [[lv' x]|] eqn:E; [|done].
    apply py_pop_Val in E as ->. cbn in *. rewrite length_app in Hs. cbn in Hs. lia.
  - intros order. apply preserves_bind.
    + destruct (is_indexed v); [|apply preserves_ret].
      apply preserves_bind_lift. intros o _. apply preserves_bind.
      * apply preserves_readonly, readonly_hashmap_contains.
      * intros [|]; [|apply preserves_ret]. by intros [lv ix h d0 n0] Hs.
    + intros _ [lv ix h d0 n0] Hs. mrun. by destruct (py_pop ix).
Qed.

Lemma limit_count (v : variant) (n : option Z) (s : book) :
  (length (levels (state_of (limit v n s))) <= length (levels s))%nat.
Proof.
  unfold limit, py_len. mrun.
  destruct (_ <? 0); cbn [state_of levels]; [done|].
  match goal with |- context [repeat_times ?k _ ?s1] =>
    apply (repeat_times_preserves _ _ k (pop_worst_count (length (levels s)) v) s1)
  end. done.
Qed.

(** X18. One level per delta at most. In every class and for every delta,
    returned or raised, [storeArray] leaves the number of stored levels
    within one of what it was; [limit] never adds a level. So a book that
    started empty holds no more levels than the calls it has received. *)
Theorem one_level_per_delta (v : variant) (side : bool) :
  (forall (delta : list value) (s : book),
     (length (levels s) <= S (length (levels (state_of (storeArray v side delta s))))
      /\ length (levels (state_of (storeArray v side delta s))) <= S (length (levels s)))%nat)
  /\ (forall (n : option Z) (s : book),
        (length (levels (state_of (limit v n s))) <= length (levels s))%nat)
  /\ (forall (depth : option Z) (ops : list op),
        (length (levels (run v side (empty_book depth) ops)) <= length ops)%nat).
Proof.
  split; [intros; apply storeArray_count|]. split; [intros; apply limit_count|].
  intros depth ops.
  enough (H : forall s, (length (levels (run v side s ops))
                         <= length (levels s) + length ops)%nat) by apply (H (empty_book depth)).
  induction ops as [|o ops IH]; intros s; cbn [run fold_left length]; [lia|].
  fold (run v side (apply_op v side s o) ops).
  specialize (IH (apply_op v side s o)).
  assert (length (levels (apply_op v side s o)) <= S (length (levels s)))%nat; [|lia].
  destruct o as [delta|n]; cbn [apply_op].
  - apply storeArray_count.
  - pose proof (limit_count v n s). lia.
Qed.

(** ** The constructor *)

Lemma store_all_cons (v : variant) (side : bool) (delta : list value)
    (rest : list (list value)) (s : book) :
  store_all v side (delta :: rest) s
  = match storeArray v side delta s with
    | Ok _ s' => store_all v side rest s'
    | Raise e s' => Raise e s'
    end.
Proof. reflexivity. Qed.

Lemma store_all_replay (v : variant) (side : bool) (deltas : list (list value))
    (s s' : book) :
  store_all v side deltas s = Ok tt s' -> s' = run v side s (OpStore <$> deltas).
Proof.
  revert s. induction deltas as [|delta rest IH]; intros s.
  - by intros [= <-].
  - rewrite store_all_cons. cbn [fmap list_fmap run fold_left apply_op].
    destruct (storeArray v side delta s) as [[] s1|e s1] eqn:E; [|discriminate].
    intros H. by apply IH in H.
Qed.

Lemma store_all_stops (v : variant) (side : bool) (good rest : list (list value))
    (bad : list value) (s0 s s' : book) (e : exn) :
  store_all v side good s0 = Ok tt s ->
  storeArray v side bad s = Raise e s' ->
  store_all v side (good ++ bad :: rest) s0 = Raise e s'.
Proof.
  revert s0. induction good as [|delta good IH]; intros s0.
  - intros [= <-] Hbad. rewrite app_nil_l. by rewrite store_all_cons, Hbad.
  - rewrite <- app_comm_cons, !store_all_cons.
    destruct (storeArray v side delta s0) as [[] s1|e1 s1]; [|discriminate].
    apply IH.
Qed.

Lemma store_all_visible (v : variant) (side : bool) (deltas : list (list value))
    (s s' : book) :
  store_all v side deltas s = Ok tt s' -> _n s' = _n s.
Proof.
  revert s. induction deltas as [|delta rest IH]; intros s.
  - by intros [= <-].
  - rewrite store_all_cons.
    destruct (storeArray_caps v side delta s) as [_ Hn].
    destruct (storeArray v side delta s) as [[] s1|e s1]; [|discriminate].
    intros H. apply IH in H. cbn in Hn. congruence.
Qed.

(** X19. The constructor. It starts from the empty book with [_n] at
    sys.maxsize and feeds the deltas to [storeArray] in order. If it
    returns, the object is the one that the same deltas stored one by one
    produce. If a delta raises, the exception leaves the constructor at once:
    the object is as that delta left it and the deltas after it are never
    applied. *)
Theorem constructor_replays (v : variant) (side : bool) (depth : option Z) :
  (forall (deltas : list (list value)) (s : book),
     init v side deltas depth = Ok tt s ->
     s = run v side (empty_book depth) (OpStore <$> deltas) /\ _n s = sys_maxsize)
  /\ (forall (good rest : list (list value)) (bad : list value) (s s' : book) (e : exn),
        init v side good depth = Ok tt s ->
        storeArray v side bad s = Raise e s' ->
        init v side (good ++ bad :: rest) depth = Raise e s').
Proof.
  split.
  - intros deltas s H. split; [by apply store_all_replay|].
    by apply store_all_visible in H.
  - intros good rest bad s s' e. apply store_all_stops.
Qed.

Lemma constructor_replays_witness :
  init Absolute false [[VNum 10; VNum 1]; [VNum 11]; [VNum 12; VNum 1]] None
  = Raise IndexError (Book [[VNum 10; VNum 1]] [VNum 10] ∅ sys_maxsize sys_maxsize).
Proof.
  destruct (constructor_replays Absolute false None) as [_ Hstop].
  apply (Hstop [[VNum 10; VNum 1]] [[VNum 12; VNum 1]] [VNum 11]
           (Book [[VNum 10; VNum 1]] [VNum 10] ∅ sys_maxsize sys_maxsize)).
  - vm_compute. reflexivity.
  - vm_compute. reflexivity.
Defined.

(** ** Slices *)

Lemma range_bounds (start stop step i : Z) :
  step <> 0 -> i ∈ py_range start stop step ->
  (0 < step /\ start <= i < stop) \/ (step < 0 /\ stop < i <= start).
Proof.
  intros Hstep Hi. unfold py_range in Hi.
  apply list_elem_of_fmap in Hi as (k & -> & Hk).
  apply elem_of_seq in Hk as [_ Hk]. unfold range_len in Hk.
  destruct (0 <? step) eqn:E.
  - apply Z.ltb_lt in E. left. split; [done|].
    destruct (start <? stop) eqn:F; [|cbn in Hk; lia].
    apply Z.ltb_lt in F.
    assert (Hq : 0 <= (stop - start - 1) / step) by (apply Z.div_pos; lia).
    assert (Hm : step * ((stop - start - 1) / step) <= stop - start - 1)
      by (apply Z.mul_div_le; lia).
    nia.
  - apply Z.ltb_ge in E. right. split; [lia|].
    destruct (stop <? start) eqn:F; [|cbn in Hk; lia].
    apply Z.ltb_lt in F.
    assert (Hq : 0 <= (start - stop - 1) / (- step)) by (apply Z.div_pos; lia).
    assert (Hm : (- step) * ((start - stop - 1) / (- step)) <= start - stop - 1)
      by (apply Z.mul_div_le; lia).
    nia.
Qed.

Lemma slice_indices_bounds (item : slice) (len start stop step : Z) :
  0 <= len -> slice_indices item len = Val (start, stop, step) ->
  step <> 0
  /\ (0 < step -> 0 <= start /\ stop <= len)
  /\ (step < 0 -> start <= len - 1 /\ -1 <= stop).
Proof.
  intros Hlen. unfold slice_indices.
  destruct (default 1 (sl_step item) =? 0) eqn:E; [discriminate|].
  apply Z.eqb_neq in E. intros [= <- <- <-]. split; [done|].
  destruct (default 1 (sl_step item) <? 0) eqn:F;
    [apply Z.ltb_lt in F|apply Z.ltb_ge in F];
    (split; [intros ?|intros ?]; try lia);
    destruct (sl_start item) as [a|], (sl_stop item) as [b|];
    repeat match goal with |- context [?x <? 0] => destruct (Z.ltb_spec x 0) end; lia.
Qed.

Lemma getitem_int_inside (s : book) (i : Z) :
  0 <= i < Z.of_nat (length (levels s)) ->
  getitem_int i s = Ok (levels s !!! Z.to_nat i) s.
Proof.
  intros Hi. unfold getitem_int. mrun.
  rewrite (proj2 (Z.ltb_ge i 0)) by lia. cbv iota.
  rewrite (proj2 (Z.ltb_ge i 0)), (proj2 (Z.leb_gt _ i)) by lia. cbn.
  destruct (lookup_lt_is_Some_2 (levels s) (Z.to_nat i)) as [lvl Hlvl]; [lia|].
  rewrite (py_getitem_Some _ _ _ Hlvl). cbn.
  by rewrite (list_lookup_total_correct _ _ _ Hlvl).
Qed.

Lemma getitem_each_inside (s : book) (items : list Z) :
  Forall (fun i => 0 <= i < Z.of_nat (length (levels s))) items ->
  getitem_each items s = Ok ((fun i => levels s !!! Z.to_nat i) <$> items) s.
Proof.
  induction 1 as [|i items Hi _ IH]; [done|].
  cbn [getitem_each]. unfold bind at 1. rewrite (getitem_int_inside s i Hi).
  unfold bind. by rewrite IH.
Qed.

Lemma total_lookups_take {A : Type} `{Inhabited A} (l : list A) (n : nat) :
  (n <= length l)%nat ->
  (fun k : nat => l !!! k) <$> seq 0 n = take n l.
Proof.
  intros Hn. apply list_eq. intros i. rewrite list_lookup_fmap.
  destruct (decide (i < n)%nat) as [Hi|Hi].
  - rewrite lookup_seq_lt by done. cbn. rewrite lookup_take_lt by done.
    destruct (lookup_lt_is_Some_2 l i) as [x Hx]; [lia|].
    by rewrite Hx, (list_lookup_total_correct _ _ _ Hx).
  - rewrite lookup_seq_ge by lia. cbn. symmetry. apply lookup_take_ge. lia.
Qed.

(** X20. A slice stays inside the visible levels. With [_n] not negative and
    a step that is not 0, [self[start:stop:step]] returns, leaves the object
    alone, and every level it returns is one of the first [min(length, _n)]
    stored levels, whatever the bounds; the integer branch of [__getitem__]
    is only ever asked for positions below [len(self)]. The full slice
    [self[:]] is exactly that visible prefix. *)
Theorem slice_stays_visible (s : book) (item : slice) :
  0 <= _n s -> sl_step item <> Some 0 ->
  let shown := take (Z.to_nat (Z.min (Z.of_nat (length (levels s))) (_n s))) (levels s) in
  (exists r : list (list value),
     getitem_slice item s = Ok r s /\ Forall (fun lvl => lvl ∈ shown) r)
  /\ getitem_slice (Slice None None None) s = Ok shown s.
Proof.
  intros Hn Hstep shown.
  set (len := Z.min (Z.of_nat (length (levels s))) (_n s)).
  assert (Hl0 : 0 <= len) by (unfold len; lia).
  assert (Hl1 : len <= Z.of_nat (length (levels s))) by (unfold len; lia).
  assert (Hlen : py_len s = Ok len s).
  { unfold py_len. mrun. fold len. by rewrite (proj2 (Z.ltb_ge len 0)) by lia. }
  split.
  - destruct (slice_indices item len) as [[[start stop] step]|e] eqn:E.
    + destruct (slice_indices_bounds _ _ _ _ _ Hl0 E) as (Hnz & Hup & Hdown).
      assert (Hin : Forall (fun i => 0 <= i < len) (py_range start stop step)).
      { apply Forall_forall. intros i Hi.
        destruct (range_bounds _ _ _ _ Hnz Hi) as [[Hs Hr]|[Hs Hr]].
        - specialize (Hup Hs). lia.
        - specialize (Hdown Hs). lia. }
      eexists. split.
      * unfold getitem_slice, bind at 1. rewrite Hlen. unfold bind at 1, lift. rewrite E.
        apply getitem_each_inside.
        eapply Forall_impl; [exact Hin|]. cbn. intros i Hi. lia.
      * apply Forall_fmap. eapply Forall_impl; [exact Hin|]. cbn. intros i Hi.
        destruct (lookup_lt_is_Some_2 (levels s) (Z.to_nat i)) as [lvl Hlvl]; [lia|].
        rewrite (list_lookup_total_correct _ _ _ Hlvl).
        apply (list_elem_of_lookup_2 _ (Z.to_nat i)).
        unfold shown. fold len. rewrite lookup_take_lt by lia. done.
    + exfalso. unfold slice_indices in E.
      destruct (default 1 (sl_step item) =? 0) eqn:F; [|discriminate].
      apply Z.eqb_eq in F. destruct (sl_step item) as [z|]; cbn in F; [|lia].
      by subst.
  - unfold getitem_slice, bind at 1. rewrite Hlen. unfold bind at 1, lift.
    cbn [slice_indices sl_start sl_stop sl_step default]. unfold slice_indices. cbn.
    rewrite getitem_each_inside.
    + f_equal. unfold py_range, range_len. cbn.
      destruct (0 <? len) eqn:F.
      * rewrite Z.sub_0_r, Z.div_1_r. replace (len - 1 + 1) with len by lia.
        rewrite <- list_fmap_compose. unfold shown. fold len.
        rewrite <- (total_lookups_take (levels s) (Z.to_nat len)) by lia.
        apply list_fmap_ext. intros _ k _. cbn. f_equal. lia.
      * apply Z.ltb_ge in F. unfold shown. fold len.
        by replace (Z.to_nat len) with 0%nat by lia.
    + apply Forall_forall. intros i Hi.
      destruct (range_bounds 0 len 1 i ltac:(lia) Hi) as [[_ Hr]|[Hs _]]; lia.
Qed.

Lemma slice_stays_visible_witness :
  getitem_slice (Slice None None None) three_asks = Ok [[VNum 9; VNum 1]] three_asks.
Proof.
  destruct (slice_stays_visible three_asks (Slice None None None)) as [_ H].
  - vm_compute. intros ?; discriminate.
  - discriminate.
  - exact H.
Defined.

(** ** A negative depth *)

Lemma repeat_times_add (a b : nat) (body : M unit) (s : book) :
  repeat_times (a + b) body s
  = match repeat_times a body s with
    | Ok _ s' => repeat_times b body s'
    | Raise e s' => Raise e s'
    end.
Proof.
  revert s. induction a as [|a IH]; intros s; [done|].
  cbn [Nat.add repeat_times]. unfold bind.
  destruct (body s) as [[] s1|e s1]; [apply IH|done].
Qed.

Lemma pop_worst_empty (v : variant) (ix : list value) (h : gmap value value) (d n : Z) :
  pop_worst v (Book [] ix h d n) = Raise IndexError (Book [] ix h d n).
Proof. reflexivity. Qed.

(** X21. A negative depth. The constructor keeps a negative [depth] as it is
    (only None and 0 become sys.maxsize). On a well-formed book, when the
    count [len(self) - _depth] that [limit] computes is larger than the
    number of stored levels, which takes a negative depth, [limit] pops
    every level and key, forgets every order id it popped, and then raises
    IndexError from the pop of the empty list. *)
Theorem limit_negative_depth (v : variant) (n : option Z) (s : book) :
  well_formed v s -> 0 <= visible n ->
  Z.of_nat (length (levels s))
    < Z.min (Z.of_nat (length (levels s))) (visible n) - _depth s ->
  _depth s < 0
  /\ limit v n s
     = Raise IndexError
         (Book [] [] (forget v (levels s) (_hashmap s)) (_depth s) (visible n)).
Proof.
  intros [Hpar Hshape] Hn Hk. split; [lia|].
  unfold limit, py_len. mrun.
  replace (Z.min (Z.of_nat (length (levels s))) (visible n) <? 0) with false
    by (symmetry; apply Z.ltb_ge; lia).
  cbn.
  set (k := Z.to_nat (Z.min (Z.of_nat (length (levels s))) (visible n) - _depth s)).
  assert (Hsplit : k = (length (levels s) + S (k - length (levels s) - 1))%nat)
    by (subst k; lia).
  rewrite Hsplit, repeat_times_add, pops_take; cbn; try done.
  rewrite Nat.sub_diag, drop_0. cbn [take repeat_times]. unfold bind.
  by rewrite pop_worst_empty.
Qed.

Lemma limit_negative_depth_witness :
  limit Absolute None (run Absolute false (empty_book (Some (-1))) [OpStore [VNum 10; VNum 1]])
  = Raise IndexError (Book [] [] ∅ (-1) sys_maxsize).
Proof.
  apply (limit_negative_depth Absolute None
           (run Absolute false (empty_book (Some (-1))) [OpStore [VNum 10; VNum 1]])).
  - split; [reflexivity|]. repeat constructor.
  - vm_compute. discriminate.
  - vm_compute. reflexivity.
Defined.
